(** * Conditional-order engine of the Jupiter trading client

    A shallow embedding of the order-trigger evaluation and execution
    logic of the client (`src/contexts/OrderContext.tsx`), of the token
    price cache it relies on (`services/jupiterService.ts`) and of the
    order form that submits drafts (`components/OrderForm.tsx`); then of
    the pair prices of the service and of `contexts/PriceContext.tsx`, of
    the listener registry and the polling of
    `services/websocketService.ts`, and of the order table and the
    dashboard (`components/OrderTable.tsx`, `pages/Dashboard.tsx`) through
    which a user cancels and retries orders.

    Conventions of the embedding.
    - A JavaScript `number` is an IEEE-754 binary64 value: Rocq's primitive
      [float].  Millisecond time stamps (`Date.now()`, `new Date()`) are
      integers and are kept in [Z].
    - A `Map` keyed by strings and the Firestore collection `orders` are
      finite maps [gmap string _].
    - `async` functions are run to completion one after the other: every
      `await` resumes at once.  Interleavings of two pending calls are
      outside this model.
    - Everything that comes from outside the program (the quote provider,
      `Math.random()`, the swap executor, the clock) is an explicit input.
    - Firestore is taken at its documented behaviour: `updateDoc` rejects
      when the document is absent, `addDoc` stores the data under an
      identifier that was not in use.  Transport failures of the store are
      not modelled.
    - A name that no import, declaration or global binds raises a
      `ReferenceError` where it is evaluated.  `OrderContext.tsx` calls
      `getDoc`, which it does not import. *)

From Stdlib Require Import ZArith Floats.PrimFloat List Bool Lia.
From Stdlib Require Import Sorting.Sorted Sorting.Permutation.
From stdpp Require Import gmap strings list fin_maps.

Set Warnings "-inexact-float".
#[local] Open Scope string_scope.

(* ===================================================================== *)
(** ** JavaScript values used by the code *)
(* ===================================================================== *)

Module Js.

Definition number : Type := float.

(** `a <= b` and `a >= b` on numbers; both are false when an operand is
    NaN. *)
Definition le (a b : number) : bool := PrimFloat.leb a b.
Definition ge (a b : number) : bool := PrimFloat.leb b a.

(** Truthiness of a number: `0`, `-0` and `NaN` are falsy. *)
Definition truthy (x : number) : bool :=
  negb (PrimFloat.eqb x 0%float) && negb (PrimFloat.is_nan x).

(** Truthiness of a possibly `undefined` number. *)
Definition truthy_opt (x : option number) : bool :=
  match x with
  | Some v => truthy v
  | None => false
  end.

(** Truthiness of a string: only the empty string is falsy. *)
Definition truthy_str (s : string) : bool :=
  negb (String.eqb s "").

(** A value caught by `catch (error)`: an `Error` instance with its
    message, or anything else. *)
Inductive Thrown : Type :=
| ErrorObj (message : string)
| NonError.

(** `error instanceof Error ? error.message : fallback` *)
Definition message_or (fallback : string) (e : Thrown) : string :=
  match e with
  | ErrorObj m => m
  | NonError => fallback
  end.

End Js.

(* ===================================================================== *)
(** ** services/jupiterService.ts: token prices *)
(* ===================================================================== *)

Module JupiterService.
Import Js.

(** `TOKENS` *)
Module TOKENS.
Definition SOL : string := "So11111111111111111111111111111111111111112".
Definition USDC : string := "EPjFWdd5AufqSSqeM2qN1xzybapC8G4wEGGkZwyTDt1v".
Definition BONK : string := "DezXAZ8z7PnrnRJjz3wXBoRgixCa6xjnB7YaB1pPB263".
Definition USDT : string := "Es9vMFrzaCERmJfrF4H2FYD4KCoNkY11McCe8BenwNYB".
Definition mSOL : string := "mSoLzYCxHdYgdzU16g5QSh3i5K3z3KZK7ytfqcJm7So".
Definition JTO : string := "jtojtomepa8beP8AuQc6eXt5FriJwfFMwQx2v2f9XCi".

(** `Object.values(TOKENS)` *)
Definition values : list string := [SOL; USDC; BONK; USDT; mSOL; JTO].
End TOKENS.

(** `generateFallbackPrice(mint)`; [random] is the value `Math.random()`
    yields in the branch that is taken (the default branch draws none). *)
Definition generateFallbackPrice (mint : string) (random : number) : number :=
  if String.eqb mint TOKENS.SOL then
    (150 + (random * 10 - 5))%float
  else if String.eqb mint TOKENS.USDC || String.eqb mint TOKENS.USDT then
    (1.0 + (random * 0.01 - 0.005))%float
  else if String.eqb mint TOKENS.BONK then
    (0.00001 + random * 0.000001)%float
  else if String.eqb mint TOKENS.mSOL then
    (160 + (random * 10 - 5))%float
  else if String.eqb mint TOKENS.JTO then
    (2.5 + (random * 0.2 - 0.1))%float
  else
    1.0%float.

(** An entry of `tokenPriceCache`. *)
Record PriceEntry : Type := mkPriceEntry {
  price : number;
  timestamp : Z
}.

(** What `axios.get('https://price.jup.ag/v4/price', ...)` followed by
    `response.data.data[mint]?.price` comes to: the request (or the
    access into its body) throws, or it yields a price that may be
    `undefined`. *)
Inductive ProviderReply : Type :=
| ReplyThrows
| ReplyPrice (p : option number).

(** Result of one call of `getTokenPrice`: the value the promise
    resolves to, the cache afterwards, and how many requests were sent
    to the quote provider. *)
Record PriceCall : Type := mkPriceCall {
  returned : option number;
  cacheAfter : gmap string PriceEntry;
  providerCalls : nat
}.

(** `cachedPrice && (now - cachedPrice.timestamp < 30000)` *)
Definition isFresh (now : Z) (cachedPrice : option PriceEntry) : bool :=
  match cachedPrice with
  | Some e => (now - timestamp e <? 30000)%Z
  | None => false
  end.

(** `getTokenPrice(mint)`.  [now] is `Date.now()`, [reply] what the quote
    provider answers if it is asked, [random] the draw of
    `Math.random()` if the fallback is computed. *)
Definition getTokenPrice (mint : string) (now : Z) (reply : ProviderReply)
    (random : number) (tokenPriceCache : gmap string PriceEntry) : PriceCall :=
  let cachedPrice := tokenPriceCache !! mint in
  if isFresh now cachedPrice then
    {| returned := price <$> cachedPrice;
       cacheAfter := tokenPriceCache;
       providerCalls := 0 |}
  else
    match reply with
    | ReplyPrice p =>
        {| returned := p;
           cacheAfter :=
             match p with
             | Some v =>
                 if truthy v
                 then <[mint := mkPriceEntry v now]> tokenPriceCache
                 else tokenPriceCache
             | None => tokenPriceCache
             end;
           providerCalls := 1 |}
    | ReplyThrows =>
        {| returned := Some (generateFallbackPrice mint random);
           cacheAfter := tokenPriceCache;
           providerCalls := 1 |}
    end.

(** `getFallbackPriceRatio(inputMint, outputMint)`; the two draws are
    those of the two calls of `generateFallbackPrice` in the last branch. *)
Definition getFallbackPriceRatio (inputMint outputMint : string)
    (randomIn randomOut : number) : number :=
  if String.eqb inputMint TOKENS.SOL && String.eqb outputMint TOKENS.USDC then
    150%float
  else if String.eqb inputMint TOKENS.USDC && String.eqb outputMint TOKENS.SOL then
    (1 / 150)%float
  else if String.eqb inputMint TOKENS.SOL && String.eqb outputMint TOKENS.BONK then
    15000000%float
  else if String.eqb inputMint TOKENS.USDC && String.eqb outputMint TOKENS.USDT then
    1%float
  else if String.eqb inputMint TOKENS.SOL && String.eqb outputMint TOKENS.mSOL then
    0.95%float
  else
    (generateFallbackPrice inputMint randomIn
     / generateFallbackPrice outputMint randomOut)%float.

(** What one call of `getTokenPrice` meets: the clock, the answer of the
    provider and the draw of `Math.random()`. *)
Record TokenCall : Type := mkTokenCall {
  at_time : Z;
  provider : ProviderReply;
  draw : number
}.

(** Result of one call of `getPriceForPair`: the number the promise
    resolves to, `pairPriceCache` and `tokenPriceCache` afterwards, and
    how many requests were sent to the quote provider. *)
Record PairCall : Type := mkPairCall {
  pairReturned : number;
  pairCacheAfter : gmap string PriceEntry;
  tokenCacheAfter : gmap string PriceEntry;
  pairProviderCalls : nat
}.

(** `${inputMint}-${outputMint}` *)
Definition cacheKey (inputMint outputMint : string) : string :=
  inputMint ++ "-" ++ outputMint.

(** `getPriceForPair(inputMint, outputMint)` of the service.  [now] is its
    own `Date.now()`; [inputCall] and [outputCall] are what the two calls
    of `getTokenPrice` meet, [randomIn] and [randomOut] the draws of the
    fallback ratio. *)
Definition getPriceForPair (inputMint outputMint : string) (now : Z)
    (inputCall outputCall : TokenCall) (randomIn randomOut : number)
    (pairPriceCache tokenPriceCache : gmap string PriceEntry) : PairCall :=
  let cachedPrice := pairPriceCache !! cacheKey inputMint outputMint in
  let lookedUp :=
    let first :=
      getTokenPrice inputMint (at_time inputCall) (provider inputCall)
        (draw inputCall) tokenPriceCache in
    let second :=
      getTokenPrice outputMint (at_time outputCall) (provider outputCall)
        (draw outputCall) (cacheAfter first) in
    let calls := providerCalls first + providerCalls second in
    let fallback :=
      mkPairCall (getFallbackPriceRatio inputMint outputMint randomIn randomOut)
        pairPriceCache (cacheAfter second) calls in
    match returned first, returned second with
    | Some inputPrice, Some outputPrice =>
        if truthy inputPrice && truthy outputPrice then
          let price := (inputPrice / outputPrice)%float in
          mkPairCall price
            (<[cacheKey inputMint outputMint := mkPriceEntry price now]> pairPriceCache)
            (cacheAfter second) calls
        else fallback
    | _, _ => fallback
    end in
  match cachedPrice with
  | Some e =>
      if (now - timestamp e <? 30000)%Z
      then mkPairCall (price e) pairPriceCache tokenPriceCache 0
      else lookedUp
  | None => lookedUp
  end.

End JupiterService.

(* ===================================================================== *)
(** ** contexts/PriceContext.tsx: the pair price the engine asks for *)
(* ===================================================================== *)

Module PriceContext.
Import Js.

(** An entry of the React state `prices`. *)
Record TokenPrice : Type := mkTokenPrice {
  price : number;
  lastUpdated : Z
}.

Definition CACHE_TTL : Z := 30000.

(** `p && (now - p.lastUpdated.getTime() < CACHE_TTL)` *)
Definition isRecent (now : Z) (p : option TokenPrice) : bool :=
  match p with
  | Some e => (now - lastUpdated e <? CACHE_TTL)%Z
  | None => false
  end.

(** Result of one call of the context's `getPriceForPair`: the number
    returned, the cache `pricePairCache` of the context and the two
    caches of the service afterwards, and the requests sent to the quote
    provider. *)
Record Call : Type := mkCall {
  returned : number;
  pricePairCacheAfter : gmap string JupiterService.PriceEntry;
  servicePairCacheAfter : gmap string JupiterService.PriceEntry;
  tokenCacheAfter : gmap string JupiterService.PriceEntry;
  providerCalls : nat
}.

(** `getPriceForPair(inputToken, outputToken)` of the context.  [prices]
    is the state `prices` of the render, [now] the `Date.now()` of this
    call; the remaining inputs are those of the service's
    `getPriceForPair`, should it be called.  `prices[token]` is read as a
    lookup among the entries that were stored (token identifiers are mint
    addresses, none of which names a member of `Object.prototype`); then
    no call inside the `try` block throws, the service's lookup catching
    everything itself, and the `catch` block with its own fallback values
    is never entered. *)
Definition getPriceForPair (prices : gmap string TokenPrice)
    (inputToken outputToken : string) (now : Z)
    (serviceNow : Z) (inputCall outputCall : JupiterService.TokenCall)
    (randomIn randomOut : number)
    (pricePairCache servicePairCache tokenCache : gmap string JupiterService.PriceEntry)
  : Call :=
  let cacheKey := JupiterService.cacheKey inputToken outputToken in
  let lookedUp :=
    let inputPrice := prices !! inputToken in
    let outputPrice := prices !! outputToken in
    match inputPrice, outputPrice with
    | Some i, Some o =>
        if isRecent now inputPrice && isRecent now outputPrice then
          let ratio := (price i / price o)%float in
          Some ratio
        else None
    | _, _ => None
    end in
  let fromService :=
    let answer :=
      JupiterService.getPriceForPair inputToken outputToken serviceNow
        inputCall outputCall randomIn randomOut servicePairCache tokenCache in
    mkCall (JupiterService.pairReturned answer)
      (<[cacheKey := JupiterService.mkPriceEntry (JupiterService.pairReturned answer) now]>
         pricePairCache)
      (JupiterService.pairCacheAfter answer)
      (JupiterService.tokenCacheAfter answer)
      (JupiterService.pairProviderCalls answer) in
  let computed :=
    match lookedUp with
    | Some ratio =>
        mkCall ratio
          (<[cacheKey := JupiterService.mkPriceEntry ratio now]> pricePairCache)
          servicePairCache tokenCache 0
    | None => fromService
    end in
  match pricePairCache !! cacheKey with
  | Some e =>
      if (now - JupiterService.timestamp e <? CACHE_TTL)%Z
      then mkCall (JupiterService.price e) pricePairCache servicePairCache tokenCache 0
      else computed
  | None => computed
  end.

End PriceContext.

(* ===================================================================== *)
(** ** contexts/OrderContext.tsx: the order engine *)
(* ===================================================================== *)

Module OrderContext.
Import Js.

Inductive OrderType : Type := LIMIT | STOP_LOSS | TAKE_PROFIT.

Inductive Status : Type := PENDING | EXECUTING | EXECUTED | FAILED | CANCELLED.

Definition Status_eqb (a b : Status) : bool :=
  match a, b with
  | PENDING, PENDING | EXECUTING, EXECUTING | EXECUTED, EXECUTED
  | FAILED, FAILED | CANCELLED, CANCELLED => true
  | _, _ => false
  end.

(** `interface Order`.  Dates are kept as milliseconds. *)
Record Order : Type := mkOrder {
  id : option string;
  walletAddress : string;
  inputToken : string;
  outputToken : string;
  inputAmount : number;
  orderType : OrderType;
  triggerPrice : number;
  status : Status;
  createdAt : Z;
  executedAt : option Z;
  transactionSignature : option string;
  failureReason : option string;
  amount : option number
}.

(** The argument of `createOrder`:
    `Omit<Order, 'id' | 'walletAddress' | 'status' | 'createdAt'>`, with
    the fields the order form fills in. *)
Module Draft.
Record t : Type := mk {
  inputToken : string;
  outputToken : string;
  inputAmount : number;
  orderType : OrderType;
  triggerPrice : number
}.
End Draft.

(** One field of the object literal handed to `updateDoc`. *)
Inductive Field : Type :=
| F_status (s : Status)
| F_executedAt (d : Z)
| F_transactionSignature (s : string)
| F_failureReason (r : option string).

Definition setField (o : Order) (f : Field) : Order :=
  match f with
  | F_status s =>
      mkOrder (id o) (walletAddress o) (inputToken o) (outputToken o)
        (inputAmount o) (orderType o) (triggerPrice o) s (createdAt o)
        (executedAt o) (transactionSignature o) (failureReason o) (amount o)
  | F_executedAt d =>
      mkOrder (id o) (walletAddress o) (inputToken o) (outputToken o)
        (inputAmount o) (orderType o) (triggerPrice o) (status o) (createdAt o)
        (Some d) (transactionSignature o) (failureReason o) (amount o)
  | F_transactionSignature s =>
      mkOrder (id o) (walletAddress o) (inputToken o) (outputToken o)
        (inputAmount o) (orderType o) (triggerPrice o) (status o) (createdAt o)
        (executedAt o) (Some s) (failureReason o) (amount o)
  | F_failureReason r =>
      mkOrder (id o) (walletAddress o) (inputToken o) (outputToken o)
        (inputAmount o) (orderType o) (triggerPrice o) (status o) (createdAt o)
        (executedAt o) (transactionSignature o) r (amount o)
  end.

Definition setFields (o : Order) (fields : list Field) : Order :=
  fold_left setField fields o.

(** The argument of `executeSwap` (the wallet capability itself carries
    no data beyond its public key). *)
Record SwapParams : Type := mkSwapParams {
  sp_inputToken : string;
  sp_outputToken : string;
  sp_amount : number;
  sp_walletAddress : string
}.

(** What `executeSwap` resolves to: `{success: true, signature}` or
    `{success: false, error}`. *)
Inductive SwapResult : Type :=
| SwapSuccess (signature : string)
| SwapFailure (error : string).

(** What an observer of the engine can see, in order of occurrence. *)
Inductive Event : Type :=
| EvAddDoc (docId : string) (data : Order)
| EvUpdateDoc (docId : string) (before after : Order)
| EvOrderUpdate (orderId : string) (s : Status) (signature : option string)
| EvGetPrice (inputToken outputToken : string)
| EvExecuteSwap (params : SwapParams)
| EvToastSuccess (msg : string)
| EvToastError (msg : string)
| EvToastLoading (msg : string).

(** The `ReferenceError` raised where the unbound name `getDoc` is
    evaluated. *)
Definition ReferenceError_getDoc : Thrown := ErrorObj "getDoc is not defined".

(** Outcome of an awaited call. *)
Inductive Result (A : Type) : Type :=
| Ok (a : A)
| Throw (e : Thrown).
Arguments Ok {A} a.
Arguments Throw {A} e.

(** What one render of `OrderProvider` closes over: the wallet hooks and
    the React state `orders` and `checkingOrders` of that render.  The
    callbacks created by a render keep reading these values, whatever
    `setOrders` or `setCheckingOrders` store for the next render. *)
Record Closure : Type := mkClosure {
  publicKey : option string;
  signTransaction : bool;
  signAllTransactions : bool;
  orders : list Order;
  checkingOrders : bool
}.

Section Engine.

(** The outside world and the three calls that consult it. *)
Context {World : Type}.
Variable getPriceForPair : string -> string -> World -> Result number * World.
Variable executeSwap : SwapParams -> World -> Result SwapResult * World.
Variable newDate : World -> Z * World.

(** The mutable surroundings of the callbacks: the Firestore collection
    `orders`, the outside world, the events so far, and the values last
    handed to `setIsLoading` and `setCheckingOrders`. *)
Record State : Type := mkState {
  docs : gmap string Order;
  world : World;
  trace : list Event;
  isLoading : bool;
  checkingOrdersNext : bool
}.

Definition M (A : Type) : Type := State -> Result A * State.

Definition ret {A} (a : A) : M A := fun st => (Ok a, st).

Definition throw {A} (e : Thrown) : M A := fun st => (Throw e, st).

Definition bind {A B} (m : M A) (k : A -> M B) : M B :=
  fun st =>
    match m st with
    | (Ok a, st') => k a st'
    | (Throw e, st') => (Throw e, st')
    end.

(** `try { body } catch (error) { handler }` *)
Definition try_catch {A} (body : M A) (handler : Thrown -> M A) : M A :=
  fun st =>
    match body st with
    | (Ok a, st') => (Ok a, st')
    | (Throw e, st') => handler e st'
    end.

(** `try { body } finally { cleanup }` *)
Definition try_finally {A} (body : M A) (cleanup : M unit) : M A :=
  fun st =>
    match body st with
    | (r, st') =>
        match cleanup st' with
        | (Ok _, st'') => (r, st'')
        | (Throw e, st'') => (Throw e, st'')
        end
    end.

(** `for (const x of xs) { body }` *)
Fixpoint forOf {A} (xs : list A) (body : A -> M unit) : M unit :=
  match xs with
  | [] => ret tt
  | x :: rest => bind (body x) (fun _ => forOf rest body)
  end.

Definition emit (e : Event) : M unit :=
  fun st => (Ok tt, mkState (docs st) (world st) (trace st ++ [e])
                      (isLoading st) (checkingOrdersNext st)).

Definition setIsLoading (b : bool) : M unit :=
  fun st => (Ok tt, mkState (docs st) (world st) (trace st)
                      b (checkingOrdersNext st)).

Definition setCheckingOrders (b : bool) : M unit :=
  fun st => (Ok tt, mkState (docs st) (world st) (trace st)
                      (isLoading st) b).

(** A call into the outside world. *)
Definition external {A} (f : World -> Result A * World) : M A :=
  fun st =>
    match f (world st) with
    | (r, w) => (r, mkState (docs st) w (trace st)
                      (isLoading st) (checkingOrdersNext st))
    end.

(** `new Date()` *)
Definition now : M Z := external (fun w => let (d, w') := newDate w in (Ok d, w')).

(** `getDoc(doc(db, 'orders', orderId))`.  The module imports `getDocs`,
    `updateDoc`, `addDoc` and others from 'firebase/firestore', but not
    `getDoc`, and nothing else in it binds the name: evaluating the call
    raises [ReferenceError_getDoc] and reads nothing. *)
Definition getDoc (orderId : string) : M (option Order) :=
  throw ReferenceError_getDoc.

(** `updateDoc(doc(db, 'orders', orderId), fields)` *)
Definition updateDoc (orderId : string) (fields : list Field) : M unit :=
  fun st =>
    match docs st !! orderId with
    | Some o =>
        let o' := setFields o fields in
        (Ok tt, mkState (<[orderId := o']> (docs st)) (world st)
                  (trace st ++ [EvUpdateDoc orderId o o'])
                  (isLoading st) (checkingOrdersNext st))
    | None => (Throw (ErrorObj "No document to update"), st)
    end.

(** `addDoc(collection(db, 'orders'), data)`; resolves to `docRef.id`. *)
Definition addDoc (data : Order) : M string :=
  fun st =>
    let docId : string := fresh (dom (docs st)) in
    (Ok docId, mkState (<[docId := data]> (docs st)) (world st)
                 (trace st ++ [EvAddDoc docId data])
                 (isLoading st) (checkingOrdersNext st)).

Notation "x <~ m ;; k" := (bind m (fun x => k))
  (at level 100, m at level 99, k at level 200, right associativity).
Notation "m ;; k" := (bind m (fun _ => k))
  (at level 100, k at level 200, right associativity).

(** `await getPriceForPair(inputToken, outputToken)` *)
Definition fetchPrice (inputToken outputToken : string) : M number :=
  emit (EvGetPrice inputToken outputToken) ;;
  external (getPriceForPair inputToken outputToken).

(** `await executeSwap({...})` *)
Definition callExecuteSwap (params : SwapParams) : M SwapResult :=
  emit (EvExecuteSwap params) ;;
  external (executeSwap params).

(** The `switch (order.orderType)` of `checkOrderTriggers`. *)
Definition shouldExecute_scan (order : Order) (currentPrice : number) : bool :=
  match orderType order with
  | LIMIT => le currentPrice (triggerPrice order)
  | STOP_LOSS => le currentPrice (triggerPrice order)
  | TAKE_PROFIT => ge currentPrice (triggerPrice order)
  end.

(** The `switch (orderData.orderType)` of `createOrder`. *)
Definition shouldExecute_create (orderData : Draft.t) (currentPrice : number) : bool :=
  match Draft.orderType orderData with
  | LIMIT => le currentPrice (Draft.triggerPrice orderData)
  | STOP_LOSS => le currentPrice (Draft.triggerPrice orderData)
  | TAKE_PROFIT => ge currentPrice (Draft.triggerPrice orderData)
  end.

(** `executeOrder(orderId)`, statement by statement.  The call of
    [getDoc] stands outside the `try` of the function, so what it raises
    leaves `executeOrder` as a rejection. *)
Definition executeOrder (cl : Closure) (orderId : string) : M unit :=
  match publicKey cl with
  | None => ret tt
  | Some pk =>
      if negb (signTransaction cl) || negb (signAllTransactions cl) then ret tt
      else
        orderSnap <~ getDoc orderId ;;
        match orderSnap with
        | None => ret tt
        | Some orderData =>
            updateDoc orderId [F_status EXECUTING] ;;
            emit (EvOrderUpdate orderId EXECUTING None) ;;
            try_catch
              (result <~ callExecuteSwap
                           (mkSwapParams (inputToken orderData) (outputToken orderData)
                              (inputAmount orderData) pk) ;;
               match result with
               | SwapSuccess signature =>
                   d <~ now ;;
                   updateDoc orderId
                     [F_status EXECUTED; F_executedAt d;
                      F_transactionSignature signature] ;;
                   emit (EvOrderUpdate orderId EXECUTED (Some signature)) ;;
                   emit (EvToastSuccess "Order executed successfully!")
               | SwapFailure error =>
                   updateDoc orderId
                     [F_status FAILED; F_failureReason (Some error)] ;;
                   emit (EvOrderUpdate orderId FAILED None) ;;
                   emit (EvToastError ("Order execution failed: " ++ error))
               end)
              (fun error =>
                 updateDoc orderId
                   [F_status FAILED;
                    F_failureReason (Some (message_or "Unknown error" error))] ;;
                 emit (EvOrderUpdate orderId FAILED None) ;;
                 emit (EvToastError
                         ("Order execution failed: "
                            ++ message_or "Unknown error" error)))
        end
  end.

(** `orders.filter(order => order.status === 'PENDING')` *)
Definition pendingOrders (cl : Closure) : list Order :=
  List.filter (fun order => Status_eqb (status order) PENDING) (orders cl).

(** The body of the `for` loop of `checkOrderTriggers`, with its own
    `try`/`catch`. *)
Definition checkOne (cl : Closure) (order : Order) : M unit :=
  try_catch
    (currentPrice <~ fetchPrice (inputToken order) (outputToken order) ;;
     let shouldExecute := shouldExecute_scan order currentPrice in
     match id order with
     | Some orderId =>
         if shouldExecute && truthy_str orderId
         then executeOrder cl orderId
         else ret tt
     | None => ret tt
     end)
    (fun _ => ret tt).

(** `checkOrderTriggers()`: one scan cycle. *)
Definition checkOrderTriggers (cl : Closure) : M unit :=
  if checkingOrders cl then ret tt
  else
    setCheckingOrders true ;;
    try_finally
      (forOf (pendingOrders cl) (checkOne cl))
      (setCheckingOrders false).

(** `createOrder(orderData)` *)
Definition createOrder (cl : Closure) (orderData : Draft.t) : M unit :=
  match publicKey cl with
  | None => emit (EvToastError "Please connect your wallet first")
  | Some walletAddress =>
      setIsLoading true ;;
      try_finally
        (try_catch
           (d <~ now ;;
            docRef <~ addDoc
                        (mkOrder None walletAddress
                           (Draft.inputToken orderData) (Draft.outputToken orderData)
                           (Draft.inputAmount orderData) (Draft.orderType orderData)
                           (Draft.triggerPrice orderData) PENDING d
                           None None None None) ;;
            emit (EvToastSuccess "Order created successfully") ;;
            currentPrice <~ fetchPrice (Draft.inputToken orderData)
                                       (Draft.outputToken orderData) ;;
            if shouldExecute_create orderData currentPrice
            then
              emit (EvToastLoading "Order conditions met, executing immediately...") ;;
              executeOrder cl docRef
            else ret tt)
           (fun _ => emit (EvToastError "Failed to create order")))
        (setIsLoading false)
  end.

(** `cancelOrder(orderId)` *)
Definition cancelOrder (cl : Closure) (orderId : string) : M unit :=
  setIsLoading true ;;
  try_finally
    (try_catch
       (updateDoc orderId [F_status CANCELLED] ;;
        emit (EvOrderUpdate orderId CANCELLED None) ;;
        emit (EvToastSuccess "Order cancelled"))
       (fun _ => emit (EvToastError "Failed to cancel order")))
    (setIsLoading false).

(** `retryOrder(orderId)` *)
Definition retryOrder (cl : Closure) (orderId : string) : M unit :=
  setIsLoading true ;;
  try_finally
    (try_catch
       (updateDoc orderId [F_status PENDING; F_failureReason None] ;;
        emit (EvOrderUpdate orderId PENDING None) ;;
        emit (EvToastSuccess "Order retry initiated") ;;
        checkOrderTriggers cl)
       (fun _ => emit (EvToastError "Failed to retry order")))
    (setIsLoading false).

(** The `onSnapshot` listener: the value handed to `setOrders` for the
    documents of [wallet].  In `{id: doc.id, ...data, ...}` a field `id`
    stored in the document itself replaces the document id. *)
Definition orderOfDoc (entry : string * Order) : Order :=
  let (docId, data) := entry in
  mkOrder
    (match id data with
     | Some stored => Some stored
     | None => Some docId
     end)
    (walletAddress data) (inputToken data) (outputToken data)
    (if truthy (inputAmount data) then inputAmount data
     else match amount data with
          | Some a => if truthy a then a else 0%float
          | None => 0%float
          end)
    (orderType data) (triggerPrice data) (status data) (createdAt data)
    (executedAt data) (transactionSignature data) (failureReason data)
    (amount data).

Definition snapshotOrders (wallet : string) (ds : gmap string Order) : list Order :=
  map orderOfDoc
    (List.filter (fun entry => String.eqb (walletAddress (snd entry)) wallet)
       (map_to_list ds)).

(** The closure of the render that follows state [st], for a connected
    wallet with both signing functions. *)
Definition render (wallet : string) (st : State) : Closure :=
  mkClosure (Some wallet) true true (snapshotOrders wallet (docs st))
    (checkingOrdersNext st).

(** The operations of the engine, and runs of them.  Every step names the
    closure whose callback is invoked, so that callbacks of an outdated
    render are covered as well. *)
Inductive Op : Type :=
| OpScan
| OpExecute (orderId : string)
| OpCreate (orderData : Draft.t)
| OpCancel (orderId : string)
| OpRetry (orderId : string).

Definition runOp (cl : Closure) (op : Op) : M unit :=
  match op with
  | OpScan => checkOrderTriggers cl
  | OpExecute orderId => executeOrder cl orderId
  | OpCreate orderData => createOrder cl orderData
  | OpCancel orderId => cancelOrder cl orderId
  | OpRetry orderId => retryOrder cl orderId
  end.

Fixpoint runOps (steps : list (Closure * Op)) (st : State) : State :=
  match steps with
  | [] => st
  | (cl, op) :: rest => runOps rest (snd (runOp cl op st))
  end.

End Engine.

(** The status changes a trace shows: for every `updateDoc`, the document
    and its status before and after. *)
Definition transitions (t : list Event) : list (string * Status * Status) :=
  flat_map (fun e =>
              match e with
              | EvUpdateDoc docId before after =>
                  [(docId, status before, status after)]
              | _ => []
              end) t.

(** The calls of the swap executor a trace shows. *)
Definition swapCalls (t : list Event) : list SwapParams :=
  flat_map (fun e =>
              match e with
              | EvExecuteSwap params => [params]
              | _ => []
              end) t.

(** The documents a trace shows being created. *)
Definition createdDocs (t : list Event) : list string :=
  flat_map (fun e =>
              match e with
              | EvAddDoc docId _ => [docId]
              | _ => []
              end) t.

(** The pairs whose price a trace shows being fetched. *)
Definition priceLookups (t : list Event) : list (string * string) :=
  flat_map (fun e =>
              match e with
              | EvGetPrice inputToken outputToken => [(inputToken, outputToken)]
              | _ => []
              end) t.

(** The order-update notifications a trace shows. *)
Definition orderUpdates (t : list Event) : list (string * Status * option string) :=
  flat_map (fun e =>
              match e with
              | EvOrderUpdate orderId s signature => [(orderId, s, signature)]
              | _ => []
              end) t.

End OrderContext.

(* ===================================================================== *)
(** ** services/websocketService.ts: listeners and polling *)
(* ===================================================================== *)

Module WebSocketService.
Import Js.

(** A listener is a function; only its identity matters here.  Listeners
    are taken not to call back into the service while they run. *)
Definition Listener : Type := nat.

(** A JavaScript `Set`, kept in insertion order: `add` and `delete`. *)
Definition set_add {A : Type} `{EqDecision A} (x : A) (s : list A) : list A :=
  if decide (x ∈ s) then s else s ++ [x].

Definition set_delete {A : Type} `{EqDecision A} (x : A) (s : list A) : list A :=
  filter (fun y => y <> x) s.

(** `PriceUpdateEvent` *)
Record PriceUpdateEvent : Type := mkPriceUpdateEvent {
  tokenMint : string;
  price : number;
  timestamp : Z
}.

(** `OrderUpdateEvent` *)
Record OrderUpdateEvent : Type := mkOrderUpdateEvent {
  orderId : string;
  status : OrderContext.Status;
  transactionSignature : option string
}.

(** The fields of the class.  [pollingInterval] tells whether a timer is
    set; [socket] is `null` or a socket with its `connected` flag. *)
Record Service : Type := mkService {
  socket : option bool;
  priceListeners : gmap string (list Listener);
  orderListeners : gmap string (list Listener);
  connectionListeners : list Listener;
  subscribedTokens : list string;
  subscribedOrders : list string;
  pollingInterval : bool
}.

(** `new WebSocketService()` *)
Definition initial : Service := mkService None ∅ ∅ [] [] [] false.

(** A call of a listener by the service. *)
Inductive Delivery : Type :=
| PriceDelivered (l : Listener) (update : PriceUpdateEvent)
| OrderDelivered (l : Listener) (update : OrderUpdateEvent)
| ConnectionDelivered (l : Listener) (connected : bool).

(** `notifyConnectionListeners(connected)`: every listener is called, each
    inside its own `try`. *)
Definition notifyConnectionListeners (connected : bool) (s : Service) : list Delivery :=
  map (fun l => ConnectionDelivered l connected) (connectionListeners s).

(** `connect()`: `startPolling()` replaces the timer and starts a poll,
    which is a step of its own ([pollPriceUpdates] below); then the
    connection listeners are told `false`. *)
Definition connect (s : Service) : Service * list Delivery :=
  (mkService (socket s) (priceListeners s) (orderListeners s) (connectionListeners s)
     (subscribedTokens s) (subscribedOrders s) true,
   notifyConnectionListeners false s).

(** `disconnect()` *)
Definition disconnect (s : Service) : Service * list Delivery :=
  (mkService None (priceListeners s) (orderListeners s) (connectionListeners s)
     [] [] false,
   notifyConnectionListeners false s).

(** `subscribeToPriceUpdates(tokenMint, listener)` *)
Definition subscribeToPriceUpdates (token : string) (l : Listener) (s : Service)
  : Service :=
  let listeners := default [] (priceListeners s !! token) in
  mkService (socket s)
    (<[token := set_add l listeners]> (priceListeners s))
    (orderListeners s) (connectionListeners s)
    (set_add token (subscribedTokens s))
    (subscribedOrders s) (pollingInterval s).

(** `unsubscribeFromPriceUpdates(tokenMint, listener)` *)
Definition unsubscribeFromPriceUpdates (token : string) (l : Listener) (s : Service)
  : Service :=
  match priceListeners s !! token with
  | None => s
  | Some listeners =>
      let rest := set_delete l listeners in
      if Nat.eqb (length rest) 0 then
        mkService (socket s)
          (delete token (priceListeners s))
          (orderListeners s) (connectionListeners s)
          (set_delete token (subscribedTokens s))
          (subscribedOrders s) (pollingInterval s)
      else
        mkService (socket s)
          (<[token := rest]> (priceListeners s))
          (orderListeners s) (connectionListeners s)
          (subscribedTokens s) (subscribedOrders s) (pollingInterval s)
  end.

(** `subscribeToOrderUpdates(orderId, listener)` *)
Definition subscribeToOrderUpdates (order : string) (l : Listener) (s : Service)
  : Service :=
  let listeners := default [] (orderListeners s !! order) in
  mkService (socket s) (priceListeners s)
    (<[order := set_add l listeners]> (orderListeners s))
    (connectionListeners s) (subscribedTokens s)
    (set_add order (subscribedOrders s)) (pollingInterval s).

(** `unsubscribeFromOrderUpdates(orderId, listener)` *)
Definition unsubscribeFromOrderUpdates (order : string) (l : Listener) (s : Service)
  : Service :=
  match orderListeners s !! order with
  | None => s
  | Some listeners =>
      let rest := set_delete l listeners in
      if Nat.eqb (length rest) 0 then
        mkService (socket s) (priceListeners s)
          (delete order (orderListeners s))
          (connectionListeners s) (subscribedTokens s)
          (set_delete order (subscribedOrders s)) (pollingInterval s)
      else
        mkService (socket s) (priceListeners s)
          (<[order := rest]> (orderListeners s))
          (connectionListeners s) (subscribedTokens s)
          (subscribedOrders s) (pollingInterval s)
  end.

(** `isConnected()`: `this.socket?.connected || false` *)
Definition isConnected (s : Service) : bool :=
  match socket s with
  | Some connected => connected
  | None => false
  end.

(** `subscribeToConnectionStatus(listener)`: the listener is added and
    told the current status at once. *)
Definition subscribeToConnectionStatus (l : Listener) (s : Service)
  : Service * list Delivery :=
  (mkService (socket s) (priceListeners s) (orderListeners s)
     (set_add l (connectionListeners s))
     (subscribedTokens s) (subscribedOrders s) (pollingInterval s),
   [ConnectionDelivered l (isConnected s)]).

(** `unsubscribeFromConnectionStatus(listener)` *)
Definition unsubscribeFromConnectionStatus (l : Listener) (s : Service) : Service :=
  mkService (socket s) (priceListeners s) (orderListeners s)
    (set_delete l (connectionListeners s))
    (subscribedTokens s) (subscribedOrders s) (pollingInterval s).

(** `handlePriceUpdate(data)`: every listener of the token is called, each
    inside its own `try`. *)
Definition handlePriceUpdate (data : PriceUpdateEvent) (s : Service) : list Delivery :=
  map (fun l => PriceDelivered l data)
    (default [] (priceListeners s !! tokenMint data)).

(** `triggerOrderUpdate(data)`, that is `handleOrderUpdate(data)` *)
Definition triggerOrderUpdate (data : OrderUpdateEvent) (s : Service) : list Delivery :=
  map (fun l => OrderDelivered l data)
    (default [] (orderListeners s !! orderId data)).

(** Result of one poll: the calls of listeners, `tokenPriceCache`
    afterwards, and the requests sent to the quote provider. *)
Record Poll : Type := mkPoll {
  deliveries : list Delivery;
  cacheAfterPoll : gmap string JupiterService.PriceEntry;
  pollProviderCalls : nat
}.

(** The loop of `pollPriceUpdates` over `Array.from(subscribedTokens)`.
    [inputs] gives what the call of `getTokenPrice` for a token meets,
    [stamps] the `Date.now()` put into its update.  The poll is followed
    from its start to its end with the service [s] as it is: no other call
    of the service or of the price functions is taken to run while the
    poll awaits a price. *)
Fixpoint pollTokens (s : Service) (tokenMints : list string)
    (inputs : string -> JupiterService.TokenCall) (stamps : string -> Z)
    (tokenPriceCache : gmap string JupiterService.PriceEntry) : Poll :=
  match tokenMints with
  | [] => mkPoll [] tokenPriceCache 0
  | token :: rest =>
      let call :=
        JupiterService.getTokenPrice token
          (JupiterService.at_time (inputs token))
          (JupiterService.provider (inputs token))
          (JupiterService.draw (inputs token)) tokenPriceCache in
      let delivered :=
        match JupiterService.returned call with
        | Some p =>
            if truthy p
            then handlePriceUpdate (mkPriceUpdateEvent token p (stamps token)) s
            else []
        | None => []
        end in
      let later :=
        pollTokens s rest inputs stamps (JupiterService.cacheAfter call) in
      mkPoll (delivered ++ deliveries later) (cacheAfterPoll later)
        (JupiterService.providerCalls call + pollProviderCalls later)
  end.

(** `pollPriceUpdates()` *)
Definition pollPriceUpdates (s : Service)
    (inputs : string -> JupiterService.TokenCall) (stamps : string -> Z)
    (tokenPriceCache : gmap string JupiterService.PriceEntry) : Poll :=
  if Nat.eqb (length (subscribedTokens s)) 0
  then mkPoll [] tokenPriceCache 0
  else pollTokens s (subscribedTokens s) inputs stamps tokenPriceCache.

(** The calls that change the service, and runs of them. *)
Inductive Op : Type :=
| Connect
| Disconnect
| SubscribeToPriceUpdates (token : string) (l : Listener)
| UnsubscribeFromPriceUpdates (token : string) (l : Listener)
| SubscribeToOrderUpdates (order : string) (l : Listener)
| UnsubscribeFromOrderUpdates (order : string) (l : Listener)
| SubscribeToConnectionStatus (l : Listener)
| UnsubscribeFromConnectionStatus (l : Listener).

Definition step (op : Op) (s : Service) : Service :=
  match op with
  | Connect => fst (connect s)
  | Disconnect => fst (disconnect s)
  | SubscribeToPriceUpdates token l => subscribeToPriceUpdates token l s
  | UnsubscribeFromPriceUpdates token l => unsubscribeFromPriceUpdates token l s
  | SubscribeToOrderUpdates order l => subscribeToOrderUpdates order l s
  | UnsubscribeFromOrderUpdates order l => unsubscribeFromOrderUpdates order l s
  | SubscribeToConnectionStatus l => fst (subscribeToConnectionStatus l s)
  | UnsubscribeFromConnectionStatus l => unsubscribeFromConnectionStatus l s
  end.

Definition run (ops : list Op) (s : Service) : Service :=
  fold_left (fun acc op => step op acc) ops s.

(** Every tracked token has listeners, no listener set is empty or holds a
    listener twice, and no token is tracked twice. *)
Definition supported (s : Service) : Prop :=
  NoDup (subscribedTokens s)
  /\ (forall token, token ∈ subscribedTokens s -> is_Some (priceListeners s !! token))
  /\ (forall token ls, priceListeners s !! token = Some ls -> ls <> [] /\ NoDup ls).

(** The tracked tokens are exactly the tokens with a listener. *)
Definition counted (s : Service) : Prop :=
  supported s
  /\ (forall token, is_Some (priceListeners s !! token) -> token ∈ subscribedTokens s).

End WebSocketService.

(* ===================================================================== *)
(** ** components/OrderForm.tsx: submitting a draft *)
(* ===================================================================== *)

Module OrderForm.
Import Js.

(** The state of the form that `handleSubmit` reads. *)
Record FormState : Type := mkFormState {
  inputToken : string;
  outputToken : string;
  inputAmount : string;
  orderType : OrderContext.OrderType;
  triggerPrice : string
}.

Section Form.

Context {World : Type}.
Variable getPriceForPair :
  string -> string -> World -> OrderContext.Result number * World.
Variable executeSwap :
  OrderContext.SwapParams -> World -> OrderContext.Result OrderContext.SwapResult * World.
Variable newDate : World -> Z * World.

(** JavaScript's `parseFloat`. *)
Variable parseFloat : string -> number.

Notation "m ;; k" := (OrderContext.bind m (fun _ => k))
  (at level 100, k at level 200, right associativity).

(** `handleSubmit(e)`; [connected] is the wallet hook's flag, [cl] the
    closure the `createOrder` of the context belongs to.  The result is
    the state of the form afterwards. *)
Definition handleSubmit (connected : bool) (cl : OrderContext.Closure)
    (form : FormState) : OrderContext.M FormState :=
  if negb connected then
    OrderContext.emit (OrderContext.EvToastError "Please connect your wallet first") ;;
    OrderContext.ret form
  else if negb (truthy_str (inputAmount form))
          || le (parseFloat (inputAmount form)) 0%float then
    OrderContext.emit (OrderContext.EvToastError "Please enter a valid amount") ;;
    OrderContext.ret form
  else if negb (truthy_str (triggerPrice form))
          || le (parseFloat (triggerPrice form)) 0%float then
    OrderContext.emit (OrderContext.EvToastError "Please enter a valid trigger price") ;;
    OrderContext.ret form
  else
    OrderContext.try_catch
      (OrderContext.createOrder getPriceForPair executeSwap newDate cl
         (OrderContext.Draft.mk (inputToken form) (outputToken form)
            (parseFloat (inputAmount form)) (orderType form)
            (parseFloat (triggerPrice form))) ;;
       OrderContext.ret
         (mkFormState (inputToken form) (outputToken form) "1"
            (orderType form) ""))
      (fun _ =>
         OrderContext.emit (OrderContext.EvToastError "Failed to create order") ;;
         OrderContext.ret form).

End Form.

End OrderForm.

(* ===================================================================== *)
(** ** components/OrderTable.tsx and pages/Dashboard.tsx: the order lists *)
(* ===================================================================== *)

Module OrderTable.
Import Js OrderContext.

(** The `filter` prop: 'ALL' or one status. *)
Inductive Filter : Type :=
| ALL
| Only (s : Status).

(** `filter === 'ALL' || order.status === filter` *)
Definition matchesFilter (filter : Filter) (order : Order) : bool :=
  match filter with
  | ALL => true
  | Only s => Status_eqb (status order) s
  end.

(** `.sort((a, b) => b.createdAt.getTime() - a.createdAt.getTime())`: the
    stable sort of JavaScript with this comparator puts [b] before [a]
    exactly when [b] is strictly newer, and keeps the order of orders
    created at the same time. *)
Fixpoint insertNewestFirst (a : Order) (sorted : list Order) : list Order :=
  match sorted with
  | [] => [a]
  | b :: rest =>
      if (createdAt a <? createdAt b)%Z
      then b :: insertNewestFirst a rest
      else a :: b :: rest
  end.

Definition sortNewestFirst (l : list Order) : list Order :=
  fold_right insertNewestFirst [] l.

(** [a] may stand before [b] in a list that is sorted newest first. *)
Definition newerOrSame (a b : Order) : Prop :=
  (createdAt b <= createdAt a)%Z.

(** `.slice(0, limit)` for an integer or absent `limit`: a negative end
    counts from the end of the array. *)
Definition slice0 (limit : option Z) (l : list Order) : list Order :=
  match limit with
  | None => l
  | Some e =>
      if (e <? 0)%Z
      then firstn (Z.to_nat (Z.of_nat (length l) + e)) l
      else firstn (Z.to_nat e) l
  end.

(** `filteredOrders` *)
Definition filteredOrders (filter : Filter) (limit : option Z)
    (orders : list Order) : list Order :=
  slice0 limit (sortNewestFirst (List.filter (matchesFilter filter) orders)).

(** The rows the table shows for a closure: none without a public key. *)
Definition rows (cl : Closure) (filter : Filter) (limit : option Z) : list Order :=
  match publicKey cl with
  | None => []
  | Some _ => filteredOrders filter limit (orders cl)
  end.

(** The actions cell of `OrderRow`. *)
Inductive Button : Type := CancelButton | RetryButton | ViewLink.

Definition Button_eqb (a b : Button) : bool :=
  match a, b with
  | CancelButton, CancelButton | RetryButton, RetryButton | ViewLink, ViewLink => true
  | _, _ => false
  end.

Definition buttons (order : Order) : list Button :=
  (if Status_eqb (status order) PENDING then [CancelButton] else [])
  ++ (if Status_eqb (status order) FAILED then [RetryButton] else [])
  ++ (if Status_eqb (status order) EXECUTED
         && match transactionSignature order with
            | Some sg => truthy_str sg
            | None => false
            end
      then [ViewLink] else []).

Section Handlers.

Context {World : Type}.
Variable getPriceForPair : string -> string -> World -> Result number * World.
Variable executeSwap : SwapParams -> World -> Result SwapResult * World.
Variable newDate : World -> Z * World.

(** `handleCancel`: `if (order.id) await onCancel(order.id)` *)
Definition handleCancel (cl : Closure) (order : Order) : @M World unit :=
  match id order with
  | Some orderId =>
      if truthy_str orderId then cancelOrder cl orderId else ret tt
  | None => ret tt
  end.

(** `handleRetry`: `if (order.id) await onRetry(order.id)` *)
Definition handleRetry (cl : Closure) (order : Order) : @M World unit :=
  match id order with
  | Some orderId =>
      if truthy_str orderId
      then retryOrder getPriceForPair executeSwap newDate cl orderId
      else ret tt
  | None => ret tt
  end.

(** A click on button [b] of row number [row] of a table with the given
    props, rendered from the closure [cl] while `isLoading` was
    [loading].  Nothing happens when the row or the button is not there,
    or when the button is disabled. *)
Definition click (cl : Closure) (loading : bool) (filter : Filter)
    (limit : option Z) (row : nat) (b : Button) : @M World unit :=
  match nth_error (rows cl filter limit) row with
  | Some order =>
      if existsb (Button_eqb b) (buttons order) && negb loading
      then
        match b with
        | CancelButton => handleCancel cl order
        | RetryButton => handleRetry cl order
        | ViewLink => ret tt
        end
      else ret tt
  | None => ret tt
  end.

(** The timer of the second effect of `OrderProvider`: it exists only when
    `orders` is not empty, a public key is present and no scan is marked
    as running; each tick awaits `checkOrderTriggers()`. *)
Definition tick (cl : Closure) : @M World unit :=
  match orders cl, publicKey cl with
  | _ :: _, Some _ =>
      if checkingOrders cl then ret tt
      else checkOrderTriggers getPriceForPair executeSwap newDate cl
  | _, _ => ret tt
  end.

(** What a user and the timer can do to the engine, each time through the
    render of the current state: let the timer tick, submit a draft, or
    click a button of a table. *)
Inductive UiOp : Type :=
| UiTick
| UiSubmit (orderData : Draft.t)
| UiClick (filter : Filter) (limit : option Z) (row : nat) (b : Button).

Definition uiStep (wallet : string) (op : UiOp) : @M World unit :=
  fun st =>
    let cl := render wallet st in
    match op with
    | UiTick => tick cl st
    | UiSubmit orderData =>
        createOrder getPriceForPair executeSwap newDate cl orderData st
    | UiClick filter limit row b =>
        click cl (isLoading st) filter limit row b st
    end.

Fixpoint runUi (wallet : string) (ops : list UiOp) (st : @State World) : State :=
  match ops with
  | [] => st
  | op :: rest => runUi wallet rest (snd (uiStep wallet op st))
  end.

End Handlers.

End OrderTable.

Module Dashboard.
Import Js OrderContext.

(** `pendingOrder`: the most recent PENDING order of the selected pair,
    `undefined` when there is none. *)
Definition pendingOrder (orders : list Order) (inputToken outputToken : string)
  : option Order :=
  nth_error
    (OrderTable.sortNewestFirst
       (List.filter
          (fun order =>
             Status_eqb (status order) PENDING
             && String.eqb (OrderContext.inputToken order) inputToken
             && String.eqb (OrderContext.outputToken order) outputToken)
          orders))
    0.

End Dashboard.

(* ===================================================================== *)
(** ** The statements of the specification that are compared with the code *)
(* ===================================================================== *)

Module Spec.
Import Js OrderContext.

(** The trigger rule in the words of the specification:
    LIMIT fires when `currentPrice <= triggerPrice`, STOP_LOSS fires when
    `currentPrice <= triggerPrice`, TAKE_PROFIT fires when
    `currentPrice >= triggerPrice`. *)
Definition shouldExecute (ty : OrderType) (triggerPrice currentPrice : number) : bool :=
  match ty with
  | LIMIT => le currentPrice triggerPrice
  | STOP_LOSS => le currentPrice triggerPrice
  | TAKE_PROFIT => ge currentPrice triggerPrice
  end.

(** The transition graph in the words of the specification:
    PENDING -> EXECUTING -> {EXECUTED | FAILED}; PENDING -> CANCELLED;
    FAILED -> PENDING. *)
Definition transition (a b : Status) : bool :=
  match a, b with
  | PENDING, EXECUTING
  | EXECUTING, EXECUTED
  | EXECUTING, FAILED
  | PENDING, CANCELLED
  | FAILED, PENDING => true
  | _, _ => false
  end.

End Spec.

(* ===================================================================== *)
(** ** Vocabulary for statements about runs of the engine *)
(* ===================================================================== *)

Module Run.
Import Js OrderContext.

(** The wallet hooks of a closure are all present, with public key [pk]. *)
Definition connected (cl : Closure) (pk : string) : Prop :=
  publicKey cl = Some pk
  /\ signTransaction cl = true
  /\ signAllTransactions cl = true.

(** The wallet guard of `executeOrder` lets the call pass. *)
Definition ready (cl : Closure) : bool :=
  match publicKey cl with
  | Some _ => signTransaction cl && signAllTransactions cl
  | None => false
  end.

(** The closure [cl] with another value of the React state `orders`. *)
Definition withOrders (cl : Closure) (os : list Order) : Closure :=
  mkClosure (publicKey cl) (signTransaction cl) (signAllTransactions cl) os
    (checkingOrders cl).

(** The price lookups of a scan over the orders [l]: what an observer
    sees of them, and the outside world they leave behind. *)
Definition lookupEvents (l : list Order) : list Event :=
  map (fun o => EvGetPrice (inputToken o) (outputToken o)) l.

Definition afterLookups {World : Type}
    (getPriceForPair : string -> string -> World -> Result number * World)
    (l : list Order) (w : World) : World :=
  fold_left (fun w' o => snd (getPriceForPair (inputToken o) (outputToken o) w')) l w.

(** The document `createOrder` hands to `addDoc` for the draft
    [orderData], the wallet address [pk] and the creation date [d]. *)
Definition draftDocument (pk : string) (orderData : Draft.t) (d : Z) : Order :=
  mkOrder None pk (Draft.inputToken orderData) (Draft.outputToken orderData)
    (Draft.inputAmount orderData) (Draft.orderType orderData)
    (Draft.triggerPrice orderData) PENDING d None None None None.

(** [o'] differs from [o] at most in the four fields `updateDoc` is ever
    given: `status`, `executedAt`, `transactionSignature` and
    `failureReason`. *)
Definition sameParameters (o o' : Order) : Prop :=
  id o' = id o
  /\ walletAddress o' = walletAddress o
  /\ inputToken o' = inputToken o
  /\ outputToken o' = outputToken o
  /\ inputAmount o' = inputAmount o
  /\ orderType o' = orderType o
  /\ triggerPrice o' = triggerPrice o
  /\ createdAt o' = createdAt o
  /\ amount o' = amount o.

(** A status change (document, status before, status after) that a run
    with the steps [steps] may show: CANCELLED written by a cancel of that
    document, PENDING written by a retry of that document, or an edge of
    the graph of the specification. *)
Definition allowedIn (steps : list (Closure * Op)) (t : string * Status * Status)
  : Prop :=
  (snd t = CANCELLED /\ exists cl, In (cl, OpCancel (fst (fst t))) steps)
  \/ (snd t = PENDING /\ exists cl, In (cl, OpRetry (fst (fst t))) steps)
  \/ Spec.transition (snd (fst t)) (snd t) = true.

(** The two status changes a user can cause through the buttons of the
    order table: Cancel on a PENDING order, Retry on a FAILED one. *)
Definition byButton (t : string * Status * Status) : Prop :=
  (snd (fst t), snd t) = (PENDING, CANCELLED)
  \/ (snd (fst t), snd t) = (FAILED, PENDING).

(** No stored document has a field `id` of its own.  This is so for every
    document `createOrder` stores, and no `updateDoc` of the engine
    changes it. *)
Definition withoutIdField (ds : gmap string Order) : Prop :=
  map_Forall (fun _ data => id data = None) ds.

End Run.

(* ===================================================================== *)
(** ** Sample surroundings used to run the code on concrete inputs *)
(* ===================================================================== *)

Module Sample.
Import Js OrderContext.

(** An outside world without state: the pair price is always [p], the
    swap executor always answers [r], the clock always shows [d]. *)
Definition priceIs (p : number) (_ _ : string) (w : unit) : Result number * unit :=
  (Ok p, w).

(** An outside world in which the price lookup throws [e]. *)
Definition priceFails (e : Thrown) (_ _ : string) (w : unit) : Result number * unit :=
  (Throw e, w).

Definition swapAnswers (r : Result SwapResult) (_ : SwapParams) (w : unit)
  : Result SwapResult * unit := (r, w).

Definition clockShows (d : Z) (w : unit) : Z * unit := (d, w).

Definition emptyState : @State unit := mkState ∅ tt [] false false.

Definition wallet : string := "wallet-1".

(** A closure for a connected wallet whose `orders` state is [os]. *)
Definition closureWith (os : list Order) : Closure :=
  mkClosure (Some wallet) true true os false.

Definition solUsdc (ty : OrderType) (amount trigger : number) : Draft.t :=
  Draft.mk JupiterService.TOKENS.SOL JupiterService.TOKENS.USDC amount ty trigger.

(** A stored order of [wallet] selling SOL for USDC. *)
Definition storedOrder (ty : OrderType) (trigger : number) (s : Status)
    (reason : option string) : Order :=
  mkOrder None wallet JupiterService.TOKENS.SOL JupiterService.TOKENS.USDC
    1%float ty trigger s 1000%Z None None reason None.

(** A state whose collection holds the single document "0". *)
Definition stateWith (o : Order) : @State unit :=
  mkState {["0" := o]} tt [] false false.

(** A few values of JavaScript's `parseFloat`. *)
Definition parseFloat (s : string) : number :=
  if String.eqb s "0" then 0%float
  else if String.eqb s "1" then 1%float
  else if String.eqb s "-1" then (-1)%float
  else if String.eqb s "160" then 160%float
  else nan.

End Sample.

(* ===================================================================== *)
(** ** Facts about the token price cache *)
(* ===================================================================== *)

Module JupiterFacts.
Import Js JupiterService.

Lemma isFresh_insert (mint : string) (p : number) (t0 t1 : Z)
    (cache : gmap string PriceEntry) :
  isFresh t1 (<[mint := mkPriceEntry p t0]> cache !! mint) = (t1 - t0 <? 30000)%Z.
Proof. rewrite lookup_insert_eq. reflexivity. Qed.

(** A call that finds no fresh entry asks the provider exactly once. *)
Lemma getTokenPrice_miss (mint : string) (now : Z) (reply : ProviderReply)
    (random : number) (cache : gmap string PriceEntry) :
  isFresh now (cache !! mint) = false ->
  providerCalls (getTokenPrice mint now reply random cache) = 1.
Proof.
  intros Hstale. unfold getTokenPrice. rewrite Hstale.
  destruct reply; reflexivity.
Qed.

(** A call that finds a fresh entry returns it and leaves everything else
    alone. *)
Lemma getTokenPrice_hit (mint : string) (now : Z) (reply : ProviderReply)
    (random : number) (cache : gmap string PriceEntry) (e : PriceEntry) :
  cache !! mint = Some e ->
  (now - timestamp e < 30000)%Z ->
  getTokenPrice mint now reply random cache
  = mkPriceCall (Some (price e)) cache 0.
Proof.
  intros Hlook Hage. unfold getTokenPrice. rewrite Hlook. simpl.
  apply Z.ltb_lt in Hage. rewrite Hage. reflexivity.
Qed.

(** The fallback of a mint outside `TOKENS` does not depend on the draw. *)
Lemma generateFallbackPrice_default (mint : string) (random : number) :
  ~ In mint TOKENS.values ->
  generateFallbackPrice mint random = 1.0%float.
Proof.
  intros Hout. unfold generateFallbackPrice.
  assert (Hneq : forall t, In t TOKENS.values -> String.eqb mint t = false).
  { intros t Ht. apply String.eqb_neq. intros ->. contradiction. }
  rewrite !Hneq by (simpl; tauto). reflexivity.
Qed.

(** C9: a call of [getTokenPrice] that goes to the provider at time [t0],
    gets the truthy price [p] and therefore stores it, is followed by this:
    a call at any time [t1] less than 30 s later returns the very same [p],
    sends no request and leaves the cache as it is; a call at a time [t2]
    when the 30 s have elapsed sends exactly one request. *)
Theorem getTokenPrice_cached_within_TTL (mint : string) (t0 : Z) (p : number)
    (random0 : number) (cache0 : gmap string PriceEntry)
    (t1 : Z) (reply1 : ProviderReply) (random1 : number)
    (t2 : Z) (reply2 : ProviderReply) (random2 : number) :
  isFresh t0 (cache0 !! mint) = false ->
  truthy p = true ->
  (t1 - t0 < 30000)%Z ->
  (30000 <= t2 - t0)%Z ->
  let first := getTokenPrice mint t0 (ReplyPrice (Some p)) random0 cache0 in
  returned first = Some p
  /\ providerCalls first = 1
  /\ cacheAfter first !! mint = Some (mkPriceEntry p t0)
  /\ getTokenPrice mint t1 reply1 random1 (cacheAfter first)
     = mkPriceCall (Some p) (cacheAfter first) 0
  /\ providerCalls (getTokenPrice mint t2 reply2 random2 (cacheAfter first)) = 1.
Proof.
  intros Hstale Htruthy Hin Hout first.
  assert (Hcache : cacheAfter first = <[mint := mkPriceEntry p t0]> cache0).
  { subst first. unfold getTokenPrice. rewrite Hstale. simpl.
    rewrite Htruthy. reflexivity. }
  assert (Hlook : cacheAfter first !! mint = Some (mkPriceEntry p t0)).
  { rewrite Hcache. apply lookup_insert_eq. }
  repeat split.
  - subst first. unfold getTokenPrice. rewrite Hstale. reflexivity.
  - subst first. apply getTokenPrice_miss. exact Hstale.
  - exact Hlook.
  - apply (getTokenPrice_hit mint t1 reply1 random1 _ _ Hlook). exact Hin.
  - apply getTokenPrice_miss. rewrite Hlook. simpl.
    apply Z.ltb_ge. exact Hout.
Qed.

Lemma getTokenPrice_cached_within_TTL_witness :
  let first := getTokenPrice TOKENS.SOL 1000 (ReplyPrice (Some 150%float)) 0%float ∅ in
  returned first = Some 150%float
  /\ providerCalls first = 1
  /\ cacheAfter first !! TOKENS.SOL = Some (mkPriceEntry 150%float 1000)
  /\ getTokenPrice TOKENS.SOL 30999 ReplyThrows 0%float (cacheAfter first)
     = mkPriceCall (Some 150%float) (cacheAfter first) 0
  /\ providerCalls
       (getTokenPrice TOKENS.SOL 31000 ReplyThrows 0%float (cacheAfter first)) = 1.
Proof.
  apply (getTokenPrice_cached_within_TTL TOKENS.SOL 1000 150%float 0%float ∅
           30999 ReplyThrows 0%float 31000 ReplyThrows 0%float).
  - reflexivity.
  - vm_compute. reflexivity.
  - lia.
  - lia.
Defined.

(** Two numbers that compare differently with a third one are different. *)
Lemma number_neq_by_le (a b pivot : number) :
  le a pivot <> le b pivot -> Some a <> Some b.
Proof. intros Hcmp Heq. apply Hcmp. congruence. Qed.

(** C8, as worded, fails: with the provider failing both times and nothing
    cached, two calls of [getTokenPrice] for SOL return 147.5 when
    `Math.random()` draws 0.25 and 152.5 when it draws 0.75. *)
Lemma getTokenPrice_fallback_varies :
  returned (getTokenPrice TOKENS.SOL 0 ReplyThrows 0.25%float ∅) = Some 147.5%float
  /\ returned (getTokenPrice TOKENS.SOL 0 ReplyThrows 0.75%float ∅) = Some 152.5%float
  /\ returned (getTokenPrice TOKENS.SOL 0 ReplyThrows 0.25%float ∅)
     <> returned (getTokenPrice TOKENS.SOL 0 ReplyThrows 0.75%float ∅).
Proof.
  split; [vm_compute; reflexivity |].
  split; [vm_compute; reflexivity |].
  apply (number_neq_by_le _ _ 150%float). vm_compute. discriminate.
Qed.

(** C8, amended: when the provider call throws and no fresh entry is
    cached, [getTokenPrice] does not fail; it asks the provider once,
    leaves the cache alone and returns [generateFallbackPrice mint].  That
    value depends on the draw of `Math.random()` for the six mints of
    `TOKENS`; for every other mint it is exactly 1.0, the same on every
    run. *)
Theorem getTokenPrice_fallback (mint : string) (now : Z) (random : number)
    (cache : gmap string PriceEntry) :
  isFresh now (cache !! mint) = false ->
  getTokenPrice mint now ReplyThrows random cache
  = mkPriceCall (Some (generateFallbackPrice mint random)) cache 1
  /\ (In mint TOKENS.values
      \/ forall random', generateFallbackPrice mint random' = 1.0%float).
Proof.
  intros Hstale. split.
  - unfold getTokenPrice. rewrite Hstale. reflexivity.
  - destruct (In_dec String.string_dec mint TOKENS.values) as [Hin | Hout].
    + left. exact Hin.
    + right. intros random'. apply generateFallbackPrice_default. exact Hout.
Qed.

Lemma getTokenPrice_fallback_witness :
  getTokenPrice TOKENS.JTO 0 ReplyThrows 0.25%float ∅
  = mkPriceCall (Some (generateFallbackPrice TOKENS.JTO 0.25%float)) ∅ 1
  /\ (In TOKENS.JTO TOKENS.values
      \/ forall random', generateFallbackPrice TOKENS.JTO random' = 1.0%float).
Proof.
  apply (getTokenPrice_fallback TOKENS.JTO 0 0.25%float ∅).
  reflexivity.
Defined.

(** The fallback of a mint that is not listed, on two runs. *)
Example getTokenPrice_fallback_unlisted :
  returned (getTokenPrice "unlisted-mint" 0 ReplyThrows 0.25%float ∅) = Some 1.0%float
  /\ returned (getTokenPrice "unlisted-mint" 0 ReplyThrows 0.75%float ∅) = Some 1.0%float.
Proof. split; vm_compute; reflexivity. Qed.

End JupiterFacts.

(* ===================================================================== *)
(** ** Facts about the order engine *)
(* ===================================================================== *)

Module EngineFacts.
Import Js OrderContext Run.

#[local] Open Scope list_scope.

Ltac state_simpl :=
  cbn [docs world trace isLoading checkingOrdersNext fst snd].

(** Unfolds the plumbing of the engine's monad, one layer after the other. *)
Ltac engine_step :=
  repeat (progress
            (unfold bind, getDoc, throw, updateDoc, addDoc, emit, try_catch,
               try_finally, callExecuteSwap, fetchPrice, external, now, ret,
               setIsLoading, setCheckingOrders;
             cbn beta iota; state_simpl)).

(* --------------------------------------------------------------------- *)
(** *** Traces *)

Lemma transitions_app (e1 e2 : list Event) :
  transitions (e1 ++ e2) = transitions e1 ++ transitions e2.
Proof. apply flat_map_app. Qed.

Lemma swapCalls_app (e1 e2 : list Event) :
  swapCalls (e1 ++ e2) = swapCalls e1 ++ swapCalls e2.
Proof. apply flat_map_app. Qed.

Lemma priceLookups_app (e1 e2 : list Event) :
  priceLookups (e1 ++ e2) = priceLookups e1 ++ priceLookups e2.
Proof. apply flat_map_app. Qed.

Lemma createdDocs_app (e1 e2 : list Event) :
  createdDocs (e1 ++ e2) = createdDocs e1 ++ createdDocs e2.
Proof. apply flat_map_app. Qed.

Lemma orderUpdates_app (e1 e2 : list Event) :
  orderUpdates (e1 ++ e2) = orderUpdates e1 ++ orderUpdates e2.
Proof. apply flat_map_app. Qed.

Lemma transitions_lookupEvents (l : list Order) : transitions (lookupEvents l) = [].
Proof. induction l as [|o l IH]; [reflexivity|exact IH]. Qed.

Lemma swapCalls_lookupEvents (l : list Order) : swapCalls (lookupEvents l) = [].
Proof. induction l as [|o l IH]; [reflexivity|exact IH]. Qed.

Lemma createdDocs_lookupEvents (l : list Order) : createdDocs (lookupEvents l) = [].
Proof. induction l as [|o l IH]; [reflexivity|exact IH]. Qed.

Lemma orderUpdates_lookupEvents (l : list Order) : orderUpdates (lookupEvents l) = [].
Proof. induction l as [|o l IH]; [reflexivity|exact IH]. Qed.

Lemma priceLookups_lookupEvents (l : list Order) :
  priceLookups (lookupEvents l) = map (fun o => (inputToken o, outputToken o)) l.
Proof.
  induction l as [|o l IH]; [reflexivity|].
  cbn [lookupEvents map priceLookups flat_map app]. f_equal. exact IH.
Qed.

Lemma Status_eqb_eq (a b : Status) : Status_eqb a b = true <-> a = b.
Proof. destruct a, b; simpl; split; intros H; congruence. Qed.

(* --------------------------------------------------------------------- *)
(** *** `executeOrder` as it is written *)

Section Execute.

Context {World : Type}.
Variable executeSwap : SwapParams -> World -> Result SwapResult * World.
Variable newDate : World -> Z * World.

Lemma ready_connected (cl : Closure) (pk : string) : connected cl pk -> ready cl = true.
Proof. intros (Hpk & Hs & Hsa). unfold ready. rewrite Hpk, Hs, Hsa. reflexivity. Qed.

Lemma ready_disconnected (cl : Closure) :
  publicKey cl = None \/ signTransaction cl = false \/ signAllTransactions cl = false ->
  ready cl = false.
Proof.
  intros H. unfold ready. destruct (publicKey cl); [|reflexivity].
  destruct H as [H|[H|H]]; [discriminate| |]; rewrite H;
    [reflexivity|apply andb_false_r].
Qed.

(** All a call of `executeOrder` does: behind the wallet guard the lookup
    of the document raises the `ReferenceError`, before any write and
    before the swap executor; without the wallet the call returns at
    once.  The state is the same afterwards in both cases. *)
Lemma executeOrder_eq (cl : Closure) (orderId : string) (st : @State World) :
  executeOrder executeSwap newDate cl orderId st
  = (if ready cl then Throw ReferenceError_getDoc else Ok tt, st).
Proof.
  unfold executeOrder, ready.
  destruct (publicKey cl) as [pk|]; [|reflexivity].
  destruct (signTransaction cl), (signAllTransactions cl); reflexivity.
Qed.

Lemma executeOrder_disconnected (cl : Closure) (orderId : string) (st : @State World) :
  publicKey cl = None \/ signTransaction cl = false \/ signAllTransactions cl = false ->
  executeOrder executeSwap newDate cl orderId st = (Ok tt, st).
Proof.
  intros H. rewrite executeOrder_eq, (ready_disconnected cl H). reflexivity.
Qed.

Lemma executeOrder_connected (cl : Closure) (orderId : string) (st : @State World)
    (pk : string) :
  connected cl pk ->
  executeOrder executeSwap newDate cl orderId st = (Throw ReferenceError_getDoc, st).
Proof.
  intros H. rewrite executeOrder_eq, (ready_connected cl pk H). reflexivity.
Qed.

(** C7: with the wallet connected and no document stored under
    [orderId], `executeOrder` performs no write, emits no event and does
    not call the swap executor: the state is left as it was.  It does not
    return through the branch for a missing document, though: the call is
    rejected with the `ReferenceError` raised by `getDoc`. *)
Theorem executeOrder_missing_order_aborts (cl : Closure) (orderId : string)
    (st : @State World) (pk : string) :
  connected cl pk ->
  docs st !! orderId = None ->
  executeOrder executeSwap newDate cl orderId st = (Throw ReferenceError_getDoc, st).
Proof. intros Hcon _. apply (executeOrder_connected cl orderId st pk Hcon). Qed.

(** C10: with the wallet connected, `executeOrder` on an existing document
    [o] never inspects the status of [o], but neither does it write
    EXECUTING or call the swap executor: whatever the status, the call is
    rejected with the `ReferenceError` raised by `getDoc` and the whole
    state, the document included, is as before. *)
Theorem executeOrder_no_status_precondition (cl : Closure) (orderId : string)
    (st : @State World) (pk : string) (o : Order) :
  connected cl pk ->
  docs st !! orderId = Some o ->
  let result := executeOrder executeSwap newDate cl orderId st in
  fst result = Throw ReferenceError_getDoc
  /\ snd result = st
  /\ transitions (trace (snd result)) = transitions (trace st)
  /\ swapCalls (trace (snd result)) = swapCalls (trace st).
Proof.
  intros Hcon _ result. subst result.
  rewrite (executeOrder_connected cl orderId st pk Hcon). repeat split.
Qed.

(** C4: with the wallet connected and the document [o] stored under
    [orderId], an execution attempt never reaches the swap executor, so no
    answer of the executor is turned into FAILED: whatever the executor
    would answer, the call is rejected with the `ReferenceError` raised by
    `getDoc`, the document keeps its status and its `failureReason`, and
    no listener is told anything. *)
Theorem executeOrder_never_resolves_to_FAILED (cl : Closure) (orderId : string)
    (st : @State World) (pk : string) (o : Order) :
  connected cl pk ->
  docs st !! orderId = Some o ->
  let result := executeOrder executeSwap newDate cl orderId st in
  fst result = Throw ReferenceError_getDoc
  /\ docs (snd result) !! orderId = Some o
  /\ swapCalls (trace (snd result)) = swapCalls (trace st)
  /\ orderUpdates (trace (snd result)) = orderUpdates (trace st).
Proof.
  intros Hcon Hdoc result. subst result.
  rewrite (executeOrder_connected cl orderId st pk Hcon). repeat split. exact Hdoc.
Qed.

End Execute.

Lemma executeOrder_missing_order_aborts_witness :
  executeOrder (Sample.swapAnswers (Ok (SwapSuccess "sig"))) (Sample.clockShows 2000)
    (Sample.closureWith []) "deleted-id" Sample.emptyState
  = (Throw ReferenceError_getDoc, Sample.emptyState).
Proof.
  apply (executeOrder_missing_order_aborts
           (Sample.swapAnswers (Ok (SwapSuccess "sig"))) (Sample.clockShows 2000)
           (Sample.closureWith []) "deleted-id" Sample.emptyState Sample.wallet).
  - repeat split; reflexivity.
  - reflexivity.
Defined.

Lemma executeOrder_no_status_precondition_witness :
  let o := Sample.storedOrder LIMIT 160%float EXECUTED None in
  let result :=
    executeOrder (Sample.swapAnswers (Ok (SwapSuccess "sig"))) (Sample.clockShows 2000)
      (Sample.closureWith []) "0" (Sample.stateWith o) in
  fst result = Throw ReferenceError_getDoc
  /\ snd result = Sample.stateWith o
  /\ transitions (trace (snd result)) = transitions (trace (Sample.stateWith o))
  /\ swapCalls (trace (snd result)) = swapCalls (trace (Sample.stateWith o)).
Proof.
  apply (executeOrder_no_status_precondition
           (Sample.swapAnswers (Ok (SwapSuccess "sig"))) (Sample.clockShows 2000)
           (Sample.closureWith []) "0"
           (Sample.stateWith (Sample.storedOrder LIMIT 160%float EXECUTED None))
           Sample.wallet (Sample.storedOrder LIMIT 160%float EXECUTED None)).
  - repeat split; reflexivity.
  - vm_compute. reflexivity.
Defined.

Lemma executeOrder_never_resolves_to_FAILED_witness :
  let o := Sample.storedOrder LIMIT 160%float PENDING None in
  let result :=
    executeOrder (Sample.swapAnswers (Ok (SwapFailure "slippage exceeded")))
      (Sample.clockShows 2000) (Sample.closureWith []) "0" (Sample.stateWith o) in
  fst result = Throw ReferenceError_getDoc
  /\ docs (snd result) !! "0" = Some o
  /\ swapCalls (trace (snd result)) = swapCalls (trace (Sample.stateWith o))
  /\ orderUpdates (trace (snd result)) = orderUpdates (trace (Sample.stateWith o)).
Proof.
  apply (executeOrder_never_resolves_to_FAILED
           (Sample.swapAnswers (Ok (SwapFailure "slippage exceeded")))
           (Sample.clockShows 2000) (Sample.closureWith []) "0"
           (Sample.stateWith (Sample.storedOrder LIMIT 160%float PENDING None))
           Sample.wallet (Sample.storedOrder LIMIT 160%float PENDING None)).
  - repeat split; reflexivity.
  - vm_compute. reflexivity.
Defined.

(* --------------------------------------------------------------------- *)
(** *** The scan cycle *)

Section Scan.

Context {World : Type}.
Variable getPriceForPair : string -> string -> World -> Result number * World.
Variable executeSwap : SwapParams -> World -> Result SwapResult * World.
Variable newDate : World -> Z * World.

(** One turn of the scan loop: the price is looked up, and whatever
    follows (a failed lookup, a trigger that is not met, an execution
    attempt and what it raises) leaves nothing else behind. *)
Lemma checkOne_eq (cl : Closure) (order : Order) (st : @State World) :
  checkOne getPriceForPair executeSwap newDate cl order st
  = (Ok tt,
     mkState (docs st)
       (snd (getPriceForPair (inputToken order) (outputToken order) (world st)))
       (trace st ++ [EvGetPrice (inputToken order) (outputToken order)])
       (isLoading st) (checkingOrdersNext st)).
Proof.
  unfold checkOne. engine_step.
  destruct (getPriceForPair (inputToken order) (outputToken order) (world st))
    as [[currentPrice|e] w1]; engine_step; [|reflexivity].
  destruct (id order) as [orderId|]; [|reflexivity].
  destruct (shouldExecute_scan order currentPrice && truthy_str orderId);
    [|reflexivity].
  rewrite executeOrder_eq. destruct (ready cl); reflexivity.
Qed.

Lemma forOf_checkOne_eq (cl : Closure) (l : list Order) (st : @State World) :
  forOf l (checkOne getPriceForPair executeSwap newDate cl) st
  = (Ok tt,
     mkState (docs st) (afterLookups getPriceForPair l (world st))
       (trace st ++ lookupEvents l) (isLoading st) (checkingOrdersNext st)).
Proof.
  revert st. induction l as [|order rest IH]; intros st.
  - cbn. rewrite app_nil_r. destruct st; reflexivity.
  - cbn [forOf]. unfold bind at 1. rewrite checkOne_eq, IH. state_simpl.
    cbn [lookupEvents map afterLookups fold_left]. rewrite <- app_assoc.
    reflexivity.
Qed.

(** A whole scan cycle, as it is written: unless the flag holds it back,
    it looks up the price of each PENDING order of its list and resets
    the flag; nothing else changes. *)
Lemma checkOrderTriggers_eq (cl : Closure) (st : @State World) :
  checkOrderTriggers getPriceForPair executeSwap newDate cl st
  = (Ok tt,
     if checkingOrders cl then st
     else mkState (docs st)
            (afterLookups getPriceForPair (pendingOrders cl) (world st))
            (trace st ++ lookupEvents (pendingOrders cl)) (isLoading st) false).
Proof.
  unfold checkOrderTriggers. destruct (checkingOrders cl); [reflexivity|].
  engine_step. rewrite forOf_checkOne_eq. reflexivity.
Qed.

Lemma filter_none {A : Type} (f : A -> bool) (l : list A) :
  (forall x, In x l -> f x = false) -> List.filter f l = [].
Proof.
  induction l as [|x l IH]; intros H; [reflexivity|].
  cbn [List.filter]. rewrite (H x) by (left; reflexivity).
  apply IH. intros y Hy. apply H. right. exact Hy.
Qed.

Lemma filter_twice {A : Type} (f : A -> bool) (l : list A) :
  List.filter f (List.filter f l) = List.filter f l.
Proof.
  induction l as [|x l IH]; [reflexivity|].
  cbn [List.filter]. destruct (f x) eqn:Hx; [|exact IH].
  cbn [List.filter]. rewrite Hx, IH. reflexivity.
Qed.

Lemma pendingOrders_none (cl : Closure) :
  (forall o, In o (orders cl) -> status o <> PENDING) -> pendingOrders cl = [].
Proof.
  intros H. apply filter_none. intros o Ho.
  destruct (Status_eqb (status o) PENDING) eqn:Hs; [|reflexivity].
  apply Status_eqb_eq in Hs. destruct (H o Ho Hs).
Qed.

Lemma pendingOrders_In (cl : Closure) (o : Order) :
  In o (pendingOrders cl) <-> In o (orders cl) /\ status o = PENDING.
Proof. unfold pendingOrders. rewrite filter_In, Status_eqb_eq. reflexivity. Qed.

(** Orders of the list that are not PENDING have no influence on a scan
    cycle: it runs exactly as on the list without them. *)
Lemma checkOrderTriggers_ignores_non_pending (cl : Closure) (st : @State World) :
  checkOrderTriggers getPriceForPair executeSwap newDate cl st
  = checkOrderTriggers getPriceForPair executeSwap newDate
      (withOrders cl (pendingOrders cl)) st.
Proof.
  unfold checkOrderTriggers, withOrders. cbn [checkingOrders].
  destruct (checkingOrders cl); [reflexivity|].
  unfold pendingOrders at 2. cbn [orders]. unfold pendingOrders.
  rewrite filter_twice. reflexivity.
Qed.

(** C3: a scan cycle deals with the PENDING orders of its list and with no
    other.  Whatever the list holds beside them (EXECUTING, EXECUTED,
    FAILED or CANCELLED orders), the cycle runs exactly as on the list
    without them; every price it looks up is the pair of a PENDING order
    of the list; and it calls the swap executor at most once per PENDING
    order, hence not at all when no order is PENDING. *)
Theorem checkOrderTriggers_only_PENDING (cl : Closure) (st : @State World) :
  checkOrderTriggers getPriceForPair executeSwap newDate cl st
  = checkOrderTriggers getPriceForPair executeSwap newDate
      (withOrders cl (pendingOrders cl)) st
  /\ exists evs,
       trace (snd (checkOrderTriggers getPriceForPair executeSwap newDate cl st))
       = trace st ++ evs
       /\ Forall (fun pair =>
                    exists o, In o (orders cl) /\ status o = PENDING
                              /\ pair = (inputToken o, outputToken o))
            (priceLookups evs)
       /\ length (priceLookups evs) <= length (pendingOrders cl)
       /\ length (swapCalls evs) <= length (pendingOrders cl).
Proof.
  split; [apply checkOrderTriggers_ignores_non_pending|].
  rewrite checkOrderTriggers_eq. destruct (checkingOrders cl).
  - exists []. rewrite app_nil_r. cbn. repeat split; [constructor|lia|lia].
  - exists (lookupEvents (pendingOrders cl)). state_simpl.
    rewrite priceLookups_lookupEvents, swapCalls_lookupEvents, length_map.
    split; [reflexivity|]. split; [|cbn; lia].
    rewrite List.Forall_forall. intros pair Hin. apply in_map_iff in Hin.
    destruct Hin as (o & <- & Ho). apply pendingOrders_In in Ho.
    exists o. tauto.
Qed.

(* --------------------------------------------------------------------- *)
(** *** The trigger rule *)

(** C2: the decision taken in the scan cycle and the one taken right after
    a creation are the same function of the order type, the trigger price
    and the current price, namely the rule of the specification: LIMIT and
    STOP_LOSS fire exactly when `currentPrice <= triggerPrice`,
    TAKE_PROFIT exactly when `currentPrice >= triggerPrice`.  This holds
    for all numbers, the positive ones among them. *)
Theorem shouldExecute_rule (order : Order) (orderData : Draft.t)
    (t c : number) :
  shouldExecute_scan order c
  = Spec.shouldExecute (orderType order) (triggerPrice order) c
  /\ shouldExecute_create orderData c
     = Spec.shouldExecute (Draft.orderType orderData) (Draft.triggerPrice orderData) c
  /\ Spec.shouldExecute LIMIT t c = le c t
  /\ Spec.shouldExecute STOP_LOSS t c = le c t
  /\ Spec.shouldExecute TAKE_PROFIT t c = ge c t.
Proof.
  unfold shouldExecute_scan, shouldExecute_create, Spec.shouldExecute.
  repeat split.
Qed.

(** In the scan cycle the rule decides whether `executeOrder` is called:
    for an order with a non-empty id whose price lookup yields [c], the
    call is made, inside the `try` of the loop, when the rule fires, and
    the order is only looked up when it does not. *)
Lemma checkOne_follows_rule (cl : Closure) (order : Order) (orderId : string)
    (st : @State World) (c : number) (w1 : World) :
  id order = Some orderId ->
  truthy_str orderId = true ->
  getPriceForPair (inputToken order) (outputToken order) (world st) = (Ok c, w1) ->
  let looked :=
    mkState (docs st) w1
      (trace st ++ [EvGetPrice (inputToken order) (outputToken order)])
      (isLoading st) (checkingOrdersNext st) in
  checkOne getPriceForPair executeSwap newDate cl order st
  = if Spec.shouldExecute (orderType order) (triggerPrice order) c
    then try_catch (executeOrder executeSwap newDate cl orderId) (fun _ => ret tt) looked
    else (Ok tt, looked).
Proof.
  intros Hid Hne Hprice looked. subst looked.
  unfold checkOne. engine_step. rewrite Hprice. engine_step. rewrite Hid, Hne.
  rewrite andb_true_r.
  replace (shouldExecute_scan order c)
    with (Spec.shouldExecute (orderType order) (triggerPrice order) c)
    by (unfold shouldExecute_scan, Spec.shouldExecute;
        destruct (orderType order); reflexivity).
  destruct (Spec.shouldExecute (orderType order) (triggerPrice order) c);
    reflexivity.
Qed.

End Scan.

(** A scan over a list that shows one order PENDING beside an EXECUTED, a
    FAILED and a CANCELLED one, all with their triggers met at the price
    of 150: only the pair of the PENDING order is looked up. *)
Example scan_of_mixed_list :
  let os :=
    [ mkOrder (Some "0") Sample.wallet "SOL" "USDC" 1%float LIMIT 160%float
        EXECUTED 1000 (Some 2000%Z) (Some "sig") None None;
      mkOrder (Some "1") Sample.wallet "JTO" "USDC" 1%float STOP_LOSS 160%float
        PENDING 1000 None None None None;
      mkOrder (Some "2") Sample.wallet "BONK" "USDC" 1%float LIMIT 160%float
        FAILED 1000 None None (Some "slippage exceeded") None;
      mkOrder (Some "3") Sample.wallet "RAY" "USDC" 1%float TAKE_PROFIT 100%float
        CANCELLED 1000 None None None None ] in
  let result :=
    checkOrderTriggers (Sample.priceIs 150%float)
      (Sample.swapAnswers (Ok (SwapSuccess "sig"))) (Sample.clockShows 2000)
      (Sample.closureWith os) Sample.emptyState in
  fst result = Ok tt
  /\ trace (snd result) = [EvGetPrice "JTO" "USDC"]
  /\ docs (snd result) = docs Sample.emptyState.
Proof. vm_compute. repeat split. Qed.

(* --------------------------------------------------------------------- *)
(** *** Creating, cancelling and retrying, as equations *)

Section Calls.

Context {World : Type}.
Variable getPriceForPair : string -> string -> World -> Result number * World.
Variable executeSwap : SwapParams -> World -> Result SwapResult * World.
Variable newDate : World -> Z * World.

Lemma cancelOrder_existing_eq (cl : Closure) (orderId : string) (st : @State World)
    (o : Order) :
  docs st !! orderId = Some o ->
  cancelOrder cl orderId st
  = (Ok tt,
     mkState (<[orderId := setFields o [F_status CANCELLED]]> (docs st)) (world st)
       (trace st ++
          [EvUpdateDoc orderId o (setFields o [F_status CANCELLED]);
           EvOrderUpdate orderId CANCELLED None;
           EvToastSuccess "Order cancelled"])
       false (checkingOrdersNext st)).
Proof.
  intros Hdoc. unfold cancelOrder. engine_step. rewrite Hdoc. engine_step.
  rewrite <- !app_assoc. reflexivity.
Qed.

Lemma cancelOrder_missing_eq (cl : Closure) (orderId : string) (st : @State World) :
  docs st !! orderId = None ->
  cancelOrder cl orderId st
  = (Ok tt,
     mkState (docs st) (world st)
       (trace st ++ [EvToastError "Failed to cancel order"])
       false (checkingOrdersNext st)).
Proof.
  intros Hdoc. unfold cancelOrder. engine_step. rewrite Hdoc. engine_step.
  reflexivity.
Qed.

Lemma retryOrder_missing_eq (cl : Closure) (orderId : string) (st : @State World) :
  docs st !! orderId = None ->
  retryOrder getPriceForPair executeSwap newDate cl orderId st
  = (Ok tt,
     mkState (docs st) (world st)
       (trace st ++ [EvToastError "Failed to retry order"])
       false (checkingOrdersNext st)).
Proof.
  intros Hdoc. unfold retryOrder. engine_step. rewrite Hdoc. engine_step.
  reflexivity.
Qed.

(** `retryOrder` on a stored document: the reset, then the scan of the
    list of the closure. *)
Lemma retryOrder_existing_eq (cl : Closure) (orderId : string) (st : @State World)
    (o : Order) :
  docs st !! orderId = Some o ->
  retryOrder getPriceForPair executeSwap newDate cl orderId st
  = let o' := setFields o [F_status PENDING; F_failureReason None] in
    let reset :=
      [EvUpdateDoc orderId o o';
       EvOrderUpdate orderId PENDING None;
       EvToastSuccess "Order retry initiated"] in
    (Ok tt,
     if checkingOrders cl
     then mkState (<[orderId := o']> (docs st)) (world st) (trace st ++ reset)
            false (checkingOrdersNext st)
     else mkState (<[orderId := o']> (docs st))
            (afterLookups getPriceForPair (pendingOrders cl) (world st))
            (trace st ++ reset ++ lookupEvents (pendingOrders cl))
            false false).
Proof.
  intros Hdoc. unfold retryOrder. engine_step. rewrite Hdoc. engine_step.
  rewrite checkOrderTriggers_eq. cbv zeta.
  destruct (checkingOrders cl); state_simpl; rewrite <- !app_assoc; reflexivity.
Qed.

(** `createOrder` with a public key: the document is stored and the price
    looked up; then the call ends, or announces the execution and, when
    the wallet guard of `executeOrder` lets the call pass, ends in the
    notice of failure that its `catch` shows for the `ReferenceError`. *)
Lemma createOrder_eq (cl : Closure) (orderData : Draft.t) (st : @State World)
    (pk : string) (d : Z) (w1 : World) (r : Result number) (w2 : World) :
  publicKey cl = Some pk ->
  newDate (world st) = (d, w1) ->
  getPriceForPair (Draft.inputToken orderData) (Draft.outputToken orderData) w1 = (r, w2) ->
  createOrder getPriceForPair executeSwap newDate cl orderData st
  = let docId : string := fresh (dom (docs st)) in
    let o := draftDocument pk orderData d in
    let created :=
      [EvAddDoc docId o;
       EvToastSuccess "Order created successfully";
       EvGetPrice (Draft.inputToken orderData) (Draft.outputToken orderData)] in
    let after :=
      match r with
      | Throw _ => [EvToastError "Failed to create order"]
      | Ok currentPrice =>
          if Spec.shouldExecute (Draft.orderType orderData)
               (Draft.triggerPrice orderData) currentPrice
          then EvToastLoading "Order conditions met, executing immediately..."
               :: (if ready cl then [EvToastError "Failed to create order"] else [])
          else []
      end in
    (Ok tt,
     mkState (<[docId := o]> (docs st)) w2 (trace st ++ created ++ after)
       false (checkingOrdersNext st)).
Proof.
  intros Hpk Hdate Hprice. unfold createOrder. rewrite Hpk. engine_step.
  rewrite Hdate. engine_step. rewrite Hprice.
  unfold draftDocument. cbv zeta.
  destruct r as [currentPrice|e]; engine_step;
    [|rewrite <- !app_assoc; reflexivity].
  replace (shouldExecute_create orderData currentPrice)
    with (Spec.shouldExecute (Draft.orderType orderData) (Draft.triggerPrice orderData)
            currentPrice)
    by (unfold shouldExecute_create, Spec.shouldExecute;
        destruct (Draft.orderType orderData); reflexivity).
  destruct (Spec.shouldExecute (Draft.orderType orderData)
              (Draft.triggerPrice orderData) currentPrice);
    engine_step; [|rewrite <- !app_assoc; reflexivity].
  rewrite executeOrder_eq. destruct (ready cl); engine_step;
    rewrite <- !app_assoc; reflexivity.
Qed.

Lemma createOrder_without_key (cl : Closure) (orderData : Draft.t) (st : @State World) :
  publicKey cl = None ->
  createOrder getPriceForPair executeSwap newDate cl orderData st
  = (Ok tt,
     mkState (docs st) (world st)
       (trace st ++ [EvToastError "Please connect your wallet first"])
       (isLoading st) (checkingOrdersNext st)).
Proof. intros Hpk. unfold createOrder. rewrite Hpk. reflexivity. Qed.

(** `createOrder` writes no status over another: its events show no
    `updateDoc`. *)
Lemma createOrder_transitions (cl : Closure) (orderData : Draft.t) (st : @State World) :
  exists evs,
    trace (snd (createOrder getPriceForPair executeSwap newDate cl orderData st))
    = trace st ++ evs
    /\ transitions evs = [].
Proof.
  destruct (publicKey cl) as [pk|] eqn:Hpk.
  2:{ rewrite (createOrder_without_key cl orderData st Hpk). eexists.
      split; reflexivity. }
  destruct (newDate (world st)) as [d w1] eqn:Hdate.
  destruct (getPriceForPair (Draft.inputToken orderData)
              (Draft.outputToken orderData) w1) as [r w2] eqn:Hprice.
  rewrite (createOrder_eq cl orderData st pk d w1 r w2 Hpk Hdate Hprice).
  cbv zeta. state_simpl. eexists. split; [reflexivity|].
  destruct r as [currentPrice|e]; [|reflexivity].
  destruct (Spec.shouldExecute _ _ _); [|reflexivity].
  destruct (ready cl); reflexivity.
Qed.

End Calls.

(* --------------------------------------------------------------------- *)
(** *** Status changes along runs of the engine *)

Section Runs.

Context {World : Type}.
Variable getPriceForPair : string -> string -> World -> Result number * World.
Variable executeSwap : SwapParams -> World -> Result SwapResult * World.
Variable newDate : World -> Z * World.

Lemma allowedIn_more (s1 s2 : list (Closure * Op)) (t : string * Status * Status) :
  (forall x, In x s1 -> In x s2) -> allowedIn s1 t -> allowedIn s2 t.
Proof.
  intros Hsub [(Hb & cl & Hin)|[(Hb & cl & Hin)|Hedge]].
  - left. split; [exact Hb|]. exists cl. apply Hsub. exact Hin.
  - right. left. split; [exact Hb|]. exists cl. apply Hsub. exact Hin.
  - right. right. exact Hedge.
Qed.

(** The status changes of one step: a cancel writes CANCELLED over the
    status of its document, a retry writes PENDING over it, and no other
    step writes a status. *)
Lemma runOp_allowed (cl : Closure) (op : Op) (st : @State World) :
  exists evs,
    trace (snd (runOp getPriceForPair executeSwap newDate cl op st)) = trace st ++ evs
    /\ Forall (allowedIn [(cl, op)]) (transitions evs).
Proof.
  destruct op as [|orderId|orderData|orderId|orderId]; cbn [runOp].
  - rewrite checkOrderTriggers_eq. state_simpl. destruct (checkingOrders cl).
    + exists []. rewrite app_nil_r. split; [reflexivity|constructor].
    + eexists. state_simpl. split; [reflexivity|].
      rewrite transitions_lookupEvents. constructor.
  - rewrite executeOrder_eq. exists []. rewrite app_nil_r.
    split; [reflexivity|constructor].
  - destruct (createOrder_transitions getPriceForPair executeSwap newDate
                cl orderData st) as (evs & Htrace & Hnone).
    exists evs. split; [exact Htrace|]. rewrite Hnone. constructor.
  - destruct (docs st !! orderId) as [o|] eqn:Hdoc.
    + rewrite (cancelOrder_existing_eq cl orderId st o Hdoc). state_simpl.
      eexists. split; [reflexivity|].
      cbn [transitions flat_map app]. constructor; [|constructor].
      left. cbn. split; [reflexivity|]. exists cl. left. reflexivity.
    + rewrite (cancelOrder_missing_eq cl orderId st Hdoc). state_simpl.
      eexists. split; [reflexivity|]. constructor.
  - destruct (docs st !! orderId) as [o|] eqn:Hdoc.
    + rewrite (retryOrder_existing_eq getPriceForPair executeSwap newDate
                 cl orderId st o Hdoc).
      cbv zeta. state_simpl.
      assert (Hone : Forall (allowedIn [(cl, OpRetry orderId)])
                       [(orderId, status o, PENDING)]).
      { constructor; [|constructor]. right. left. cbn.
        split; [reflexivity|]. exists cl. left. reflexivity. }
      destruct (checkingOrders cl); state_simpl.
      * eexists. split; [reflexivity|]. exact Hone.
      * eexists. split; [reflexivity|].
        rewrite transitions_app, transitions_lookupEvents, app_nil_r. exact Hone.
    + rewrite (retryOrder_missing_eq getPriceForPair executeSwap newDate
                 cl orderId st Hdoc). state_simpl.
      eexists. split; [reflexivity|]. constructor.
Qed.

Lemma runOps_allowed (steps : list (Closure * Op)) (st : @State World) :
  exists evs,
    trace (runOps getPriceForPair executeSwap newDate steps st) = trace st ++ evs
    /\ Forall (allowedIn steps) (transitions evs).
Proof.
  revert st. induction steps as [|[cl op] rest IH]; intros st.
  - exists []. rewrite app_nil_r. split; [reflexivity|constructor].
  - cbn [runOps].
    destruct (runOp_allowed cl op st) as (e1 & H1 & A1).
    destruct (IH (snd (runOp getPriceForPair executeSwap newDate cl op st)))
      as (e2 & H2 & A2).
    exists (e1 ++ e2). rewrite H2, H1, app_assoc. split; [reflexivity|].
    rewrite transitions_app. apply Forall_app. split.
    + eapply Forall_impl; [exact A1|]. intros t.
      apply allowedIn_more. intros x [<-|[]]. left. reflexivity.
    + eapply Forall_impl; [exact A2|]. intros t.
      apply allowedIn_more. intros x Hx. right. exact Hx.
Qed.

(** C1, amended: along every run of scan, execute, create, cancel and
    retry steps, started in any state and with any closures, each status
    change is an edge of the graph of the specification, or CANCELLED
    written by a cancel step for that very document, or PENDING written by
    a retry step for that very document, whatever its status was.  So a
    change into EXECUTED starts from EXECUTING, and one into EXECUTING
    from PENDING. *)
Theorem runOps_transitions_performed (steps : list (Closure * Op))
    (st : @State World) :
  exists evs,
    trace (runOps getPriceForPair executeSwap newDate steps st) = trace st ++ evs
    /\ Forall (allowedIn steps) (transitions evs)
    /\ Forall (fun t => snd t <> EXECUTED \/ snd (fst t) = EXECUTING) (transitions evs)
    /\ Forall (fun t => snd t <> EXECUTING \/ snd (fst t) = PENDING) (transitions evs).
Proof.
  destruct (runOps_allowed steps st) as (evs & Htrace & Hall).
  exists evs. split; [exact Htrace|]. split; [exact Hall|].
  split; (eapply Forall_impl; [exact Hall|]); intros [[d a] b];
    unfold allowedIn; cbn [fst snd];
    (intros [(Hb & _)|[(Hb & _)|Hedge]];
     [left; rewrite Hb; discriminate
     |left; rewrite Hb; discriminate
     |destruct a, b; cbn in Hedge; try discriminate Hedge;
      first [right; reflexivity|left; discriminate]]).
Qed.

End Runs.

(** C1, as worded, fails: an order is created with its trigger not met,
    cancelled, and retried.  The retry takes it from CANCELLED back to
    PENDING, a change that leaves CANCELLED and is not an edge of the
    graph of the specification. *)
Lemma retry_leaves_CANCELLED :
  let run := runOps (Sample.priceIs 150%float)
               (Sample.swapAnswers (Ok (SwapSuccess "sig"))) (Sample.clockShows 2000) in
  let st1 := run [(Sample.closureWith [],
                   OpCreate (Sample.solUsdc STOP_LOSS 2%float 140%float))]
               Sample.emptyState in
  let st2 := run [(render Sample.wallet st1, OpCancel "0")] st1 in
  let st3 := run [(render Sample.wallet st2, OpRetry "0")] st2 in
  transitions (trace st3) = [("0", PENDING, CANCELLED); ("0", CANCELLED, PENDING)]
  /\ status <$> docs st3 !! "0" = Some PENDING
  /\ Spec.transition CANCELLED PENDING = false.
Proof. vm_compute. repeat split. Qed.

(** The two unguarded writes on a stored order that is EXECUTED:
    `cancelOrder` takes it to CANCELLED and `retryOrder` back to PENDING. *)
Example cancel_and_retry_overwrite_EXECUTED :
  let o := Sample.storedOrder LIMIT 100%float EXECUTED None in
  let cl := render Sample.wallet (Sample.stateWith o) in
  let cancelled := snd (cancelOrder cl "0" (Sample.stateWith o)) in
  let retried :=
    snd (retryOrder (Sample.priceIs 150%float)
           (Sample.swapAnswers (Ok (SwapSuccess "sig"))) (Sample.clockShows 2000)
           cl "0" (Sample.stateWith o)) in
  transitions (trace cancelled) = [("0", EXECUTED, CANCELLED)]
  /\ transitions (trace retried) = [("0", EXECUTED, PENDING)].
Proof. vm_compute. repeat split. Qed.

(* --------------------------------------------------------------------- *)
(** *** Retrying an order *)

Section Retry.

Context {World : Type}.
Variable getPriceForPair : string -> string -> World -> Result number * World.
Variable executeSwap : SwapParams -> World -> Result SwapResult * World.
Variable newDate : World -> Z * World.

(** `retryOrder` scans the list `orders` of its own closure.  When no
    order is PENDING in that list, as is the case when it shows the
    retried order as FAILED and nothing else is waiting, the call resets
    the document and ends there: no price is fetched and nothing is
    executed. *)
Lemma retryOrder_scans_its_closure (cl : Closure) (orderId : string)
    (st : @State World) (o : Order) :
  docs st !! orderId = Some o ->
  checkingOrders cl = false ->
  (forall x, In x (orders cl) -> status x <> PENDING) ->
  retryOrder getPriceForPair executeSwap newDate cl orderId st
  = (Ok tt,
     mkState
       (<[orderId := setFields o [F_status PENDING; F_failureReason None]]> (docs st))
       (world st)
       (trace st ++
          [EvUpdateDoc orderId o (setFields o [F_status PENDING; F_failureReason None]);
           EvOrderUpdate orderId PENDING None;
           EvToastSuccess "Order retry initiated"])
       false false).
Proof.
  intros Hdoc Hidle Hnone.
  rewrite (retryOrder_existing_eq getPriceForPair executeSwap newDate cl orderId st o Hdoc).
  cbv zeta. rewrite Hidle, (pendingOrders_none cl Hnone). reflexivity.
Qed.

End Retry.

(** C6 at a concrete input.  The order "0" is a LIMIT order with trigger
    160 that FAILED with 'slippage exceeded'; the pair price is 150, so the
    trigger is met.  `retryOrder` is the callback of the render that shows
    the order as FAILED.  It resets the document to PENDING and clears
    `failureReason`, but the scan it starts reads the list of that render,
    in which the order is still FAILED: the price of the retried order is
    not looked up and its trigger is not evaluated in this call.  Only the
    scan of the next render, whose list shows the order as PENDING, looks
    its price up. *)
Theorem retryOrder_does_not_evaluate_retried_order :
  let o := Sample.storedOrder LIMIT 160%float FAILED (Some "slippage exceeded") in
  let st := Sample.stateWith o in
  let cl := render Sample.wallet st in
  let price := Sample.priceIs 150%float in
  let swap := Sample.swapAnswers (Ok (SwapSuccess "sig")) in
  let clock := Sample.clockShows 2000 in
  let retried := retryOrder price swap clock cl "0" st in
  let scanned :=
    checkOrderTriggers price swap clock (render Sample.wallet (snd retried))
      (snd retried) in
  status <$> orders cl = [FAILED]
  /\ Spec.shouldExecute LIMIT 160%float 150%float = true
  /\ fst retried = Ok tt
  /\ docs (snd retried) !! "0" = Some (Sample.storedOrder LIMIT 160%float PENDING None)
  /\ trace (snd retried)
     = [EvUpdateDoc "0" o (Sample.storedOrder LIMIT 160%float PENDING None);
        EvOrderUpdate "0" PENDING None;
        EvToastSuccess "Order retry initiated"]
  /\ priceLookups (trace (snd retried)) = []
  /\ priceLookups (trace (snd scanned))
     = [(JupiterService.TOKENS.SOL, JupiterService.TOKENS.USDC)].
Proof. vm_compute. repeat split. Qed.

End EngineFacts.

(* ===================================================================== *)
(** ** Facts about the order form *)
(* ===================================================================== *)

Module FormFacts.
Import Js OrderContext Run.

#[local] Open Scope list_scope.

Section Submit.

Context {World : Type}.
Variable getPriceForPair : string -> string -> World -> Result number * World.
Variable executeSwap : SwapParams -> World -> Result SwapResult * World.
Variable newDate : World -> Z * World.
Variable parseFloat : string -> number.

(** C5, amended: the check for a positive amount and a positive trigger
    price is made by `handleSubmit` of the order form, before it calls
    `createOrder`.  When the amount text is empty or parses to a number
    `<= 0`, or the trigger price text is empty or parses to a number
    `<= 0`, `handleSubmit` shows one error notice and returns with the
    form unchanged: `createOrder` is not called, no document is created,
    the outside world is not consulted and the swap executor is not
    called. *)
Theorem handleSubmit_rejects_non_positive (connected : bool) (cl : Closure)
    (form : OrderForm.FormState) (st : @State World) :
  OrderForm.inputAmount form = ""
  \/ le (parseFloat (OrderForm.inputAmount form)) 0%float = true
  \/ OrderForm.triggerPrice form = ""
  \/ le (parseFloat (OrderForm.triggerPrice form)) 0%float = true ->
  exists msg,
    OrderForm.handleSubmit getPriceForPair executeSwap newDate parseFloat
      connected cl form st
    = (Ok form,
       mkState (docs st) (world st) (trace st ++ [EvToastError msg])
         (isLoading st) (checkingOrdersNext st))
    /\ createdDocs [EvToastError msg] = []
    /\ swapCalls [EvToastError msg] = [].
Proof.
  intros Hbad. unfold OrderForm.handleSubmit.
  destruct connected; cbn [negb].
  2:{ eexists. split; [reflexivity|]. split; reflexivity. }
  destruct (negb (truthy_str (OrderForm.inputAmount form))
            || le (parseFloat (OrderForm.inputAmount form)) 0%float) eqn:Hamount.
  { eexists. split; [reflexivity|]. split; reflexivity. }
  destruct (negb (truthy_str (OrderForm.triggerPrice form))
            || le (parseFloat (OrderForm.triggerPrice form)) 0%float) eqn:Htrigger.
  { eexists. split; [reflexivity|]. split; reflexivity. }
  apply orb_false_elim in Hamount. destruct Hamount as [Ha1 Ha2].
  apply orb_false_elim in Htrigger. destruct Htrigger as [Ht1 Ht2].
  destruct Hbad as [H|[H|[H|H]]].
  - rewrite H in Ha1. discriminate.
  - rewrite H in Ha2. discriminate.
  - rewrite H in Ht1. discriminate.
  - rewrite H in Ht2. discriminate.
Qed.

End Submit.

Lemma handleSubmit_rejects_non_positive_witness :
  let form :=
    OrderForm.mkFormState JupiterService.TOKENS.SOL JupiterService.TOKENS.USDC
      "1" LIMIT "-1" in
  exists msg,
    OrderForm.handleSubmit (Sample.priceIs 150%float)
      (Sample.swapAnswers (Ok (SwapSuccess "sig"))) (Sample.clockShows 2000)
      Sample.parseFloat true (Sample.closureWith []) form Sample.emptyState
    = (Ok form,
       mkState (docs Sample.emptyState) (world Sample.emptyState)
         (trace Sample.emptyState ++ [EvToastError msg])
         (isLoading Sample.emptyState) (checkingOrdersNext Sample.emptyState))
    /\ createdDocs [EvToastError msg] = []
    /\ swapCalls [EvToastError msg] = [].
Proof.
  intros form.
  apply (handleSubmit_rejects_non_positive (Sample.priceIs 150%float)
           (Sample.swapAnswers (Ok (SwapSuccess "sig"))) (Sample.clockShows 2000)
           Sample.parseFloat true (Sample.closureWith []) form Sample.emptyState).
  right. right. right. vm_compute. reflexivity.
Defined.

(** C5, as worded, fails: `createOrder` itself checks nothing.  Called
    with an amount of 0 and a trigger price of -1 it stores the document
    all the same, with these two values. *)
Lemma createOrder_accepts_non_positive :
  let orderData := Sample.solUsdc TAKE_PROFIT 0%float (-1)%float in
  let st :=
    snd (createOrder (Sample.priceIs 150%float)
           (Sample.swapAnswers (Ok (SwapSuccess "sig"))) (Sample.clockShows 2000)
           (Sample.closureWith []) orderData Sample.emptyState) in
  le (Draft.inputAmount orderData) 0%float = true
  /\ le (Draft.triggerPrice orderData) 0%float = true
  /\ createdDocs (trace st) = ["0"]
  /\ docs st !! "0" = Some (draftDocument Sample.wallet orderData 2000).
Proof. vm_compute. repeat split. Qed.

End FormFacts.

(* ===================================================================== *)
(** ** Further facts about the order engine *)
(* ===================================================================== *)

Module EngineMore.
Import Js OrderContext Run EngineFacts.

#[local] Open Scope list_scope.

Lemma sameParameters_refl (o : Order) : sameParameters o o.
Proof. repeat split. Qed.

Lemma sameParameters_setFields (o : Order) (fields : list Field) :
  sameParameters o (setFields o fields).
Proof.
  unfold setFields. revert o.
  induction fields as [|f fields IH]; intros o; [apply sameParameters_refl|].
  cbn [fold_left]. specialize (IH (setField o f)).
  destruct IH as (H1 & H2 & H3 & H4 & H5 & H6 & H7 & H8 & H9).
  destruct f; cbn in *; repeat split; assumption.
Qed.

Lemma fresh_docId_unused (ds : gmap string Order) :
  ds !! (fresh (dom ds) : string) = None.
Proof. apply not_elem_of_dom. apply is_fresh. Qed.

Section Cases.

Context {World : Type}.
Variable getPriceForPair : string -> string -> World -> Result number * World.
Variable executeSwap : SwapParams -> World -> Result SwapResult * World.
Variable newDate : World -> Z * World.

(* --------------------------------------------------------------------- *)
(** *** `executeOrder` *)

(** X2: whatever happens in it, a call of `executeOrder` for [orderId]
    leaves every other document as it was, creates and deletes none, and
    changes at most the fields `status`, `executedAt`,
    `transactionSignature` and `failureReason` of its own document; the
    two flags are not touched. *)
Theorem executeOrder_frame (cl : Closure) (orderId : string) (st : @State World)
    (other : string) :
  other <> orderId ->
  let st' := snd (executeOrder executeSwap newDate cl orderId st) in
  docs st' !! other = docs st !! other
  /\ dom (docs st') = dom (docs st)
  /\ option_Forall2 sameParameters (docs st !! orderId) (docs st' !! orderId)
  /\ createdDocs (trace st') = createdDocs (trace st)
  /\ isLoading st' = isLoading st
  /\ checkingOrdersNext st' = checkingOrdersNext st.
Proof.
  intros Hother st'. subst st'. rewrite executeOrder_eq. state_simpl.
  repeat split.
  destruct (docs st !! orderId); constructor. apply sameParameters_refl.
Qed.

(* --------------------------------------------------------------------- *)
(** *** `cancelOrder` and `retryOrder` *)

(** X3: `cancelOrder` on a stored document, whatever its status, returns
    normally with the status CANCELLED and every other field unchanged;
    no other document is touched, the outside world is not consulted,
    listeners are told CANCELLED, and `isLoading` ends false. *)
Theorem cancelOrder_sets_CANCELLED (cl : Closure) (orderId : string)
    (st : @State World) (o : Order) (other : string) :
  docs st !! orderId = Some o ->
  other <> orderId ->
  let result := cancelOrder cl orderId st in
  let o' := setFields o [F_status CANCELLED] in
  fst result = Ok tt
  /\ docs (snd result) !! orderId = Some o'
  /\ status o' = CANCELLED
  /\ sameParameters o o'
  /\ (executedAt o', transactionSignature o', failureReason o')
     = (executedAt o, transactionSignature o, failureReason o)
  /\ docs (snd result) !! other = docs st !! other
  /\ world (snd result) = world st
  /\ transitions (trace (snd result))
     = transitions (trace st) ++ [(orderId, status o, CANCELLED)]
  /\ orderUpdates (trace (snd result))
     = orderUpdates (trace st) ++ [(orderId, CANCELLED, None)]
  /\ isLoading (snd result) = false.
Proof.
  intros Hdoc Hother result o'. subst result o'.
  rewrite (cancelOrder_existing_eq cl orderId st o Hdoc). state_simpl.
  rewrite lookup_insert_eq, transitions_app, orderUpdates_app.
  rewrite lookup_insert_ne by congruence.
  repeat split; reflexivity.
Qed.

(** X4: `cancelOrder` and `retryOrder` on an id without a document change
    no document and tell no listener; the rejected write is caught, a
    'Failed to cancel order' or 'Failed to retry order' notice is shown,
    and `isLoading` ends false.  `retryOrder` stops at the rejected write:
    no scan cycle is run and the outside world is not consulted, even if
    orders of the closure are PENDING. *)
Theorem missing_order_cancel_and_retry (cl : Closure) (orderId : string)
    (st : @State World) :
  docs st !! orderId = None ->
  cancelOrder cl orderId st
  = (Ok tt,
     mkState (docs st) (world st)
       (trace st ++ [EvToastError "Failed to cancel order"])
       false (checkingOrdersNext st))
  /\ retryOrder getPriceForPair executeSwap newDate cl orderId st
     = (Ok tt,
        mkState (docs st) (world st)
          (trace st ++ [EvToastError "Failed to retry order"])
          false (checkingOrdersNext st)).
Proof.
  intros Hdoc. split.
  - apply cancelOrder_missing_eq. exact Hdoc.
  - apply retryOrder_missing_eq. exact Hdoc.
Qed.

End Cases.

Lemma executeOrder_frame_witness :
  let st := Sample.stateWith (Sample.storedOrder LIMIT 160%float PENDING None) in
  let st' :=
    snd (executeOrder (Sample.swapAnswers (Ok (SwapFailure "slippage exceeded")))
           (Sample.clockShows 2000) (Sample.closureWith []) "0" st) in
  docs st' !! "1" = docs st !! "1"
  /\ dom (docs st') = dom (docs st)
  /\ option_Forall2 sameParameters (docs st !! "0") (docs st' !! "0")
  /\ createdDocs (trace st') = createdDocs (trace st)
  /\ isLoading st' = isLoading st
  /\ checkingOrdersNext st' = checkingOrdersNext st.
Proof.
  apply (executeOrder_frame
           (Sample.swapAnswers (Ok (SwapFailure "slippage exceeded")))
           (Sample.clockShows 2000) (Sample.closureWith []) "0"
           (Sample.stateWith (Sample.storedOrder LIMIT 160%float PENDING None)) "1").
  discriminate.
Defined.

Lemma cancelOrder_sets_CANCELLED_witness :
  let o := Sample.storedOrder LIMIT 160%float EXECUTED None in
  let result := cancelOrder (Sample.closureWith []) "0" (Sample.stateWith o) in
  let o' := setFields o [F_status CANCELLED] in
  fst result = Ok tt
  /\ docs (snd result) !! "0" = Some o'
  /\ status o' = CANCELLED
  /\ sameParameters o o'
  /\ (executedAt o', transactionSignature o', failureReason o')
     = (executedAt o, transactionSignature o, failureReason o)
  /\ docs (snd result) !! "1" = docs (Sample.stateWith o) !! "1"
  /\ world (snd result) = world (Sample.stateWith o)
  /\ transitions (trace (snd result))
     = transitions (trace (Sample.stateWith o)) ++ [("0", status o, CANCELLED)]
  /\ orderUpdates (trace (snd result))
     = orderUpdates (trace (Sample.stateWith o)) ++ [("0", CANCELLED, None)]
  /\ isLoading (snd result) = false.
Proof.
  apply (cancelOrder_sets_CANCELLED (Sample.closureWith []) "0"
           (Sample.stateWith (Sample.storedOrder LIMIT 160%float EXECUTED None))
           (Sample.storedOrder LIMIT 160%float EXECUTED None) "1").
  - vm_compute. reflexivity.
  - discriminate.
Defined.

Lemma missing_order_cancel_and_retry_witness :
  let waiting :=
    mkOrder (Some "7") Sample.wallet "SOL" "USDC" 1%float LIMIT 160%float
      PENDING 1000 None None None None in
  let cl := Sample.closureWith [waiting] in
  let price := Sample.priceIs 150%float in
  let swap := Sample.swapAnswers (Ok (SwapSuccess "sig")) in
  cancelOrder cl "deleted-id" Sample.emptyState
  = (Ok tt,
     mkState (docs Sample.emptyState) (world Sample.emptyState)
       (trace Sample.emptyState ++ [EvToastError "Failed to cancel order"])
       false (checkingOrdersNext Sample.emptyState))
  /\ retryOrder price swap (Sample.clockShows 2000) cl "deleted-id" Sample.emptyState
     = (Ok tt,
        mkState (docs Sample.emptyState) (world Sample.emptyState)
          (trace Sample.emptyState ++ [EvToastError "Failed to retry order"])
          false (checkingOrdersNext Sample.emptyState)).
Proof.
  intros waiting cl price swap.
  apply (missing_order_cancel_and_retry price swap (Sample.clockShows 2000) cl
           "deleted-id" Sample.emptyState).
  reflexivity.
Defined.

(* --------------------------------------------------------------------- *)
(** *** `createOrder` *)

Section Create.

Context {World : Type}.
Variable getPriceForPair : string -> string -> World -> Result number * World.
Variable executeSwap : SwapParams -> World -> Result SwapResult * World.
Variable newDate : World -> Z * World.

(** X5: with a public key present, `createOrder` returns normally and has
    stored one new document, under an identifier that was not in use,
    with the wallet's address, the five fields of the draft and the
    creation date; whatever the price lookup and the swap executor do
    afterwards, these fields stay, no other document is touched, and
    `isLoading` ends false. *)
Theorem createOrder_stores_new_document (cl : Closure) (orderData : Draft.t)
    (st : @State World) (pk : string) (other : string) :
  publicKey cl = Some pk ->
  other <> fresh (dom (docs st)) ->
  let result := createOrder getPriceForPair executeSwap newDate cl orderData st in
  let docId : string := fresh (dom (docs st)) in
  fst result = Ok tt
  /\ docs st !! docId = None
  /\ option_Forall2 sameParameters
       (Some (draftDocument pk orderData (fst (newDate (world st)))))
       (docs (snd result) !! docId)
  /\ docs (snd result) !! other = docs st !! other
  /\ createdDocs (trace (snd result)) = createdDocs (trace st) ++ [docId]
  /\ isLoading (snd result) = false.
Proof.
  intros Hpk Hother result docId. subst result docId.
  destruct (newDate (world st)) as [d w1] eqn:Hdate.
  destruct (getPriceForPair (Draft.inputToken orderData)
              (Draft.outputToken orderData) w1) as [r w2] eqn:Hprice.
  rewrite (createOrder_eq getPriceForPair executeSwap newDate cl orderData st
             pk d w1 r w2 Hpk Hdate Hprice).
  cbv zeta. state_simpl.
  rewrite lookup_insert_eq, lookup_insert_ne by congruence.
  split; [reflexivity|]. split; [apply fresh_docId_unused|].
  split; [constructor; apply sameParameters_refl|]. split; [reflexivity|].
  split; [|reflexivity].
  rewrite !createdDocs_app.
  destruct r as [currentPrice|e];
    [destruct (Spec.shouldExecute _ _ _); [destruct (ready cl)|]|];
    reflexivity.
Qed.

(** X6: when the price that is looked up does not meet the trigger, the
    new order is left PENDING, exactly as drafted: the swap executor is
    not called and no status changes. *)
Theorem createOrder_trigger_not_met (cl : Closure) (orderData : Draft.t)
    (st : @State World) (pk : string) (d : Z) (w1 : World)
    (currentPrice : number) (w2 : World) :
  publicKey cl = Some pk ->
  newDate (world st) = (d, w1) ->
  getPriceForPair (Draft.inputToken orderData) (Draft.outputToken orderData) w1
  = (Ok currentPrice, w2) ->
  Spec.shouldExecute (Draft.orderType orderData) (Draft.triggerPrice orderData)
    currentPrice = false ->
  let st' := snd (createOrder getPriceForPair executeSwap newDate cl orderData st) in
  docs st' !! (fresh (dom (docs st)) : string) = Some (draftDocument pk orderData d)
  /\ status (draftDocument pk orderData d) = PENDING
  /\ swapCalls (trace st') = swapCalls (trace st)
  /\ transitions (trace st') = transitions (trace st).
Proof.
  intros Hpk Hdate Hprice Hrule st'. subst st'.
  rewrite (createOrder_eq getPriceForPair executeSwap newDate cl orderData st
             pk d w1 _ w2 Hpk Hdate Hprice).
  cbv zeta. rewrite Hrule. state_simpl.
  rewrite lookup_insert_eq, swapCalls_app, transitions_app.
  cbn [swapCalls transitions flat_map app]. rewrite !app_nil_r.
  repeat split; reflexivity.
Qed.

(** X7: when the price that is looked up already meets the trigger and
    the wallet is connected, `createOrder` announces the execution, but
    the execution attempt ends in the `ReferenceError` raised by `getDoc`
    before anything is written or the swap executor is called.  The call
    returns normally: the order is stored and stays PENDING, no status
    changes, no swap call is made, and the notices shown are 'Order
    created successfully', 'Order conditions met, executing
    immediately...' and then 'Failed to create order'. *)
Theorem createOrder_immediate_execution_fails (cl : Closure) (orderData : Draft.t)
    (st : @State World) (pk : string) (d : Z) (w1 : World)
    (currentPrice : number) (w2 : World) :
  connected cl pk ->
  newDate (world st) = (d, w1) ->
  getPriceForPair (Draft.inputToken orderData) (Draft.outputToken orderData) w1
  = (Ok currentPrice, w2) ->
  Spec.shouldExecute (Draft.orderType orderData) (Draft.triggerPrice orderData)
    currentPrice = true ->
  let result := createOrder getPriceForPair executeSwap newDate cl orderData st in
  let docId : string := fresh (dom (docs st)) in
  fst result = Ok tt
  /\ docs (snd result) !! docId = Some (draftDocument pk orderData d)
  /\ status (draftDocument pk orderData d) = PENDING
  /\ trace (snd result)
     = trace st ++
         [EvAddDoc docId (draftDocument pk orderData d);
          EvToastSuccess "Order created successfully";
          EvGetPrice (Draft.inputToken orderData) (Draft.outputToken orderData);
          EvToastLoading "Order conditions met, executing immediately...";
          EvToastError "Failed to create order"]
  /\ swapCalls (trace (snd result)) = swapCalls (trace st)
  /\ transitions (trace (snd result)) = transitions (trace st)
  /\ isLoading (snd result) = false.
Proof.
  intros Hcon Hdate Hprice Hrule result docId. subst result docId.
  pose proof Hcon as (Hpk & _ & _).
  rewrite (createOrder_eq getPriceForPair executeSwap newDate cl orderData st
             pk d w1 _ w2 Hpk Hdate Hprice).
  cbv zeta. rewrite Hrule, (ready_connected cl pk Hcon). state_simpl.
  rewrite lookup_insert_eq, swapCalls_app, transitions_app.
  cbn [swapCalls transitions flat_map app]. rewrite !app_nil_r.
  repeat split; reflexivity.
Qed.


(** X9: when the trigger is already met but the wallet offers a public
    key without one of its signing functions, `createOrder` announces
    'Order conditions met, executing immediately...' and then executes
    nothing: the order stays PENDING and the swap executor is not
    called. *)
Theorem createOrder_without_signer (cl : Closure) (orderData : Draft.t)
    (st : @State World) (pk : string) (d : Z) (w1 : World)
    (currentPrice : number) (w2 : World) :
  publicKey cl = Some pk ->
  signTransaction cl = false \/ signAllTransactions cl = false ->
  newDate (world st) = (d, w1) ->
  getPriceForPair (Draft.inputToken orderData) (Draft.outputToken orderData) w1
  = (Ok currentPrice, w2) ->
  Spec.shouldExecute (Draft.orderType orderData) (Draft.triggerPrice orderData)
    currentPrice = true ->
  let result := createOrder getPriceForPair executeSwap newDate cl orderData st in
  let docId : string := fresh (dom (docs st)) in
  fst result = Ok tt
  /\ docs (snd result) !! docId = Some (draftDocument pk orderData d)
  /\ trace (snd result)
     = trace st ++
         [EvAddDoc docId (draftDocument pk orderData d);
          EvToastSuccess "Order created successfully";
          EvGetPrice (Draft.inputToken orderData) (Draft.outputToken orderData);
          EvToastLoading "Order conditions met, executing immediately..."].
Proof.
  intros Hpk Hsign Hdate Hprice Hrule result docId. subst result docId.
  rewrite (createOrder_eq getPriceForPair executeSwap newDate cl orderData st
             pk d w1 _ w2 Hpk Hdate Hprice).
  cbv zeta. rewrite Hrule.
  rewrite (ready_disconnected cl) by (right; exact Hsign).
  state_simpl. rewrite lookup_insert_eq. repeat split; reflexivity.
Qed.

End Create.

Lemma createOrder_stores_new_document_witness :
  let price := Sample.priceIs 150%float in
  let swap := Sample.swapAnswers (Ok (SwapFailure "slippage exceeded")) in
  let clock := Sample.clockShows 2000 in
  let orderData := Sample.solUsdc LIMIT 1%float 160%float in
  let st := Sample.stateWith (Sample.storedOrder LIMIT 100%float EXECUTED None) in
  let result := createOrder price swap clock (Sample.closureWith []) orderData st in
  let docId : string := fresh (dom (docs st)) in
  fst result = Ok tt
  /\ docs st !! docId = None
  /\ option_Forall2 sameParameters
       (Some (draftDocument Sample.wallet orderData (fst (clock (world st)))))
       (docs (snd result) !! docId)
  /\ docs (snd result) !! "0" = docs st !! "0"
  /\ createdDocs (trace (snd result)) = createdDocs (trace st) ++ [docId]
  /\ isLoading (snd result) = false.
Proof.
  intros price swap clock orderData st.
  apply (createOrder_stores_new_document price swap clock (Sample.closureWith [])
           orderData st Sample.wallet "0").
  - reflexivity.
  - vm_compute. discriminate.
Defined.

Lemma createOrder_trigger_not_met_witness :
  let price := Sample.priceIs 150%float in
  let swap := Sample.swapAnswers (Ok (SwapSuccess "sig")) in
  let clock := Sample.clockShows 2000 in
  let orderData := Sample.solUsdc STOP_LOSS 2%float 140%float in
  let st := Sample.emptyState in
  let st' := snd (createOrder price swap clock (Sample.closureWith []) orderData st) in
  docs st' !! (fresh (dom (docs st)) : string)
  = Some (draftDocument Sample.wallet orderData 2000)
  /\ status (draftDocument Sample.wallet orderData 2000) = PENDING
  /\ swapCalls (trace st') = swapCalls (trace st)
  /\ transitions (trace st') = transitions (trace st).
Proof.
  intros price swap clock orderData st.
  apply (createOrder_trigger_not_met price swap clock (Sample.closureWith [])
           orderData st Sample.wallet 2000%Z tt 150%float tt).
  - reflexivity.
  - reflexivity.
  - reflexivity.
  - vm_compute. reflexivity.
Defined.

Lemma createOrder_immediate_execution_fails_witness :
  let price := Sample.priceIs 150%float in
  let swap := Sample.swapAnswers (Ok (SwapSuccess "sig")) in
  let clock := Sample.clockShows 2000 in
  let orderData := Sample.solUsdc LIMIT 1%float 160%float in
  let st := Sample.emptyState in
  let result := createOrder price swap clock (Sample.closureWith []) orderData st in
  let docId : string := fresh (dom (docs st)) in
  fst result = Ok tt
  /\ docs (snd result) !! docId = Some (draftDocument Sample.wallet orderData 2000)
  /\ status (draftDocument Sample.wallet orderData 2000) = PENDING
  /\ trace (snd result)
     = trace st ++
         [EvAddDoc docId (draftDocument Sample.wallet orderData 2000);
          EvToastSuccess "Order created successfully";
          EvGetPrice (Draft.inputToken orderData) (Draft.outputToken orderData);
          EvToastLoading "Order conditions met, executing immediately...";
          EvToastError "Failed to create order"]
  /\ swapCalls (trace (snd result)) = swapCalls (trace st)
  /\ transitions (trace (snd result)) = transitions (trace st)
  /\ isLoading (snd result) = false.
Proof.
  intros price swap clock orderData st.
  apply (createOrder_immediate_execution_fails price swap clock (Sample.closureWith [])
           orderData st Sample.wallet 2000%Z tt 150%float tt).
  - repeat split; reflexivity.
  - reflexivity.
  - reflexivity.
  - vm_compute. reflexivity.
Defined.


Lemma createOrder_without_signer_witness :
  let price := Sample.priceIs 150%float in
  let swap := Sample.swapAnswers (Ok (SwapSuccess "sig")) in
  let clock := Sample.clockShows 2000 in
  let orderData := Sample.solUsdc LIMIT 1%float 160%float in
  let cl := mkClosure (Some Sample.wallet) false true [] false in
  let st := Sample.emptyState in
  let result := createOrder price swap clock cl orderData st in
  let docId : string := fresh (dom (docs st)) in
  fst result = Ok tt
  /\ docs (snd result) !! docId = Some (draftDocument Sample.wallet orderData 2000)
  /\ trace (snd result)
     = trace st ++
         [EvAddDoc docId (draftDocument Sample.wallet orderData 2000);
          EvToastSuccess "Order created successfully";
          EvGetPrice (Draft.inputToken orderData) (Draft.outputToken orderData);
          EvToastLoading "Order conditions met, executing immediately..."].
Proof.
  intros price swap clock orderData cl st.
  apply (createOrder_without_signer price swap clock cl orderData st
           Sample.wallet 2000%Z tt 150%float tt).
  - reflexivity.
  - left. reflexivity.
  - reflexivity.
  - reflexivity.
  - vm_compute. reflexivity.
Defined.

(* --------------------------------------------------------------------- *)
(** *** The list `orders` of a render *)

Lemma orderOfDoc_id (docId : string) (data : Order) :
  id data = None -> id (orderOfDoc (docId, data)) = Some docId.
Proof. intros H. cbn. rewrite H. reflexivity. Qed.

Lemma orderOfDoc_status (docId : string) (data : Order) :
  status (orderOfDoc (docId, data)) = status data.
Proof. reflexivity. Qed.

Lemma snapshotOrders_In (wallet : string) (ds : gmap string Order) (o : Order) :
  In o (snapshotOrders wallet ds)
  <-> exists docId data,
        ds !! docId = Some data
        /\ walletAddress data = wallet
        /\ o = orderOfDoc (docId, data).
Proof.
  unfold snapshotOrders. rewrite in_map_iff. split.
  - intros ([docId data] & <- & Hin). apply filter_In in Hin.
    destruct Hin as [Hin Hw]. cbn [snd] in Hw. apply String.eqb_eq in Hw.
    apply list_elem_of_In, elem_of_map_to_list in Hin. eauto.
  - intros (docId & data & Hdoc & Hw & ->). exists (docId, data).
    split; [reflexivity|]. apply filter_In. split.
    + apply list_elem_of_In, elem_of_map_to_list. exact Hdoc.
    + cbn [snd]. apply String.eqb_eq. exact Hw.
Qed.

Lemma NoDup_map_filter {A B : Type} (g : A -> B) (f : A -> bool) (l : list A) :
  NoDup (map g l) -> NoDup (map g (List.filter f l)).
Proof.
  induction l as [|x l IH]; intros Hnd; [constructor|].
  cbn [map] in Hnd. apply NoDup_cons in Hnd. destruct Hnd as [Hx Hnd].
  cbn [List.filter]. destruct (f x); [|apply IH; exact Hnd].
  cbn [map]. apply NoDup_cons. split; [|apply IH; exact Hnd].
  intros Hin. apply Hx. apply list_elem_of_In in Hin. apply list_elem_of_In.
  apply in_map_iff in Hin. destruct Hin as (y & Hy & Hin).
  apply filter_In in Hin. destruct Hin as [Hin _].
  apply in_map_iff. eauto.
Qed.

Lemma snapshotOrders_NoDup (wallet : string) (ds : gmap string Order) :
  withoutIdField ds -> NoDup (map id (snapshotOrders wallet ds)).
Proof.
  intros Hplain. unfold snapshotOrders. rewrite map_map.
  assert (Hext : forall l : list (string * Order),
             (forall x, In x l -> id (snd x) = None) ->
             map (fun x => id (orderOfDoc x)) l = map Some (map fst l)).
  { intros l Hl. rewrite map_map. apply map_ext_in. intros [docId data] Hin.
    apply orderOfDoc_id. exact (Hl _ Hin). }
  rewrite Hext.
  - apply (NoDup_fmap_2 Some). apply NoDup_map_filter. apply NoDup_fst_map_to_list.
  - intros [docId data] Hin. apply filter_In in Hin. destruct Hin as [Hin _].
    apply list_elem_of_In, elem_of_map_to_list in Hin. cbn [snd].
    exact (Hplain docId data Hin).
Qed.

(** X10: for a store whose documents carry no field `id` of their own, the
    list `orders` a render gets from the snapshot listener holds exactly
    the stored documents of the wallet, each once, carrying its document
    id and the stored status.  (A stored field `id` would replace the
    document id in the list.) *)
Theorem snapshotOrders_lists_wallet_documents (wallet : string)
    (ds : gmap string Order) (o : Order) :
  withoutIdField ds ->
  NoDup (map id (snapshotOrders wallet ds))
  /\ (In o (snapshotOrders wallet ds)
      <-> exists docId data,
            ds !! docId = Some data
            /\ walletAddress data = wallet
            /\ id o = Some docId
            /\ status o = status data
            /\ o = orderOfDoc (docId, data)).
Proof.
  intros Hplain. split; [apply snapshotOrders_NoDup; exact Hplain|].
  rewrite snapshotOrders_In. split.
  - intros (docId & data & Hdoc & Hw & ->). exists docId, data.
    split; [exact Hdoc|]. split; [exact Hw|].
    split; [apply orderOfDoc_id; exact (Hplain docId data Hdoc)|].
    split; reflexivity.
  - intros (docId & data & Hdoc & Hw & _ & _ & ->). eauto.
Qed.

(** The listener at work on a store in which the document "4" carries a
    field `id` of its own, "other": two orders of the list then bear the
    same id. *)
Example snapshotOrders_stored_id_field :
  let named :=
    mkOrder (Some "other") Sample.wallet "SOL" "USDC" 1%float LIMIT 160%float
      PENDING 1000 None None None None in
  let ds : gmap string Order :=
    {["4" := named; "other" := Sample.storedOrder LIMIT 100%float EXECUTED None]} in
  map id (snapshotOrders Sample.wallet ds) = [Some "other"; Some "other"].
Proof. vm_compute. reflexivity. Qed.

(* --------------------------------------------------------------------- *)
(** *** More on the scan cycle *)

Section Scans.

Context {World : Type}.
Variable getPriceForPair : string -> string -> World -> Result number * World.
Variable executeSwap : SwapParams -> World -> Result SwapResult * World.
Variable newDate : World -> Z * World.

(** X11: a scan cycle that is not held back by the flag returns normally
    and has looked up the price of every PENDING order of its list, once
    each and in the order of the list, also when lookups or executions
    before it failed; it creates and deletes no document, leaves
    `isLoading` alone and ends with the flag reset. *)
Theorem checkOrderTriggers_evaluates_each_pending_order (cl : Closure)
    (st : @State World) :
  checkingOrders cl = false ->
  let result := checkOrderTriggers getPriceForPair executeSwap newDate cl st in
  fst result = Ok tt
  /\ priceLookups (trace (snd result))
     = priceLookups (trace st)
         ++ map (fun o => (inputToken o, outputToken o)) (pendingOrders cl)
  /\ createdDocs (trace (snd result)) = createdDocs (trace st)
  /\ dom (docs (snd result)) = dom (docs st)
  /\ isLoading (snd result) = isLoading st
  /\ checkingOrdersNext (snd result) = false.
Proof.
  intros Hidle result. subst result.
  rewrite checkOrderTriggers_eq, Hidle. state_simpl.
  rewrite priceLookups_app, createdDocs_app, priceLookups_lookupEvents,
    createdDocs_lookupEvents, app_nil_r.
  repeat split; reflexivity.
Qed.

(** X12: with a wallet that lacks its public key or one of its signing
    functions, a scan cycle returns normally, changes no document and
    never calls the swap executor, whatever the prices are. *)
Theorem checkOrderTriggers_without_wallet (cl : Closure) (st : @State World) :
  publicKey cl = None \/ signTransaction cl = false \/ signAllTransactions cl = false ->
  let result := checkOrderTriggers getPriceForPair executeSwap newDate cl st in
  fst result = Ok tt
  /\ docs (snd result) = docs st
  /\ transitions (trace (snd result)) = transitions (trace st)
  /\ swapCalls (trace (snd result)) = swapCalls (trace st).
Proof.
  intros _ result. subst result.
  rewrite checkOrderTriggers_eq. destruct (checkingOrders cl); state_simpl.
  - repeat split; reflexivity.
  - rewrite transitions_app, swapCalls_app, transitions_lookupEvents,
      swapCalls_lookupEvents, !app_nil_r.
    repeat split; reflexivity.
Qed.

(** X13: as it is written, a scan cycle executes no order, with any
    wallet and at any prices: every execution attempt it starts ends in
    the `ReferenceError` raised by `getDoc`, which the `catch` of the loop
    swallows.  The cycle returns normally; no document changes, no status
    is written, no listener is told anything and the swap executor is
    never called. *)
Theorem checkOrderTriggers_executes_nothing (cl : Closure) (st : @State World) :
  let result := checkOrderTriggers getPriceForPair executeSwap newDate cl st in
  fst result = Ok tt
  /\ docs (snd result) = docs st
  /\ transitions (trace (snd result)) = transitions (trace st)
  /\ orderUpdates (trace (snd result)) = orderUpdates (trace st)
  /\ swapCalls (trace (snd result)) = swapCalls (trace st).
Proof.
  intros result. subst result.
  rewrite checkOrderTriggers_eq. destruct (checkingOrders cl); state_simpl.
  - repeat split; reflexivity.
  - rewrite transitions_app, swapCalls_app, orderUpdates_app,
      transitions_lookupEvents, swapCalls_lookupEvents, orderUpdates_lookupEvents,
      !app_nil_r.
    repeat split; reflexivity.
Qed.

End Scans.

Lemma snapshotOrders_lists_wallet_documents_witness :
  let stored := Sample.storedOrder LIMIT 160%float PENDING None in
  let ds : gmap string Order := {["0" := stored]} in
  let o := orderOfDoc ("0", stored) in
  NoDup (map id (snapshotOrders Sample.wallet ds))
  /\ (In o (snapshotOrders Sample.wallet ds)
      <-> exists docId data,
            ds !! docId = Some data
            /\ walletAddress data = Sample.wallet
            /\ id o = Some docId
            /\ status o = status data
            /\ o = orderOfDoc (docId, data)).
Proof.
  intros stored ds o.
  apply (snapshotOrders_lists_wallet_documents Sample.wallet ds o).
  apply map_Forall_singleton. reflexivity.
Defined.

Lemma checkOrderTriggers_evaluates_each_pending_order_witness :
  let price := Sample.priceFails (ErrorObj "Network Error") in
  let swap := Sample.swapAnswers (Ok (SwapSuccess "sig")) in
  let clock := Sample.clockShows 2000 in
  let st := Sample.stateWith (Sample.storedOrder LIMIT 160%float PENDING None) in
  let cl := render Sample.wallet st in
  let result := checkOrderTriggers price swap clock cl st in
  fst result = Ok tt
  /\ priceLookups (trace (snd result))
     = priceLookups (trace st)
         ++ map (fun o => (inputToken o, outputToken o)) (pendingOrders cl)
  /\ createdDocs (trace (snd result)) = createdDocs (trace st)
  /\ dom (docs (snd result)) = dom (docs st)
  /\ isLoading (snd result) = isLoading st
  /\ checkingOrdersNext (snd result) = false.
Proof.
  intros price swap clock st cl.
  apply (checkOrderTriggers_evaluates_each_pending_order price swap clock cl st).
  reflexivity.
Defined.

Lemma checkOrderTriggers_without_wallet_witness :
  let price := Sample.priceIs 150%float in
  let swap := Sample.swapAnswers (Ok (SwapSuccess "sig")) in
  let clock := Sample.clockShows 2000 in
  let st := Sample.stateWith (Sample.storedOrder LIMIT 160%float PENDING None) in
  let cl := mkClosure (Some Sample.wallet) true false
              (snapshotOrders Sample.wallet (docs st)) false in
  let result := checkOrderTriggers price swap clock cl st in
  fst result = Ok tt
  /\ docs (snd result) = docs st
  /\ transitions (trace (snd result)) = transitions (trace st)
  /\ swapCalls (trace (snd result)) = swapCalls (trace st).
Proof.
  intros price swap clock st cl.
  apply (checkOrderTriggers_without_wallet price swap clock cl st).
  right. right. reflexivity.
Defined.

End EngineMore.




(* ===================================================================== *)
(** ** Facts about the order lists and the actions they offer *)
(* ===================================================================== *)

Module TableFacts.
Import Js OrderContext Run EngineFacts EngineMore OrderTable.

#[local] Open Scope list_scope.

Lemma insertNewestFirst_In (a x : Order) (l : list Order) :
  In x (insertNewestFirst a l) <-> x = a \/ In x l.
Proof.
  induction l as [|b l IH]; cbn [insertNewestFirst].
  - simpl. intuition congruence.
  - destruct (createdAt a <? createdAt b)%Z; simpl in *; rewrite ?IH;
      intuition congruence.
Qed.

Lemma sortNewestFirst_In (x : Order) (l : list Order) :
  In x (sortNewestFirst l) <-> In x l.
Proof.
  induction l as [|a l IH]; [reflexivity|].
  cbn [sortNewestFirst fold_right]. fold (sortNewestFirst l).
  rewrite insertNewestFirst_In, IH. simpl. intuition congruence.
Qed.

Lemma insertNewestFirst_Permutation (a : Order) (l : list Order) :
  Permutation (insertNewestFirst a l) (a :: l).
Proof.
  induction l as [|b l IH]; cbn [insertNewestFirst]; [reflexivity|].
  destruct (createdAt a <? createdAt b)%Z; [|reflexivity].
  rewrite IH. apply perm_swap.
Qed.

Lemma sortNewestFirst_Permutation (l : list Order) :
  Permutation (sortNewestFirst l) l.
Proof.
  induction l as [|a l IH]; [reflexivity|].
  cbn [sortNewestFirst fold_right]. fold (sortNewestFirst l).
  rewrite insertNewestFirst_Permutation, IH. reflexivity.
Qed.

Lemma insertNewestFirst_sorted (a : Order) (l : list Order) :
  StronglySorted newerOrSame l ->
  StronglySorted newerOrSame (insertNewestFirst a l).
Proof.
  induction l as [|b l IH]; intros Hs; cbn [insertNewestFirst].
  - repeat constructor.
  - apply StronglySorted_inv in Hs. destruct Hs as [Hl Hb].
    destruct (createdAt a <? createdAt b)%Z eqn:Hab.
    + apply Z.ltb_lt in Hab. constructor; [apply IH; exact Hl|].
      rewrite List.Forall_forall in *. intros x Hx.
      apply insertNewestFirst_In in Hx.
      destruct Hx as [->|Hx]; [unfold newerOrSame; lia|auto].
    + apply Z.ltb_ge in Hab. constructor; [constructor; assumption|].
      constructor; [exact Hab|].
      rewrite List.Forall_forall in *. intros x Hx. specialize (Hb x Hx).
      unfold newerOrSame in *. lia.
Qed.

Lemma sortNewestFirst_sorted (l : list Order) :
  StronglySorted newerOrSame (sortNewestFirst l).
Proof.
  induction l as [|a l IH]; [constructor|].
  cbn [sortNewestFirst fold_right]. apply insertNewestFirst_sorted. exact IH.
Qed.

Lemma firstn_In_list {A : Type} (n : nat) (l : list A) (x : A) :
  In x (firstn n l) -> In x l.
Proof.
  revert n. induction l as [|y l IH]; intros [|n]; simpl; try tauto.
  intros [->|H]; [left; reflexivity|right; eauto].
Qed.

Lemma firstn_sorted (n : nat) (l : list Order) :
  StronglySorted newerOrSame l -> StronglySorted newerOrSame (firstn n l).
Proof.
  revert n. induction l as [|y l IH]; intros [|n] Hs; simpl; try constructor.
  - apply IH. apply StronglySorted_inv in Hs. tauto.
  - apply StronglySorted_inv in Hs. destruct Hs as [_ Hy].
    rewrite List.Forall_forall in *. intros x Hx. apply Hy.
    eapply firstn_In_list. exact Hx.
Qed.

(** In a list sorted newest first, what lies beyond a prefix is not newer
    than anything inside the prefix. *)
Lemma sorted_prefix_newer (n : nat) (l : list Order) (shown hidden : Order) :
  StronglySorted newerOrSame l ->
  In shown (firstn n l) -> In hidden (skipn n l) ->
  (createdAt hidden <= createdAt shown)%Z.
Proof.
  revert n. induction l as [|y l IH]; intros [|n] Hs Hshown Hhidden;
    simpl in *; try tauto.
  apply StronglySorted_inv in Hs. destruct Hs as [Hl Hy].
  destruct Hshown as [->|Hshown]; [|eauto].
  rewrite List.Forall_forall in Hy. apply (Hy hidden).
  rewrite <- (firstn_skipn n l). apply in_or_app. right. exact Hhidden.
Qed.

(** `slice(0, limit)` is a prefix. *)
Lemma slice0_prefix (limit : option Z) (l : list Order) :
  exists n, slice0 limit l = firstn n l.
Proof.
  destruct limit as [e|]; cbn [slice0].
  - destruct (e <? 0)%Z; eauto.
  - exists (length l). symmetry. apply firstn_all.
Qed.

Lemma slice0_spec (limit : option Z) (l : list Order) :
  exists n,
    slice0 limit l = firstn n l
    /\ length (slice0 limit l)
       = match limit with
         | None => length l
         | Some e =>
             if (e <? 0)%Z
             then Z.to_nat (Z.of_nat (length l) + e)
             else Nat.min (Z.to_nat e) (length l)
         end.
Proof.
  destruct limit as [e|]; cbn [slice0].
  - destruct (e <? 0)%Z eqn:Hneg; eexists; (split; [reflexivity|]);
      rewrite length_firstn.
    + apply Z.ltb_lt in Hneg. lia.
    + reflexivity.
  - exists (length l). split; [symmetry; apply firstn_all|reflexivity].
Qed.

(** X14: the rows of the order table come newest first, are orders of the
    list that match the filter, and are the first ones of all matching
    orders in that order: together with the matching orders that are not
    shown they make up all matching orders, and an order that is not shown
    is not newer than any order shown.  Without a `limit` every matching
    order is shown; with a `limit` that is not negative there are `limit`
    rows, or all matching orders if these are fewer; a negative `limit`
    drops that many of the oldest. *)
Theorem filteredOrders_newest_matching (filter : Filter) (limit : option Z)
    (orders : list Order) :
  let shown := filteredOrders filter limit orders in
  let matching := List.filter (matchesFilter filter) orders in
  StronglySorted newerOrSame shown
  /\ Forall (fun o => In o orders /\ matchesFilter filter o = true) shown
  /\ (exists hidden,
        Permutation (shown ++ hidden) matching
        /\ Forall (fun h => Forall (fun o => newerOrSame o h) shown) hidden)
  /\ length shown
     = match limit with
       | None => length matching
       | Some e =>
           if (e <? 0)%Z
           then Z.to_nat (Z.of_nat (length matching) + e)
           else Nat.min (Z.to_nat e) (length matching)
       end.
Proof.
  intros shown matching. subst shown. unfold filteredOrders. fold matching.
  set (sorted := sortNewestFirst matching).
  assert (Hsorted : StronglySorted newerOrSame sorted)
    by apply sortNewestFirst_sorted.
  assert (Hperm : Permutation sorted matching)
    by apply sortNewestFirst_Permutation.
  destruct (slice0_spec limit sorted) as (n & Hn & Hlen).
  rewrite Hlen, (Permutation_length Hperm). rewrite Hn.
  split; [apply firstn_sorted; exact Hsorted|].
  split.
  { rewrite List.Forall_forall. intros o Ho. apply firstn_In_list in Ho.
    apply (Permutation_in _ Hperm) in Ho. apply filter_In in Ho. exact Ho. }
  split; [|reflexivity].
  exists (skipn n sorted). split; [rewrite firstn_skipn; exact Hperm|].
  rewrite List.Forall_forall. intros h Hh.
  rewrite List.Forall_forall. intros o Ho.
  exact (sorted_prefix_newer n sorted o h Hsorted Ho Hh).
Qed.

(** Three PENDING orders and a limit of 2: the two newest are shown, the
    newest first. *)
Example filteredOrders_two_newest :
  let at_time (d : Z) :=
    mkOrder None Sample.wallet "SOL" "USDC" 1%float LIMIT 160%float
      PENDING d None None None None in
  filteredOrders (Only PENDING) (Some 2%Z)
    [at_time 1000%Z; Sample.storedOrder LIMIT 100%float EXECUTED None;
     at_time 3000%Z; at_time 2000%Z]
  = [at_time 3000%Z; at_time 2000%Z].
Proof. vm_compute. reflexivity. Qed.

(** X15: whenever some order of the list is PENDING for the selected
    pair, `pendingOrder` of the dashboard is present: it is an order of
    the list that is PENDING for that pair, and no such order is newer. *)
Theorem pendingOrder_most_recent (orders : list Order)
    (inputToken outputToken : string) (other : Order) :
  In other orders ->
  status other = PENDING ->
  OrderContext.inputToken other = inputToken ->
  OrderContext.outputToken other = outputToken ->
  exists o,
    Dashboard.pendingOrder orders inputToken outputToken = Some o
    /\ In o orders
    /\ status o = PENDING
    /\ OrderContext.inputToken o = inputToken
    /\ OrderContext.outputToken o = outputToken
    /\ (createdAt other <= createdAt o)%Z.
Proof.
  intros Hin Hst Hi Ho. unfold Dashboard.pendingOrder.
  set (f := fun order : Order =>
              Status_eqb (status order) PENDING
              && String.eqb (OrderContext.inputToken order) inputToken
              && String.eqb (OrderContext.outputToken order) outputToken).
  assert (Hf : forall x, f x = true
                 <-> status x = PENDING /\ OrderContext.inputToken x = inputToken
                     /\ OrderContext.outputToken x = outputToken).
  { intros x. unfold f. rewrite !andb_true_iff, Status_eqb_eq, !String.eqb_eq. tauto. }
  assert (Hother : In other (sortNewestFirst (List.filter f orders))).
  { apply sortNewestFirst_In, filter_In. split; [exact Hin|]. apply Hf. tauto. }
  pose proof (sortNewestFirst_sorted (List.filter f orders)) as Hsorted.
  destruct (sortNewestFirst (List.filter f orders)) as [|o rest] eqn:Hsort;
    [destruct Hother|].
  exists o. split; [reflexivity|].
  assert (Hoin : In o (List.filter f orders)).
  { apply sortNewestFirst_In. rewrite Hsort. left. reflexivity. }
  apply filter_In in Hoin. destruct Hoin as [Hoin Hfo]. apply Hf in Hfo.
  split; [exact Hoin|]. split; [tauto|]. split; [tauto|]. split; [tauto|].
  apply StronglySorted_inv in Hsorted. destruct Hsorted as [_ Hall].
  destruct Hother as [->|Hother]; [lia|].
  rewrite List.Forall_forall in Hall. apply (Hall other). exact Hother.
Qed.

Lemma pendingOrder_most_recent_witness :
  let older := Sample.storedOrder LIMIT 140%float PENDING None in
  let newer :=
    mkOrder None Sample.wallet JupiterService.TOKENS.SOL JupiterService.TOKENS.USDC
      1%float STOP_LOSS 120%float PENDING 2000%Z None None None None in
  exists o,
    Dashboard.pendingOrder [older; newer]
      JupiterService.TOKENS.SOL JupiterService.TOKENS.USDC = Some o
    /\ In o [older; newer]
    /\ status o = PENDING
    /\ OrderContext.inputToken o = JupiterService.TOKENS.SOL
    /\ OrderContext.outputToken o = JupiterService.TOKENS.USDC
    /\ (createdAt older <= createdAt o)%Z.
Proof.
  intros older newer.
  apply (pendingOrder_most_recent [older; newer]
           JupiterService.TOKENS.SOL JupiterService.TOKENS.USDC older).
  - simpl. left. reflexivity.
  - reflexivity.
  - reflexivity.
  - reflexivity.
Defined.

(* --------------------------------------------------------------------- *)
(** *** What the buttons can do *)

Lemma rows_In (cl : Closure) (filter : Filter) (limit : option Z) (row : nat)
    (order : Order) :
  nth_error (rows cl filter limit) row = Some order -> In order (orders cl).
Proof.
  unfold rows. destruct (publicKey cl); [|destruct row; discriminate].
  intros Hrow. apply nth_error_In in Hrow. unfold filteredOrders in Hrow.
  destruct (slice0_prefix limit
              (sortNewestFirst (List.filter (matchesFilter filter) (orders cl))))
    as [n Hn].
  rewrite Hn in Hrow. apply firstn_In_list, sortNewestFirst_In, filter_In in Hrow.
  tauto.
Qed.

Lemma CancelButton_offered (order : Order) :
  existsb (Button_eqb CancelButton) (buttons order) = true -> status order = PENDING.
Proof.
  unfold buttons. destruct (status order); cbn; try discriminate; try reflexivity.
  destruct (transactionSignature order) as [sg|]; cbn;
    [destruct (truthy_str sg)|]; cbn; discriminate.
Qed.

Lemma RetryButton_offered (order : Order) :
  existsb (Button_eqb RetryButton) (buttons order) = true -> status order = FAILED.
Proof.
  unfold buttons. destruct (status order); cbn; try discriminate; try reflexivity.
  destruct (transactionSignature order) as [sg|]; cbn;
    [destruct (truthy_str sg)|]; cbn; discriminate.
Qed.

Section Ui.

Context {World : Type}.
Variable getPriceForPair : string -> string -> World -> Result number * World.
Variable executeSwap : SwapParams -> World -> Result SwapResult * World.
Variable newDate : World -> Z * World.

Lemma setFields_id (o : Order) (fields : list Field) :
  id (setFields o fields) = id o.
Proof. destruct (sameParameters_setFields o fields) as [H _]. exact H. Qed.

Lemma withoutIdField_insert (ds : gmap string Order) (i : string) (o : Order) :
  withoutIdField ds -> id o = None -> withoutIdField (<[i := o]> ds).
Proof. intros Hds Ho. apply map_Forall_insert_2; assumption. Qed.

(** What a step leaves behind: its events follow those before it, every
    status change among them is one of the two a button can cause, and
    the store still has no document with a field `id` of its own. *)
Lemma tick_byButton (wallet : string) (st : @State World) :
  withoutIdField (docs st) ->
  exists evs,
    trace (snd (tick getPriceForPair executeSwap newDate (render wallet st) st))
    = trace st ++ evs
    /\ Forall byButton (transitions evs)
    /\ withoutIdField
         (docs (snd (tick getPriceForPair executeSwap newDate (render wallet st) st))).
Proof.
  intros Hplain. unfold tick.
  destruct (orders (render wallet st));
    [exists []; rewrite app_nil_r; repeat split; [constructor|exact Hplain]|].
  cbn [publicKey render].
  destruct (checkingOrders _) eqn:Hflag;
    [exists []; rewrite app_nil_r; repeat split; [constructor|exact Hplain]|].
  rewrite checkOrderTriggers_eq, Hflag. state_simpl.
  eexists. split; [reflexivity|].
  rewrite transitions_lookupEvents. split; [constructor|exact Hplain].
Qed.

Lemma submit_byButton (wallet : string) (orderData : Draft.t) (st : @State World) :
  withoutIdField (docs st) ->
  exists evs,
    trace (snd (createOrder getPriceForPair executeSwap newDate (render wallet st)
                  orderData st))
    = trace st ++ evs
    /\ Forall byButton (transitions evs)
    /\ withoutIdField
         (docs (snd (createOrder getPriceForPair executeSwap newDate
                       (render wallet st) orderData st))).
Proof.
  intros Hplain.
  destruct (newDate (world st)) as [d w1] eqn:Hdate.
  destruct (getPriceForPair (Draft.inputToken orderData)
              (Draft.outputToken orderData) w1) as [r w2] eqn:Hprice.
  rewrite (createOrder_eq getPriceForPair executeSwap newDate (render wallet st)
             orderData st wallet d w1 r w2 eq_refl Hdate Hprice).
  cbv zeta. state_simpl. eexists. split; [reflexivity|]. split.
  - replace (transitions _) with (@nil (string * Status * Status)); [constructor|].
    destruct r as [currentPrice|e];
      [destruct (Spec.shouldExecute _ _ _); [destruct (ready _)|]|];
      reflexivity.
  - apply withoutIdField_insert; [exact Hplain|reflexivity].
Qed.

Lemma click_byButton (wallet : string) (st : @State World)
    (loading : bool) (filter : Filter) (limit : option Z) (row : nat) (b : Button) :
  withoutIdField (docs st) ->
  exists evs,
    trace (snd (click getPriceForPair executeSwap newDate (render wallet st) loading
                  filter limit row b st))
    = trace st ++ evs
    /\ Forall byButton (transitions evs)
    /\ withoutIdField
         (docs (snd (click getPriceForPair executeSwap newDate (render wallet st)
                       loading filter limit row b st))).
Proof.
  intros Hplain.
  assert (Hnothing :
            exists evs : list Event,
              trace (snd (@ret World unit tt st)) = trace st ++ evs
              /\ Forall byButton (transitions evs)
              /\ withoutIdField (docs (snd (@ret World unit tt st)))).
  { exists []. cbn. rewrite app_nil_r. repeat split; [constructor|exact Hplain]. }
  unfold click.
  destruct (nth_error (rows (render wallet st) filter limit) row) as [order|] eqn:Hrow;
    [|exact Hnothing].
  destruct (existsb (Button_eqb b) (buttons order)) eqn:Hb; cbn [andb];
    [|exact Hnothing].
  destruct loading; cbn [negb]; [exact Hnothing|].
  apply rows_In in Hrow. cbn [render orders] in Hrow.
  apply snapshotOrders_In in Hrow.
  destruct Hrow as (docId & data & Hdoc & _ & ->).
  pose proof (Hplain docId data Hdoc) as Hid. cbn beta in Hid.
  destruct b; [| |exact Hnothing].
  - apply CancelButton_offered in Hb. rewrite orderOfDoc_status in Hb.
    unfold handleCancel. rewrite (orderOfDoc_id docId data Hid).
    destruct (truthy_str docId); [|exact Hnothing].
    rewrite (cancelOrder_existing_eq (render wallet st) docId st data Hdoc).
    state_simpl. eexists. split; [reflexivity|]. split.
    + cbn [transitions flat_map app]. constructor; [|constructor].
      left. cbn. rewrite Hb. reflexivity.
    + apply withoutIdField_insert; [exact Hplain|].
      rewrite setFields_id. exact Hid.
  - apply RetryButton_offered in Hb. rewrite orderOfDoc_status in Hb.
    unfold handleRetry. rewrite (orderOfDoc_id docId data Hid).
    destruct (truthy_str docId); [|exact Hnothing].
    rewrite (retryOrder_existing_eq getPriceForPair executeSwap newDate
               (render wallet st) docId st data Hdoc).
    cbv zeta.
    assert (Hone : Forall byButton [(docId, status data, PENDING)]).
    { constructor; [|constructor]. right. cbn. rewrite Hb. reflexivity. }
    destruct (checkingOrders (render wallet st)); state_simpl.
    + eexists. split; [reflexivity|]. split; [exact Hone|].
      apply withoutIdField_insert; [exact Hplain|].
      rewrite setFields_id. exact Hid.
    + eexists. split; [reflexivity|]. split.
      * rewrite transitions_app, transitions_lookupEvents, app_nil_r. exact Hone.
      * apply withoutIdField_insert; [exact Hplain|].
        rewrite setFields_id. exact Hid.
Qed.

Lemma uiStep_byButton (wallet : string) (op : UiOp) (st : @State World) :
  withoutIdField (docs st) ->
  exists evs,
    trace (snd (uiStep getPriceForPair executeSwap newDate wallet op st))
    = trace st ++ evs
    /\ Forall byButton (transitions evs)
    /\ withoutIdField
         (docs (snd (uiStep getPriceForPair executeSwap newDate wallet op st))).
Proof.
  intros Hplain. unfold uiStep. destruct op.
  - apply tick_byButton. exact Hplain.
  - apply submit_byButton. exact Hplain.
  - apply click_byButton. exact Hplain.
Qed.

Lemma runUi_byButton (wallet : string) (ops : list UiOp) (st : @State World) :
  withoutIdField (docs st) ->
  exists evs,
    trace (runUi getPriceForPair executeSwap newDate wallet ops st) = trace st ++ evs
    /\ Forall byButton (transitions evs).
Proof.
  revert st. induction ops as [|op rest IH]; intros st Hplain.
  - exists []. rewrite app_nil_r. split; [reflexivity|constructor].
  - cbn [runUi].
    destruct (uiStep_byButton wallet op st Hplain) as (e1 & H1 & B1 & Hplain1).
    destruct (IH _ Hplain1) as (e2 & H2 & B2).
    exists (e1 ++ e2). rewrite H2, H1, app_assoc. split; [reflexivity|].
    rewrite transitions_app. apply Forall_app. split; assumption.
Qed.

(** X16: along every run of timer ticks, submitted drafts and clicks on
    the buttons of order tables, each handled by the render of the state
    it meets, the only status changes are PENDING to CANCELLED (a Cancel
    button) and FAILED to PENDING (a Retry button), both edges of the
    graph of the specification.  This holds from any state of the store
    whose documents carry no field `id` of their own. *)
Theorem runUi_follows_graph (wallet : string) (ops : list UiOp) (st : @State World) :
  withoutIdField (docs st) ->
  exists evs,
    trace (runUi getPriceForPair executeSwap newDate wallet ops st) = trace st ++ evs
    /\ Forall byButton (transitions evs)
    /\ Forall (fun t => Spec.transition (snd (fst t)) (snd t) = true) (transitions evs).
Proof.
  intros Hplain. destruct (runUi_byButton wallet ops st Hplain) as (evs & Htrace & Hb).
  exists evs. split; [exact Htrace|]. split; [exact Hb|].
  eapply Forall_impl; [exact Hb|].
  intros [[d a] b] [H|H]; cbn in H; injection H as -> ->; reflexivity.
Qed.

End Ui.

Lemma runUi_follows_graph_witness :
  let price := Sample.priceIs 150%float in
  let swap := Sample.swapAnswers (Ok (SwapSuccess "sig")) in
  let clock := Sample.clockShows 2000 in
  let st :=
    Sample.stateWith
      (Sample.storedOrder LIMIT 160%float FAILED (Some "slippage exceeded")) in
  let ops :=
    [UiClick ALL None 0 RetryButton; UiTick;
     UiClick (Only PENDING) (Some 5%Z) 0 CancelButton] in
  exists evs,
    trace (runUi price swap clock Sample.wallet ops st) = trace st ++ evs
    /\ Forall byButton (transitions evs)
    /\ Forall (fun t => Spec.transition (snd (fst t)) (snd t) = true) (transitions evs).
Proof.
  intros price swap clock st ops.
  apply (runUi_follows_graph price swap clock Sample.wallet ops st).
  apply map_Forall_singleton. reflexivity.
Defined.

(** A run through the table: an order whose trigger is not met is created
    and cancelled with the button of its row; a second click on the same
    row finds no Cancel button and changes nothing. *)
Example runUi_cancel_twice :
  let price := Sample.priceIs 150%float in
  let swap := Sample.swapAnswers (Ok (SwapSuccess "sig")) in
  let clock := Sample.clockShows 2000 in
  let st :=
    runUi price swap clock Sample.wallet
      [UiSubmit (Sample.solUsdc STOP_LOSS 2%float 140%float);
       UiClick ALL None 0 CancelButton;
       UiClick ALL None 0 CancelButton;
       UiClick ALL None 0 RetryButton;
       UiTick]
      Sample.emptyState in
  transitions (trace st) = [("0", PENDING, CANCELLED)]
  /\ swapCalls (trace st) = [].
Proof. vm_compute. repeat split. Qed.

(** Why the documents must carry no field `id` of their own: the PENDING
    document "4" stores the id "other", so the Cancel button of its row
    cancels the document "other", which is EXECUTED. *)
Example runUi_stored_id_field :
  let price := Sample.priceIs 150%float in
  let swap := Sample.swapAnswers (Ok (SwapSuccess "sig")) in
  let clock := Sample.clockShows 2000 in
  let named :=
    mkOrder (Some "other") Sample.wallet "SOL" "USDC" 1%float LIMIT 100%float
      PENDING 3000 None None None None in
  let st0 : @State unit :=
    mkState {["4" := named; "other" := Sample.storedOrder LIMIT 100%float EXECUTED None]}
      tt [] false false in
  let st := runUi price swap clock Sample.wallet [UiClick ALL None 0 CancelButton] st0 in
  transitions (trace st) = [("other", EXECUTED, CANCELLED)].
Proof. vm_compute. reflexivity. Qed.

End TableFacts.


(* ===================================================================== *)
(** ** Further facts about prices *)
(* ===================================================================== *)

Module PriceFacts.
Import Js JupiterService.

(** X17: when the provider answers with a price that is falsy (missing, 0
    or NaN) and no fresh entry is cached, `getTokenPrice` hands that very
    answer to its caller, after one request, and caches nothing. *)
Theorem getTokenPrice_falsy_answer_not_cached (mint : string) (now : Z)
    (p : option number) (random : number) (cache : gmap string PriceEntry) :
  isFresh now (cache !! mint) = false ->
  truthy_opt p = false ->
  getTokenPrice mint now (ReplyPrice p) random cache = mkPriceCall p cache 1.
Proof.
  intros Hstale Hfalsy. unfold getTokenPrice. rewrite Hstale.
  destruct p as [v|]; [|reflexivity].
  cbn [truthy_opt] in Hfalsy. rewrite Hfalsy. reflexivity.
Qed.

Lemma getTokenPrice_falsy_answer_not_cached_witness :
  getTokenPrice TOKENS.SOL 1000 (ReplyPrice (Some 0%float)) 0.5%float ∅
  = mkPriceCall (Some 0%float) ∅ 1.
Proof.
  apply (getTokenPrice_falsy_answer_not_cached TOKENS.SOL 1000 (Some 0%float)
           0.5%float ∅).
  - reflexivity.
  - vm_compute. reflexivity.
Defined.

(** X18: `getTokenPrice` keeps the cache sound: if every cached price is
    truthy before the call, every cached price is truthy after it; the
    entry of any other mint is left as it was; and a value that was
    returned without asking the provider is truthy. *)
Theorem getTokenPrice_keeps_cache_truthy (mint : string) (now : Z)
    (reply : ProviderReply) (random : number) (cache : gmap string PriceEntry)
    (other : string) :
  map_Forall (fun _ e => truthy (price e) = true) cache ->
  other <> mint ->
  let call := getTokenPrice mint now reply random cache in
  map_Forall (fun _ e => truthy (price e) = true) (cacheAfter call)
  /\ cacheAfter call !! other = cache !! other
  /\ (providerCalls call = 1 \/ truthy_opt (returned call) = true).
Proof.
  intros Hsound Hother call. subst call. unfold getTokenPrice.
  destruct (cache !! mint) as [e|] eqn:Hlook; cbn [isFresh].
  - destruct (now - timestamp e <? 30000)%Z.
    + cbn. split; [exact Hsound|]. split; [reflexivity|].
      right. apply (Hsound mint e Hlook).
    + destruct reply as [|[v|]]; cbn; try (split; [exact Hsound|]; auto).
      destruct (truthy v) eqn:Hv; [|auto].
      split; [apply map_Forall_insert_2; assumption|].
      split; [apply lookup_insert_ne; congruence|auto].
  - destruct reply as [|[v|]]; cbn; try (split; [exact Hsound|]; auto).
    destruct (truthy v) eqn:Hv; [|auto].
    split; [apply map_Forall_insert_2; assumption|].
    split; [apply lookup_insert_ne; congruence|auto].
Qed.

Lemma getTokenPrice_keeps_cache_truthy_witness :
  let cache : gmap string PriceEntry := {[TOKENS.SOL := mkPriceEntry 150%float 1000]} in
  let call := getTokenPrice TOKENS.USDC 2000 (ReplyPrice (Some 1%float)) 0.5%float cache in
  map_Forall (fun _ e => truthy (price e) = true) (cacheAfter call)
  /\ cacheAfter call !! TOKENS.SOL = cache !! TOKENS.SOL
  /\ (providerCalls call = 1 \/ truthy_opt (returned call) = true).
Proof.
  intros cache.
  apply (getTokenPrice_keeps_cache_truthy TOKENS.USDC 2000 (ReplyPrice (Some 1%float))
           0.5%float cache TOKENS.SOL).
  - apply map_Forall_singleton. vm_compute. reflexivity.
  - discriminate.
Defined.

(* --------------------------------------------------------------------- *)
(** *** `getPriceForPair` of the service *)

Lemma getPriceForPair_miss_eq (inputMint outputMint : string) (now : Z)
    (inputCall outputCall : TokenCall) (randomIn randomOut : number)
    (pairPriceCache tokenPriceCache : gmap string PriceEntry) :
  isFresh now (pairPriceCache !! cacheKey inputMint outputMint) = false ->
  getPriceForPair inputMint outputMint now inputCall outputCall randomIn randomOut
    pairPriceCache tokenPriceCache
  = let first :=
      getTokenPrice inputMint (at_time inputCall) (provider inputCall)
        (draw inputCall) tokenPriceCache in
    let second :=
      getTokenPrice outputMint (at_time outputCall) (provider outputCall)
        (draw outputCall) (cacheAfter first) in
    let calls := providerCalls first + providerCalls second in
    if truthy_opt (returned first) && truthy_opt (returned second) then
      let price :=
        (default 0%float (returned first) / default 0%float (returned second))%float in
      mkPairCall price
        (<[cacheKey inputMint outputMint := mkPriceEntry price now]> pairPriceCache)
        (cacheAfter second) calls
    else
      mkPairCall (getFallbackPriceRatio inputMint outputMint randomIn randomOut)
        pairPriceCache (cacheAfter second) calls.
Proof.
  intros Hstale. unfold getPriceForPair. cbv zeta.
  assert (Hmiss : forall A (hit : PriceEntry -> A) (miss : A),
             match pairPriceCache !! cacheKey inputMint outputMint with
             | Some e => if (now - timestamp e <? 30000)%Z then hit e else miss
             | None => miss
             end = miss).
  { intros A hit miss.
    destruct (pairPriceCache !! cacheKey inputMint outputMint) as [e|];
      [|reflexivity].
    cbn [isFresh] in Hstale. rewrite Hstale. reflexivity. }
  rewrite Hmiss.
  destruct (returned (getTokenPrice inputMint _ _ _ tokenPriceCache)) as [pin|];
    [|reflexivity].
  destruct (returned (getTokenPrice outputMint _ _ _ _)) as [pout|];
    [|cbn [truthy_opt]; rewrite andb_false_r; reflexivity].
  reflexivity.
Qed.

Lemma providerCalls_le_1 (mint : string) (now : Z) (reply : ProviderReply)
    (random : number) (cache : gmap string PriceEntry) :
  providerCalls (getTokenPrice mint now reply random cache) <= 1.
Proof.
  unfold getTokenPrice. destruct (isFresh now (cache !! mint)); [cbn; lia|].
  destruct reply; cbn; lia.
Qed.

Lemma cacheAfter_other (mint other : string) (now : Z) (reply : ProviderReply)
    (random : number) (cache : gmap string PriceEntry) :
  other <> mint ->
  cacheAfter (getTokenPrice mint now reply random cache) !! other = cache !! other.
Proof.
  intros Hother. unfold getTokenPrice.
  destruct (isFresh now (cache !! mint)); [reflexivity|].
  destruct reply as [|[v|]]; cbn; try reflexivity.
  destruct (truthy v); [|reflexivity]. apply lookup_insert_ne. congruence.
Qed.

(** A pair price cached less than 30 s ago is returned as it is: no
    request is sent and neither cache changes. *)
Lemma getPriceForPair_cached (inputMint outputMint : string) (now : Z)
    (inputCall outputCall : TokenCall) (randomIn randomOut : number)
    (pairPriceCache tokenPriceCache : gmap string PriceEntry) (e : PriceEntry) :
  pairPriceCache !! cacheKey inputMint outputMint = Some e ->
  (now - timestamp e < 30000)%Z ->
  getPriceForPair inputMint outputMint now inputCall outputCall randomIn randomOut
    pairPriceCache tokenPriceCache
  = mkPairCall (price e) pairPriceCache tokenPriceCache 0.
Proof.
  intros Hlook Hage. unfold getPriceForPair. cbv zeta. rewrite Hlook.
  apply Z.ltb_lt in Hage. rewrite Hage. reflexivity.
Qed.

(** X19: without a fresh pair entry, when both token lookups yield a
    truthy price, the pair price is their quotient, it is cached for the
    pair with the time of the call, and at most two requests were sent. *)
Theorem getPriceForPair_quotient (inputMint outputMint : string) (now : Z)
    (inputCall outputCall : TokenCall) (randomIn randomOut : number)
    (pairPriceCache tokenPriceCache : gmap string PriceEntry)
    (inputPrice outputPrice : number) :
  isFresh now (pairPriceCache !! cacheKey inputMint outputMint) = false ->
  let first :=
    getTokenPrice inputMint (at_time inputCall) (provider inputCall)
      (draw inputCall) tokenPriceCache in
  let second :=
    getTokenPrice outputMint (at_time outputCall) (provider outputCall)
      (draw outputCall) (cacheAfter first) in
  returned first = Some inputPrice ->
  returned second = Some outputPrice ->
  truthy inputPrice = true ->
  truthy outputPrice = true ->
  let answer :=
    getPriceForPair inputMint outputMint now inputCall outputCall randomIn randomOut
      pairPriceCache tokenPriceCache in
  pairReturned answer = (inputPrice / outputPrice)%float
  /\ pairCacheAfter answer
     = <[cacheKey inputMint outputMint
         := mkPriceEntry (inputPrice / outputPrice)%float now]> pairPriceCache
  /\ tokenCacheAfter answer = cacheAfter second
  /\ pairProviderCalls answer = providerCalls first + providerCalls second
  /\ pairProviderCalls answer <= 2.
Proof.
  intros Hstale first second Hin Hout Htin Htout answer. subst answer.
  rewrite (getPriceForPair_miss_eq _ _ _ _ _ _ _ _ _ Hstale). cbv zeta.
  fold first. fold second. rewrite Hin, Hout. cbn [truthy_opt default].
  rewrite Htin, Htout. cbn [andb pairReturned pairCacheAfter tokenCacheAfter
                             pairProviderCalls].
  repeat split.
  pose proof (providerCalls_le_1 inputMint (at_time inputCall) (provider inputCall)
                (draw inputCall) tokenPriceCache).
  pose proof (providerCalls_le_1 outputMint (at_time outputCall) (provider outputCall)
                (draw outputCall) (cacheAfter first)).
  fold first in H. fold second in H0. lia.
Qed.

(** X20: without a fresh pair entry, when one of the token lookups yields
    a falsy price, the fallback ratio is returned and the pair cache is
    left as it was: a fallback ratio of this kind is not cached. *)
Theorem getPriceForPair_fallback_not_cached (inputMint outputMint : string) (now : Z)
    (inputCall outputCall : TokenCall) (randomIn randomOut : number)
    (pairPriceCache tokenPriceCache : gmap string PriceEntry) :
  isFresh now (pairPriceCache !! cacheKey inputMint outputMint) = false ->
  let first :=
    getTokenPrice inputMint (at_time inputCall) (provider inputCall)
      (draw inputCall) tokenPriceCache in
  let second :=
    getTokenPrice outputMint (at_time outputCall) (provider outputCall)
      (draw outputCall) (cacheAfter first) in
  truthy_opt (returned first) = false \/ truthy_opt (returned second) = false ->
  let answer :=
    getPriceForPair inputMint outputMint now inputCall outputCall randomIn randomOut
      pairPriceCache tokenPriceCache in
  pairReturned answer = getFallbackPriceRatio inputMint outputMint randomIn randomOut
  /\ pairCacheAfter answer = pairPriceCache.
Proof.
  intros Hstale first second Hfalsy answer. subst answer.
  rewrite (getPriceForPair_miss_eq _ _ _ _ _ _ _ _ _ Hstale). cbv zeta.
  fold first. fold second.
  assert (Hand : truthy_opt (returned first) && truthy_opt (returned second) = false).
  { destruct Hfalsy as [-> | ->]; [reflexivity|apply andb_false_r]. }
  rewrite Hand. split; reflexivity.
Qed.

(** X21: a call of `getPriceForPair` sends at most two requests, changes
    the pair cache at no key but its own, and the token cache at no mint
    but its two. *)
Theorem getPriceForPair_footprint (inputMint outputMint : string) (now : Z)
    (inputCall outputCall : TokenCall) (randomIn randomOut : number)
    (pairPriceCache tokenPriceCache : gmap string PriceEntry)
    (otherKey otherMint : string) :
  otherKey <> cacheKey inputMint outputMint ->
  otherMint <> inputMint ->
  otherMint <> outputMint ->
  let answer :=
    getPriceForPair inputMint outputMint now inputCall outputCall randomIn randomOut
      pairPriceCache tokenPriceCache in
  pairProviderCalls answer <= 2
  /\ pairCacheAfter answer !! otherKey = pairPriceCache !! otherKey
  /\ tokenCacheAfter answer !! otherMint = tokenPriceCache !! otherMint.
Proof.
  intros Hkey Hin Hout answer. subst answer.
  destruct (isFresh now (pairPriceCache !! cacheKey inputMint outputMint)) eqn:Hfresh.
  - unfold getPriceForPair. cbv zeta.
    destruct (pairPriceCache !! cacheKey inputMint outputMint) as [e|];
      [|discriminate].
    cbn [isFresh] in Hfresh. rewrite Hfresh. cbn. repeat split. lia.
  - rewrite (getPriceForPair_miss_eq _ _ _ _ _ _ _ _ _ Hfresh). cbv zeta.
    pose proof (providerCalls_le_1 inputMint (at_time inputCall) (provider inputCall)
                  (draw inputCall) tokenPriceCache) as H1.
    pose proof (providerCalls_le_1 outputMint (at_time outputCall) (provider outputCall)
                  (draw outputCall)
                  (cacheAfter (getTokenPrice inputMint (at_time inputCall)
                                 (provider inputCall) (draw inputCall) tokenPriceCache)))
      as H2.
    destruct (truthy_opt _ && truthy_opt _); cbn.
    + split; [lia|]. split; [apply lookup_insert_ne; congruence|].
      rewrite !cacheAfter_other by assumption. reflexivity.
    + split; [lia|]. split; [reflexivity|].
      rewrite !cacheAfter_other by assumption. reflexivity.
Qed.

(** X22: a price made up during an outage is cached like a real one.
    When nothing fresh is cached, the provider fails for both tokens and
    the two fallback prices are truthy, `getPriceForPair` returns their
    quotient after two requests and stores it; a call less than 30 s
    later returns that same number without asking the provider, whatever
    the provider would answer by then. *)
Theorem getPriceForPair_outage_price_is_cached (inputMint outputMint : string)
    (now : Z) (inputCall outputCall : TokenCall) (randomIn randomOut : number)
    (pairPriceCache tokenPriceCache : gmap string PriceEntry)
    (later : Z) (inputCall' outputCall' : TokenCall) (randomIn' randomOut' : number) :
  isFresh now (pairPriceCache !! cacheKey inputMint outputMint) = false ->
  isFresh (at_time inputCall) (tokenPriceCache !! inputMint) = false ->
  isFresh (at_time outputCall) (tokenPriceCache !! outputMint) = false ->
  provider inputCall = ReplyThrows ->
  provider outputCall = ReplyThrows ->
  truthy (generateFallbackPrice inputMint (draw inputCall)) = true ->
  truthy (generateFallbackPrice outputMint (draw outputCall)) = true ->
  (later - now < 30000)%Z ->
  let outage :=
    getPriceForPair inputMint outputMint now inputCall outputCall randomIn randomOut
      pairPriceCache tokenPriceCache in
  pairReturned outage
  = (generateFallbackPrice inputMint (draw inputCall)
     / generateFallbackPrice outputMint (draw outputCall))%float
  /\ pairProviderCalls outage = 2
  /\ getPriceForPair inputMint outputMint later inputCall' outputCall'
       randomIn' randomOut' (pairCacheAfter outage) (tokenCacheAfter outage)
     = mkPairCall (pairReturned outage) (pairCacheAfter outage)
         (tokenCacheAfter outage) 0.
Proof.
  intros Hstale Hin Hout Hpin Hpout Htin Htout Hlater outage.
  assert (Hfirst : getTokenPrice inputMint (at_time inputCall) (provider inputCall)
                     (draw inputCall) tokenPriceCache
                   = mkPriceCall (Some (generateFallbackPrice inputMint (draw inputCall)))
                       tokenPriceCache 1).
  { unfold getTokenPrice. rewrite Hin, Hpin. reflexivity. }
  assert (Hsecond : getTokenPrice outputMint (at_time outputCall) (provider outputCall)
                      (draw outputCall) tokenPriceCache
                    = mkPriceCall
                        (Some (generateFallbackPrice outputMint (draw outputCall)))
                        tokenPriceCache 1).
  { unfold getTokenPrice. rewrite Hout, Hpout. reflexivity. }
  assert (Houtage :
            outage
            = mkPairCall
                (generateFallbackPrice inputMint (draw inputCall)
                 / generateFallbackPrice outputMint (draw outputCall))%float
                (<[cacheKey inputMint outputMint
                   := mkPriceEntry
                        (generateFallbackPrice inputMint (draw inputCall)
                         / generateFallbackPrice outputMint (draw outputCall))%float
                        now]> pairPriceCache)
                tokenPriceCache 2).
  { subst outage. rewrite (getPriceForPair_miss_eq _ _ _ _ _ _ _ _ _ Hstale).
    cbv zeta. rewrite Hfirst. cbn [cacheAfter returned providerCalls].
    rewrite Hsecond. cbn [cacheAfter returned providerCalls truthy_opt default].
    rewrite Htin, Htout. reflexivity. }
  rewrite Houtage. cbn [pairReturned pairProviderCalls pairCacheAfter tokenCacheAfter].
  split; [reflexivity|]. split; [reflexivity|].
  apply (getPriceForPair_cached _ _ _ _ _ _ _ _ _
           (mkPriceEntry
              (generateFallbackPrice inputMint (draw inputCall)
               / generateFallbackPrice outputMint (draw outputCall))%float now)).
  - apply lookup_insert_eq.
  - exact Hlater.
Qed.

End PriceFacts.

Module PriceSamples.
Import Js JupiterService.

Example getPriceForPair_cached_sample :
  let pairs : gmap string PriceEntry :=
    {[cacheKey TOKENS.SOL TOKENS.USDC := mkPriceEntry 150%float 1000]} in
  let failing := mkTokenCall 2000 ReplyThrows 0.5%float in
  getPriceForPair TOKENS.SOL TOKENS.USDC 30999 failing failing 0.5%float 0.5%float pairs ∅
  = mkPairCall 150%float pairs ∅ 0.
Proof.
  intros pairs failing.
  apply (PriceFacts.getPriceForPair_cached TOKENS.SOL TOKENS.USDC 30999 failing failing
           0.5%float 0.5%float pairs ∅ (mkPriceEntry 150%float 1000)).
  - vm_compute. reflexivity.
  - reflexivity.
Qed.

Lemma getPriceForPair_quotient_witness :
  let inputCall := mkTokenCall 1000 (ReplyPrice (Some 150%float)) 0.5%float in
  let outputCall := mkTokenCall 1001 (ReplyPrice (Some 2%float)) 0.5%float in
  let first := getTokenPrice TOKENS.SOL 1000 (ReplyPrice (Some 150%float)) 0.5%float ∅ in
  let second :=
    getTokenPrice TOKENS.JTO 1001 (ReplyPrice (Some 2%float)) 0.5%float (cacheAfter first) in
  let answer :=
    getPriceForPair TOKENS.SOL TOKENS.JTO 999 inputCall outputCall 0.5%float 0.5%float ∅ ∅ in
  pairReturned answer = (150 / 2)%float
  /\ pairCacheAfter answer
     = <[cacheKey TOKENS.SOL TOKENS.JTO := mkPriceEntry (150 / 2)%float 999]> ∅
  /\ tokenCacheAfter answer = cacheAfter second
  /\ pairProviderCalls answer = providerCalls first + providerCalls second
  /\ pairProviderCalls answer <= 2.
Proof.
  intros inputCall outputCall.
  apply (PriceFacts.getPriceForPair_quotient TOKENS.SOL TOKENS.JTO 999
           inputCall outputCall 0.5%float 0.5%float ∅ ∅ 150%float 2%float).
  - reflexivity.
  - vm_compute. reflexivity.
  - vm_compute. reflexivity.
  - vm_compute. reflexivity.
  - vm_compute. reflexivity.
Defined.

Lemma getPriceForPair_fallback_not_cached_witness :
  let inputCall := mkTokenCall 1000 (ReplyPrice None) 0.5%float in
  let outputCall := mkTokenCall 1001 (ReplyPrice (Some 1%float)) 0.5%float in
  let answer :=
    getPriceForPair TOKENS.SOL TOKENS.USDC 999 inputCall outputCall 0.5%float 0.5%float ∅ ∅ in
  pairReturned answer = getFallbackPriceRatio TOKENS.SOL TOKENS.USDC 0.5%float 0.5%float
  /\ pairCacheAfter answer = ∅.
Proof.
  intros inputCall outputCall.
  apply (PriceFacts.getPriceForPair_fallback_not_cached TOKENS.SOL TOKENS.USDC 999
           inputCall outputCall 0.5%float 0.5%float ∅ ∅).
  - reflexivity.
  - left. vm_compute. reflexivity.
Defined.

Lemma getPriceForPair_footprint_witness :
  let inputCall := mkTokenCall 1000 (ReplyPrice (Some 150%float)) 0.5%float in
  let outputCall := mkTokenCall 1001 (ReplyPrice (Some 1%float)) 0.5%float in
  let answer :=
    getPriceForPair TOKENS.SOL TOKENS.USDC 999 inputCall outputCall 0.5%float 0.5%float ∅ ∅ in
  pairProviderCalls answer <= 2
  /\ pairCacheAfter answer !! cacheKey TOKENS.USDC TOKENS.SOL
     = (∅ : gmap string PriceEntry) !! cacheKey TOKENS.USDC TOKENS.SOL
  /\ tokenCacheAfter answer !! TOKENS.JTO = (∅ : gmap string PriceEntry) !! TOKENS.JTO.
Proof.
  intros inputCall outputCall.
  apply (PriceFacts.getPriceForPair_footprint TOKENS.SOL TOKENS.USDC 999
           inputCall outputCall 0.5%float 0.5%float ∅ ∅
           (cacheKey TOKENS.USDC TOKENS.SOL) TOKENS.JTO).
  - vm_compute. discriminate.
  - discriminate.
  - discriminate.
Defined.

Lemma getPriceForPair_outage_price_is_cached_witness :
  let failing := mkTokenCall 1000 ReplyThrows 0.25%float in
  let recovered := mkTokenCall 20000 (ReplyPrice (Some 170%float)) 0.5%float in
  let outage :=
    getPriceForPair TOKENS.SOL TOKENS.USDC 999 failing failing 0.5%float 0.5%float ∅ ∅ in
  pairReturned outage
  = (generateFallbackPrice TOKENS.SOL 0.25 / generateFallbackPrice TOKENS.USDC 0.25)%float
  /\ pairProviderCalls outage = 2
  /\ getPriceForPair TOKENS.SOL TOKENS.USDC 20000 recovered recovered
       0.5%float 0.5%float (pairCacheAfter outage) (tokenCacheAfter outage)
     = mkPairCall (pairReturned outage) (pairCacheAfter outage)
         (tokenCacheAfter outage) 0.
Proof.
  intros failing recovered.
  apply (PriceFacts.getPriceForPair_outage_price_is_cached TOKENS.SOL TOKENS.USDC 999
           failing failing 0.5%float 0.5%float ∅ ∅ 20000 recovered recovered
           0.5%float 0.5%float).
  - reflexivity.
  - reflexivity.
  - reflexivity.
  - reflexivity.
  - reflexivity.
  - vm_compute. reflexivity.
  - vm_compute. reflexivity.
  - lia.
Defined.

End PriceSamples.

(* ===================================================================== *)
(** ** Facts about the pair price of the context *)
(* ===================================================================== *)

Module ContextFacts.
Import Js.

Lemma context_getPriceForPair_miss_eq (prices : gmap string PriceContext.TokenPrice)
    (inputToken outputToken : string) (now : Z)
    (serviceNow : Z) (inputCall outputCall : JupiterService.TokenCall)
    (randomIn randomOut : number)
    (pricePairCache servicePairCache tokenCache : gmap string JupiterService.PriceEntry) :
  JupiterService.isFresh now
    (pricePairCache !! JupiterService.cacheKey inputToken outputToken) = false ->
  exists value servicePairs tokens calls,
    PriceContext.getPriceForPair prices inputToken outputToken now serviceNow
      inputCall outputCall randomIn randomOut pricePairCache servicePairCache tokenCache
    = PriceContext.mkCall value
        (<[JupiterService.cacheKey inputToken outputToken
           := JupiterService.mkPriceEntry value now]> pricePairCache)
        servicePairs tokens calls.
Proof.
  intros Hstale. unfold PriceContext.getPriceForPair. cbv zeta.
  assert (Hmiss : forall A (hit : JupiterService.PriceEntry -> A) (miss : A),
             match pricePairCache !! JupiterService.cacheKey inputToken outputToken with
             | Some e =>
                 if (now - JupiterService.timestamp e <? PriceContext.CACHE_TTL)%Z
                 then hit e else miss
             | None => miss
             end = miss).
  { intros A hit miss.
    destruct (pricePairCache !! JupiterService.cacheKey inputToken outputToken) as [e|];
      [|reflexivity].
    cbn [JupiterService.isFresh] in Hstale. unfold PriceContext.CACHE_TTL.
    rewrite Hstale. reflexivity. }
  rewrite Hmiss.
  destruct (prices !! inputToken) as [i|]; [|eauto].
  destruct (prices !! outputToken) as [o|]; [|eauto].
  destruct (PriceContext.isRecent now (Some i) && PriceContext.isRecent now (Some o));
    eauto.
Qed.

(** X23: whatever path a call of the context's `getPriceForPair` takes
    when it finds no fresh entry (the price table, the provider or a
    fallback), its result is cached: a call for the same pair less than
    30 s later returns the identical value, sends no request and changes
    no cache, whatever the price table and the provider look like by
    then. *)
Theorem context_getPriceForPair_repeats_within_TTL
    (prices prices' : gmap string PriceContext.TokenPrice)
    (inputToken outputToken : string) (now later : Z)
    (serviceNow serviceNow' : Z)
    (inputCall outputCall inputCall' outputCall' : JupiterService.TokenCall)
    (randomIn randomOut randomIn' randomOut' : number)
    (pricePairCache servicePairCache tokenCache : gmap string JupiterService.PriceEntry) :
  JupiterService.isFresh now
    (pricePairCache !! JupiterService.cacheKey inputToken outputToken) = false ->
  (later - now < 30000)%Z ->
  let first :=
    PriceContext.getPriceForPair prices inputToken outputToken now serviceNow
      inputCall outputCall randomIn randomOut pricePairCache servicePairCache tokenCache in
  PriceContext.getPriceForPair prices' inputToken outputToken later serviceNow'
    inputCall' outputCall' randomIn' randomOut'
    (PriceContext.pricePairCacheAfter first) (PriceContext.servicePairCacheAfter first)
    (PriceContext.tokenCacheAfter first)
  = PriceContext.mkCall (PriceContext.returned first)
      (PriceContext.pricePairCacheAfter first) (PriceContext.servicePairCacheAfter first)
      (PriceContext.tokenCacheAfter first) 0.
Proof.
  intros Hstale Hlater first. subst first.
  destruct (context_getPriceForPair_miss_eq prices inputToken outputToken now serviceNow
              inputCall outputCall randomIn randomOut pricePairCache servicePairCache
              tokenCache Hstale) as (value & servicePairs & tokens & calls & ->).
  cbn. unfold PriceContext.getPriceForPair. cbv zeta.
  rewrite lookup_insert_eq. cbn [JupiterService.timestamp JupiterService.price].
  unfold PriceContext.CACHE_TTL. apply Z.ltb_lt in Hlater. rewrite Hlater.
  reflexivity.
Qed.

(** X24: without a fresh entry, when the price table holds prices of both
    tokens that are less than 30 s old, the pair price is their quotient:
    it is cached, no request is sent and the caches of the service are
    not touched. *)
Theorem context_getPriceForPair_from_price_table
    (prices : gmap string PriceContext.TokenPrice)
    (inputToken outputToken : string) (now : Z)
    (serviceNow : Z) (inputCall outputCall : JupiterService.TokenCall)
    (randomIn randomOut : number)
    (pricePairCache servicePairCache tokenCache : gmap string JupiterService.PriceEntry)
    (i o : PriceContext.TokenPrice) :
  JupiterService.isFresh now
    (pricePairCache !! JupiterService.cacheKey inputToken outputToken) = false ->
  prices !! inputToken = Some i ->
  prices !! outputToken = Some o ->
  (now - PriceContext.lastUpdated i < 30000)%Z ->
  (now - PriceContext.lastUpdated o < 30000)%Z ->
  PriceContext.getPriceForPair prices inputToken outputToken now serviceNow
    inputCall outputCall randomIn randomOut pricePairCache servicePairCache tokenCache
  = PriceContext.mkCall (PriceContext.price i / PriceContext.price o)%float
      (<[JupiterService.cacheKey inputToken outputToken
         := JupiterService.mkPriceEntry
              (PriceContext.price i / PriceContext.price o)%float now]> pricePairCache)
      servicePairCache tokenCache 0.
Proof.
  intros Hstale Hi Ho Hri Hro. unfold PriceContext.getPriceForPair. cbv zeta.
  rewrite Hi, Ho. cbn [PriceContext.isRecent]. unfold PriceContext.CACHE_TTL.
  apply Z.ltb_lt in Hri, Hro. rewrite Hri, Hro. cbn [andb].
  destruct (pricePairCache !! JupiterService.cacheKey inputToken outputToken) as [e|];
    [|reflexivity].
  cbn [JupiterService.isFresh] in Hstale. rewrite Hstale. reflexivity.
Qed.

Lemma context_getPriceForPair_repeats_within_TTL_witness :
  let failing := JupiterService.mkTokenCall 1000 JupiterService.ReplyThrows 0.25%float in
  let recovered :=
    JupiterService.mkTokenCall 20000
      (JupiterService.ReplyPrice (Some 170%float)) 0.5%float in
  let first :=
    PriceContext.getPriceForPair ∅ JupiterService.TOKENS.SOL JupiterService.TOKENS.USDC
      990 999 failing failing 0.5%float 0.5%float ∅ ∅ ∅ in
  PriceContext.getPriceForPair ∅ JupiterService.TOKENS.SOL JupiterService.TOKENS.USDC
    30989 30990 recovered recovered 0.5%float 0.5%float
    (PriceContext.pricePairCacheAfter first) (PriceContext.servicePairCacheAfter first)
    (PriceContext.tokenCacheAfter first)
  = PriceContext.mkCall (PriceContext.returned first)
      (PriceContext.pricePairCacheAfter first) (PriceContext.servicePairCacheAfter first)
      (PriceContext.tokenCacheAfter first) 0.
Proof.
  intros failing recovered.
  apply (context_getPriceForPair_repeats_within_TTL ∅ ∅
           JupiterService.TOKENS.SOL JupiterService.TOKENS.USDC 990 30989 999 30990
           failing failing recovered recovered 0.5%float 0.5%float 0.5%float 0.5%float
           ∅ ∅ ∅).
  - reflexivity.
  - lia.
Defined.

Lemma context_getPriceForPair_from_price_table_witness :
  let prices : gmap string PriceContext.TokenPrice :=
    <[JupiterService.TOKENS.SOL := PriceContext.mkTokenPrice 150%float 1000]>
      {[JupiterService.TOKENS.USDC := PriceContext.mkTokenPrice 1%float 2000]} in
  let failing := JupiterService.mkTokenCall 3000 JupiterService.ReplyThrows 0.25%float in
  PriceContext.getPriceForPair prices JupiterService.TOKENS.SOL JupiterService.TOKENS.USDC
    3000 3001 failing failing 0.5%float 0.5%float ∅ ∅ ∅
  = PriceContext.mkCall (150 / 1)%float
      (<[JupiterService.cacheKey JupiterService.TOKENS.SOL JupiterService.TOKENS.USDC
         := JupiterService.mkPriceEntry (150 / 1)%float 3000]> ∅)
      ∅ ∅ 0.
Proof.
  intros prices failing.
  apply (context_getPriceForPair_from_price_table prices
           JupiterService.TOKENS.SOL JupiterService.TOKENS.USDC 3000 3001
           failing failing 0.5%float 0.5%float ∅ ∅ ∅
           (PriceContext.mkTokenPrice 150%float 1000)
           (PriceContext.mkTokenPrice 1%float 2000)).
  - reflexivity.
  - vm_compute. reflexivity.
  - vm_compute. reflexivity.
  - simpl. lia.
  - simpl. lia.
Defined.

End ContextFacts.

(* ===================================================================== *)
(** ** Facts about the listener service *)
(* ===================================================================== *)

Module ServiceFacts.
Import Js WebSocketService.

Section Sets.

Context {A : Type} `{EqDecision A}.

Lemma elem_of_set_add (x y : A) (s : list A) :
  y ∈ set_add x s <-> y = x \/ y ∈ s.
Proof.
  unfold set_add. destruct (decide (x ∈ s)) as [Hin|Hout].
  - split; [auto|]. intros [->|H]; assumption.
  - rewrite elem_of_app, list_elem_of_singleton. tauto.
Qed.

Lemma NoDup_set_add (x : A) (s : list A) : NoDup s -> NoDup (set_add x s).
Proof.
  intros Hnd. unfold set_add. destruct (decide (x ∈ s)) as [Hin|Hout]; [exact Hnd|].
  apply NoDup_app. split; [exact Hnd|]. split.
  - intros y Hy Hy'. apply list_elem_of_singleton in Hy'. subst y. contradiction.
  - apply NoDup_singleton.
Qed.

Lemma set_add_nonempty (x : A) (s : list A) : set_add x s <> [].
Proof.
  unfold set_add. destruct (decide (x ∈ s)) as [Hin|Hout].
  - intros ->. inversion Hin.
  - destruct s; discriminate.
Qed.

Lemma elem_of_set_delete (x y : A) (s : list A) :
  y ∈ set_delete x s <-> y <> x /\ y ∈ s.
Proof. unfold set_delete. apply (list_elem_of_filter (fun z => z <> x)). Qed.

Lemma NoDup_set_delete (x : A) (s : list A) : NoDup s -> NoDup (set_delete x s).
Proof. unfold set_delete. apply NoDup_filter. Qed.

Lemma set_delete_absent (x : A) (s : list A) : x ∉ s -> set_delete x s = s.
Proof.
  unfold set_delete. induction s as [|y s IH]; intros Hout; [reflexivity|].
  apply not_elem_of_cons in Hout. destruct Hout as [Hne Hout].
  rewrite filter_cons_True by congruence. rewrite IH by exact Hout. reflexivity.
Qed.

Lemma set_delete_add (x : A) (s : list A) : x ∉ s -> set_delete x (set_add x s) = s.
Proof.
  intros Hout. unfold set_add. destruct (decide (x ∈ s)); [contradiction|].
  unfold set_delete. rewrite filter_app. fold (set_delete x s).
  rewrite set_delete_absent by exact Hout.
  rewrite filter_cons_False by (intros Hne; apply Hne; reflexivity).
  rewrite filter_nil. apply app_nil_r.
Qed.

Lemma set_delete_empty_iff (x : A) (s : list A) :
  length (set_delete x s) = 0 <-> forall y, y ∈ s -> y = x.
Proof.
  split.
  - intros Hlen y Hy. destruct (decide (y = x)) as [Heq|Hne]; [exact Heq|].
    assert (Hin : y ∈ set_delete x s) by (apply elem_of_set_delete; auto).
    destruct (set_delete x s); [inversion Hin|discriminate].
  - intros Hall. destruct (set_delete x s) as [|y rest] eqn:Hd; [reflexivity|].
    assert (Hin : y ∈ set_delete x s) by (rewrite Hd; left).
    apply elem_of_set_delete in Hin. destruct Hin as [Hne Hin].
    destruct (Hne (Hall y Hin)).
Qed.

End Sets.

Lemma eqb_0_length {A : Type} (l : list A) :
  Nat.eqb (length l) 0 = true <-> l = [].
Proof. destruct l; cbn; split; intros H; congruence. Qed.

(* --------------------------------------------------------------------- *)
(** *** What every run keeps *)

Lemma supported_subscribeToPriceUpdates (token : string) (l : Listener) (s : Service) :
  supported s -> supported (subscribeToPriceUpdates token l s).
Proof.
  intros (Hnd & Htracked & Hsets). unfold supported, subscribeToPriceUpdates.
  cbn [subscribedTokens priceListeners]. split; [|split].
  - apply NoDup_set_add. exact Hnd.
  - intros t Ht. apply elem_of_set_add in Ht.
    destruct (decide (t = token)) as [->|Hne].
    + rewrite lookup_insert_eq. eauto.
    + rewrite lookup_insert_ne by congruence. apply Htracked.
      destruct Ht as [Ht|Ht]; [contradiction|exact Ht].
  - intros t ls Hls. destruct (decide (t = token)) as [->|Hne].
    + rewrite lookup_insert_eq in Hls. injection Hls as <-.
      split; [apply set_add_nonempty|]. apply NoDup_set_add.
      destruct (priceListeners s !! token) as [ls0|] eqn:Hold; cbn.
      * apply (Hsets token ls0 Hold).
      * apply NoDup_nil_2.
    + rewrite lookup_insert_ne in Hls by congruence. apply (Hsets t ls Hls).
Qed.

Lemma supported_unsubscribeFromPriceUpdates (token : string) (l : Listener)
    (s : Service) :
  supported s -> supported (unsubscribeFromPriceUpdates token l s).
Proof.
  intros Hs. pose proof Hs as (Hnd & Htracked & Hsets).
  unfold unsubscribeFromPriceUpdates.
  destruct (priceListeners s !! token) as [ls|] eqn:Hold; [|exact Hs].
  destruct (Nat.eqb (length (set_delete l ls)) 0) eqn:Hlen;
    unfold supported; cbn [subscribedTokens priceListeners]; split; [|split| |split].
  - apply NoDup_set_delete. exact Hnd.
  - intros t Ht. apply elem_of_set_delete in Ht. destruct Ht as [Hne Ht].
    rewrite lookup_delete_ne by congruence. apply Htracked. exact Ht.
  - intros t ls' Hls. destruct (decide (t = token)) as [->|Hne].
    + rewrite lookup_delete_eq in Hls. discriminate.
    + rewrite lookup_delete_ne in Hls by congruence. apply (Hsets t ls' Hls).
  - exact Hnd.
  - intros t Ht. destruct (decide (t = token)) as [->|Hne].
    + rewrite lookup_insert_eq. eauto.
    + rewrite lookup_insert_ne by congruence. apply Htracked. exact Ht.
  - intros t ls' Hls. destruct (decide (t = token)) as [->|Hne].
    + rewrite lookup_insert_eq in Hls. injection Hls as <-. split.
      * intros Hnil. rewrite Hnil in Hlen. discriminate.
      * apply NoDup_set_delete. apply (Hsets token ls Hold).
    + rewrite lookup_insert_ne in Hls by congruence. apply (Hsets t ls' Hls).
Qed.

Lemma supported_step (op : Op) (s : Service) : supported s -> supported (step op s).
Proof.
  intros Hs. destruct op; cbn [step].
  - exact Hs.
  - split; [apply NoDup_nil_2|]. split.
    + intros t Ht. inversion Ht.
    + apply Hs.
  - apply supported_subscribeToPriceUpdates. exact Hs.
  - apply supported_unsubscribeFromPriceUpdates. exact Hs.
  - exact Hs.
  - unfold unsubscribeFromOrderUpdates.
    destruct (orderListeners s !! order); [|exact Hs].
    destruct (Nat.eqb _ 0); exact Hs.
  - exact Hs.
  - exact Hs.
Qed.

Lemma socket_step (op : Op) (s : Service) : socket s = None -> socket (step op s) = None.
Proof.
  intros Hs. destruct op; cbn [step]; try exact Hs; try reflexivity.
  - unfold unsubscribeFromPriceUpdates.
    destruct (priceListeners s !! token); [|exact Hs].
    destruct (Nat.eqb _ 0); exact Hs.
  - unfold unsubscribeFromOrderUpdates.
    destruct (orderListeners s !! order); [|exact Hs].
    destruct (Nat.eqb _ 0); exact Hs.
Qed.

Lemma run_app (ops1 ops2 : list Op) (s : Service) :
  run (ops1 ++ ops2) s = run ops2 (run ops1 s).
Proof. unfold run. apply fold_left_app. Qed.

(** X25: after any sequence of calls on a new service, every tracked token
    has at least one listener, no listener is registered twice for a
    token, no token is tracked twice, and `isConnected()` is false: the
    service never opens a socket. *)
Theorem run_keeps_service_supported (ops : list Op) :
  supported (run ops initial) /\ isConnected (run ops initial) = false.
Proof.
  assert (H : supported (run ops initial) /\ socket (run ops initial) = None).
  { induction ops as [|op ops IH] using rev_ind.
    - split; [|reflexivity]. split; [apply NoDup_nil_2|]. split.
      + intros t Ht. inversion Ht.
      + intros t ls Hls. cbn in Hls. rewrite lookup_empty in Hls. discriminate.
    - rewrite run_app. cbn [run fold_left]. destruct IH as [IH1 IH2].
      split; [apply supported_step; exact IH1|apply socket_step; exact IH2]. }
  destruct H as [H1 H2]. split; [exact H1|].
  unfold isConnected. rewrite H2. reflexivity.
Qed.

Lemma counted_step (op : Op) (s : Service) :
  counted s -> op <> Disconnect -> counted (step op s).
Proof.
  intros [Hs Hall] Hop. split; [apply supported_step; exact Hs|].
  destruct op; cbn [step]; try exact Hall; [contradiction| | |].
  - unfold subscribeToPriceUpdates. cbn [priceListeners subscribedTokens].
    intros t Ht. apply elem_of_set_add.
    destruct (decide (t = token)) as [->|Hne]; [left; reflexivity|right].
    rewrite lookup_insert_ne in Ht by congruence. apply Hall. exact Ht.
  - unfold unsubscribeFromPriceUpdates.
    destruct (priceListeners s !! token) as [ls|] eqn:Hold; [|exact Hall].
    destruct (Nat.eqb (length (set_delete l ls)) 0);
      cbn [priceListeners subscribedTokens]; intros t Ht.
    + destruct (decide (t = token)) as [->|Hne].
      * rewrite lookup_delete_eq in Ht. destruct Ht as [? Ht]. discriminate.
      * rewrite lookup_delete_ne in Ht by congruence.
        apply elem_of_set_delete. split; [exact Hne|apply Hall; exact Ht].
    + destruct (decide (t = token)) as [->|Hne].
      * apply Hall. rewrite Hold. eauto.
      * rewrite lookup_insert_ne in Ht by congruence. apply Hall. exact Ht.
  - unfold unsubscribeFromOrderUpdates.
    destruct (orderListeners s !! order); [|exact Hall].
    destruct (Nat.eqb _ 0); exact Hall.
Qed.

(** X26: as long as `disconnect()` is not called, the tracked tokens are
    exactly the tokens that have at least one listener: the first listener
    of a token starts the tracking and the removal of its last listener
    ends it.  Every call other than `disconnect()` keeps this. *)
Theorem step_keeps_tokens_counted (op : Op) (s : Service) (token : string) :
  counted s ->
  op <> Disconnect ->
  counted (step op s)
  /\ (token ∈ subscribedTokens (step op s)
      <-> exists ls, priceListeners (step op s) !! token = Some ls /\ ls <> []).
Proof.
  intros Hc Hop. pose proof (counted_step op s Hc Hop) as Hc'.
  split; [exact Hc'|]. destruct Hc' as [(_ & Htracked & Hsets) Hall]. split.
  - intros Ht. destruct (Htracked token Ht) as [ls Hls].
    exists ls. split; [exact Hls|]. apply (Hsets token ls Hls).
  - intros (ls & Hls & _). apply Hall. rewrite Hls. eauto.
Qed.

Lemma counted_initial : counted initial.
Proof.
  split; [split; [apply NoDup_nil_2|split]|].
  - intros t Ht. inversion Ht.
  - intros t ls Hls. cbn in Hls. rewrite lookup_empty in Hls. discriminate.
  - intros t [ls Hls]. cbn in Hls. rewrite lookup_empty in Hls. discriminate.
Qed.

Lemma step_keeps_tokens_counted_witness :
  counted (step (SubscribeToPriceUpdates "SOL" 1) initial)
  /\ ("SOL" ∈ subscribedTokens (step (SubscribeToPriceUpdates "SOL" 1) initial)
      <-> exists ls,
            priceListeners (step (SubscribeToPriceUpdates "SOL" 1) initial) !! "SOL"
            = Some ls /\ ls <> []).
Proof.
  apply (step_keeps_tokens_counted (SubscribeToPriceUpdates "SOL" 1) initial "SOL").
  - apply counted_initial.
  - discriminate.
Defined.

(** X27: subscribing a listener that is new for a token and unsubscribing
    it again leaves the service exactly as it was, provided the tracked
    tokens were the tokens with listeners. *)
Theorem unsubscribe_undoes_subscribe (token : string) (l : Listener) (s : Service) :
  counted s ->
  l ∉ default [] (priceListeners s !! token) ->
  unsubscribeFromPriceUpdates token l (subscribeToPriceUpdates token l s) = s.
Proof.
  intros [(Hnd & Htracked & Hsets) Hall] Hnew.
  unfold unsubscribeFromPriceUpdates, subscribeToPriceUpdates.
  cbn [priceListeners subscribedTokens socket orderListeners connectionListeners
         subscribedOrders pollingInterval].
  rewrite lookup_insert_eq. cbv zeta.
  rewrite (set_delete_add l _ Hnew).
  destruct (priceListeners s !! token) as [ls|] eqn:Hold; cbn [default].
  - destruct (Hsets token ls Hold) as [Hne _].
    destruct ls as [|x ls]; [contradiction|]. cbn [length Nat.eqb].
    rewrite insert_insert_eq, (insert_id _ _ _ Hold).
    assert (Hin : token ∈ subscribedTokens s) by (apply Hall; rewrite Hold; eauto).
    replace (set_add token (subscribedTokens s)) with (subscribedTokens s)
      by (unfold set_add; rewrite decide_True by exact Hin; reflexivity).
    destruct s; reflexivity.
  - cbn [length Nat.eqb].
    assert (Hout : token ∉ subscribedTokens s).
    { intros Hin. destruct (Htracked token Hin) as [ls Hls]. congruence. }
    rewrite (set_delete_add token _ Hout).
    rewrite (delete_insert_id _ _ _ Hold).
    destruct s; reflexivity.
Qed.

Lemma unsubscribe_undoes_subscribe_witness :
  let s := subscribeToPriceUpdates "SOL" 1 initial in
  unsubscribeFromPriceUpdates "SOL" 2 (subscribeToPriceUpdates "SOL" 2 s) = s.
Proof.
  intros s.
  apply (unsubscribe_undoes_subscribe "SOL" 2 s).
  - apply (counted_step (SubscribeToPriceUpdates "SOL" 1) initial counted_initial).
    discriminate.
  - vm_compute. intros H. apply list_elem_of_In in H. simpl in H.
    destruct H as [H|[]]. discriminate.
Defined.

(* --------------------------------------------------------------------- *)
(** *** Polling *)

(** What a poll may deliver: a price update with a truthy price for one of
    the tokens [tokens], to a listener registered for that token. *)
Lemma pollTokens_deliveries (s : Service) (tokens : list string)
    (inputs : string -> JupiterService.TokenCall) (stamps : string -> Z)
    (cache : gmap string JupiterService.PriceEntry) :
  Forall (fun d =>
            match d with
            | PriceDelivered l u =>
                tokenMint u ∈ tokens
                /\ l ∈ default [] (priceListeners s !! tokenMint u)
                /\ truthy (price u) = true
            | _ => False
            end)
    (deliveries (pollTokens s tokens inputs stamps cache))
  /\ pollProviderCalls (pollTokens s tokens inputs stamps cache) <= length tokens.
Proof.
  revert cache. induction tokens as [|token rest IH]; intros cache.
  - split; [constructor|cbn; lia].
  - cbn [pollTokens deliveries pollProviderCalls length].
    set (call := JupiterService.getTokenPrice token _ _ _ cache).
    destruct (IH (JupiterService.cacheAfter call)) as [IHd IHc].
    split.
    + apply Forall_app. split.
      * destruct (JupiterService.returned call) as [p|]; [|constructor].
        destruct (truthy p) eqn:Hp; [|constructor].
        unfold handlePriceUpdate. cbn [tokenMint].
        rewrite List.Forall_forall. intros d Hd. apply in_map_iff in Hd.
        destruct Hd as (l & <- & Hl). cbn [tokenMint price].
        split; [left|]. split; [apply list_elem_of_In; exact Hl|exact Hp].
      * eapply Forall_impl; [exact IHd|].
        intros [l u| |]; cbn; try tauto.
        intros (H1 & H2 & H3). split; [right; exact H1|tauto].
    + pose proof (PriceFacts.providerCalls_le_1 token
                    (JupiterService.at_time (inputs token))
                    (JupiterService.provider (inputs token))
                    (JupiterService.draw (inputs token)) cache) as Hle.
      fold call in Hle. lia.
Qed.


Lemma untracked_step (token : string) (op : Op) (s : Service) :
  match op with
  | SubscribeToPriceUpdates t _ => t <> token
  | _ => True
  end ->
  token ∉ subscribedTokens s -> token ∉ subscribedTokens (step op s).
Proof.
  intros Hop Hout. destruct op; cbn [step]; try exact Hout.
  - cbn. intros H. inversion H.
  - unfold subscribeToPriceUpdates. cbn [subscribedTokens].
    rewrite elem_of_set_add. intros [->|H]; [apply Hop; reflexivity|contradiction].
  - unfold unsubscribeFromPriceUpdates.
    destruct (priceListeners s !! token0); [|exact Hout].
    destruct (Nat.eqb _ 0); cbn [subscribedTokens]; [|exact Hout].
    rewrite elem_of_set_delete. tauto.
  - unfold unsubscribeFromOrderUpdates.
    destruct (orderListeners s !! order); [|exact Hout].
    destruct (Nat.eqb _ 0); exact Hout.
Qed.

Lemma untracked_run (token : string) (ops : list Op) (s : Service) :
  Forall (fun op =>
            match op with
            | SubscribeToPriceUpdates t _ => t <> token
            | _ => True
            end) ops ->
  token ∉ subscribedTokens s -> token ∉ subscribedTokens (run ops s).
Proof.
  revert s. induction ops as [|op ops IH]; intros s Hops Hout; [exact Hout|].
  apply Forall_cons in Hops. destruct Hops as [Hop Hops].
  cbn [run fold_left]. apply (IH (step op s) Hops).
  apply untracked_step; assumption.
Qed.

(** X29: `disconnect()` forgets the tracked tokens but keeps the
    listeners.  Until someone subscribes to a token again, the token
    stays untracked and no poll started from then on delivers a price for
    it, although its listeners are still registered. *)
Theorem disconnect_silences_listeners (token : string) (ops : list Op) (s : Service)
    (inputs : string -> JupiterService.TokenCall) (stamps : string -> Z)
    (cache : gmap string JupiterService.PriceEntry) :
  Forall (fun op =>
            match op with
            | SubscribeToPriceUpdates t _ => t <> token
            | _ => True
            end) ops ->
  let s' := run ops (fst (disconnect s)) in
  priceListeners (fst (disconnect s)) = priceListeners s
  /\ (token ∉ subscribedTokens s')
  /\ Forall (fun d =>
               match d with
               | PriceDelivered _ u => tokenMint u <> token
               | _ => True
               end)
       (deliveries (pollPriceUpdates s' inputs stamps cache)).
Proof.
  intros Hops s'. split; [reflexivity|].
  assert (Hout : token ∉ subscribedTokens s').
  { apply untracked_run; [exact Hops|]. cbn. intros H. inversion H. }
  split; [exact Hout|].
  unfold pollPriceUpdates.
  destruct (Nat.eqb (length (subscribedTokens s')) 0); [constructor|].
  destruct (pollTokens_deliveries s' (subscribedTokens s') inputs stamps cache)
    as [Hd _].
  eapply Forall_impl; [exact Hd|].
  intros [l u| |]; cbn; try tauto.
  intros (Hin & _ & _) Heq. apply Hout. rewrite <- Heq. exact Hin.
Qed.

Lemma disconnect_silences_listeners_witness :
  let s := subscribeToPriceUpdates "SOL" 1 initial in
  let ops := [Connect; SubscribeToPriceUpdates "JTO" 2] in
  let inputs := fun _ : string =>
    JupiterService.mkTokenCall 1000 (JupiterService.ReplyPrice (Some 150%float))
      0.5%float in
  let s' := run ops (fst (disconnect s)) in
  priceListeners (fst (disconnect s)) = priceListeners s
  /\ ("SOL" ∉ subscribedTokens s')
  /\ Forall (fun d =>
               match d with
               | PriceDelivered _ u => tokenMint u <> "SOL"
               | _ => True
               end)
       (deliveries (pollPriceUpdates s' inputs (fun _ => 1000%Z) ∅)).
Proof.
  intros s ops inputs.
  apply (disconnect_silences_listeners "SOL" ops s inputs (fun _ => 1000%Z) ∅).
  repeat constructor; discriminate.
Defined.

End ServiceFacts.
